(** * ROM downloader: download service and NSZ service

    A shallow embedding of [src/services/download_service.py] and
    [src/services/nsz_service.py], and the properties of the download and
    artifact pipeline proved about it.

    Conventions of the embedding.
    - Python [str] and [bytes] values are [string]s; a character is a code
      point below 256.
    - Python [int] is [Z]; [float] clock readings, speeds and percentages
      are idealised as rationals ([Q]).
    - A raised exception is the constructor [Raise] carrying [str(e)].
    - The file system is a finite map from textual absolute paths to nodes;
      a relative path is resolved against the working directory.
    - What the outside world supplies (clock readings, the HTTP response,
      what the archive and NSZ libraries do) is passed in as an explicit
      argument of the function that consumes it. *)

From Stdlib Require Import ZArith QArith Ascii String List Bool Lia.
From stdpp Require Import base option list gmap strings pretty.

Local Open Scope string_scope.
Local Open Scope Z_scope.

(** ** Python string primitives *)

Module Py.

Definition code (c : ascii) : N := N_of_ascii c.

(** [str.isspace] on one character, for code points below 256. *)
Definition isspace (c : ascii) : bool :=
  let n := code c in
  ((9 <=? n) && (n <=? 13) || (28 <=? n) && (n <=? 32)
   || (n =? 133) || (n =? 160))%N.

Definition lower_char (c : ascii) : ascii :=
  let n := code c in
  if ((65 <=? n) && (n <=? 90)
      || (192 <=? n) && (n <=? 222) && negb (n =? 215))%N
  then ascii_of_N (n + 32) else c.

(** [s.lower()] *)
Fixpoint lower (s : string) : string :=
  match s with
  | EmptyString => EmptyString
  | String c r => String (lower_char c) (lower r)
  end.

(** [s.startswith(p)] *)
Definition startswith (p s : string) : bool := String.prefix p s.

(** [s.endswith(suf)] *)
Definition endswith (suf s : string) : bool :=
  let ls := String.length s in
  let lf := String.length suf in
  if (lf <=? ls)%nat then String.eqb (String.substring (ls - lf) lf s) suf
  else false.

(** [c in s] for a one-character [c] *)
Fixpoint contains (c : ascii) (s : string) : bool :=
  match s with
  | EmptyString => false
  | String d r => if Ascii.eqb c d then true else contains c r
  end.

Fixpoint lstrip (s : string) : string :=
  match s with
  | EmptyString => EmptyString
  | String c r => if isspace c then lstrip r else s
  end.

Fixpoint rstrip (s : string) : string :=
  match s with
  | EmptyString => EmptyString
  | String c r =>
      match rstrip r with
      | EmptyString => if isspace c then EmptyString else String c EmptyString
      | r' => String c r'
      end
  end.

(** [s.strip()] *)
Definition strip (s : string) : string := rstrip (lstrip s).

(** [s.split(sep)] for a one-character separator: never the empty list. *)
Fixpoint split (sep : ascii) (s : string) : list string :=
  match s with
  | EmptyString => [EmptyString]
  | String c r =>
      if Ascii.eqb c sep then EmptyString :: split sep r
      else match split sep r with
           | h :: t => String c h :: t
           | [] => [String c EmptyString]
           end
  end.

(** [s.split(sep, 1)] when [sep in s]: the text before the first separator
    and the text after it. *)
Fixpoint split1 (sep : ascii) (s : string) : option (string * string) :=
  match s with
  | EmptyString => None
  | String c r =>
      if Ascii.eqb c sep then Some (EmptyString, r)
      else match split1 sep r with
           | Some (a, b) => Some (String c a, b)
           | None => None
           end
  end.

Fixpoint replace_go (old new : string) (skip : nat) (s : string) : string :=
  match s with
  | EmptyString => EmptyString
  | String c r =>
      match skip with
      | S k => replace_go old new k r
      | O =>
          if String.prefix old s
          then new +:+ replace_go old new (String.length old - 1) r
          else String c (replace_go old new 0 r)
      end
  end.

(** [s.replace(old, new)] for a non-empty [old]: every occurrence, left to
    right, without overlap. *)
Definition replace (old new s : string) : string := replace_go old new 0 s.

Definition LF : ascii := "010"%char.
Definition CR : ascii := "013"%char.

(** Text-mode reading: [\r\n] and a lone [\r] both become [\n]. *)
Fixpoint universal_newlines (s : string) : string :=
  match s with
  | EmptyString => EmptyString
  | String c r =>
      if Ascii.eqb c CR then
        match r with
        | String d r' =>
            if Ascii.eqb d LF then String LF (universal_newlines r')
            else String LF (universal_newlines r)
        | EmptyString => String LF EmptyString
        end
      else String c (universal_newlines r)
  end.

(** [sep.join(l)] *)
Definition join (sep : string) (l : list string) : string :=
  String.concat sep l.

(** [str(n)] for an [int] *)
Definition str_int (n : Z) : string := pretty n.

(** [int(x)] for a [float]: truncation towards zero. *)
Definition int_of_float (x : Q) : Z := Z.quot (Qnum x) (Zpos (Qden x)).

Definition hex_digit (c : ascii) : bool :=
  let n := code c in
  ((48 <=? n) && (n <=? 57) || (65 <=? n) && (n <=? 70)
   || (97 <=? n) && (n <=? 102))%N.

(** The digit part of an integer literal: hexadecimal digits, a single
    underscore allowed between two digits. [prev] tells whether the
    previous character was a digit. *)
Fixpoint hex_body (prev : bool) (s : string) : bool :=
  match s with
  | EmptyString => prev
  | String c r =>
      if hex_digit c then hex_body true r
      else if Ascii.eqb c "_" then prev && hex_body false r
      else false
  end.

Definition drop_sign (s : string) : string :=
  match s with
  | String c r => if Ascii.eqb c "+" || Ascii.eqb c "-" then r else s
  | EmptyString => s
  end.

Definition drop_0x (s : string) : string :=
  match s with
  | String "0" (String c r) =>
      if Ascii.eqb c "x" || Ascii.eqb c "X" then
        match r with
        | String "_" r' => r'
        | _ => r
        end
      else s
  | _ => s
  end.

(** Whether [int(s, 16)] returns (rather than raising [ValueError]):
    surrounding white space, an optional sign, an optional [0x] prefix,
    then the digits. *)
Definition int16_ok (s : string) : bool :=
  hex_body false (drop_0x (drop_sign (strip s))).

End Py.

(** ** Paths ([os.path], POSIX flavour) *)

Module Path.

(** [os.path.join(a, b)] *)
Definition join (a b : string) : string :=
  if Py.startswith "/" b then b
  else if String.eqb a EmptyString || Py.endswith "/" a then a +:+ b
  else a +:+ "/" +:+ b.

(** [os.path.basename(p)]: what follows the last slash. *)
Definition basename (p : string) : string :=
  List.last (Py.split "/" p) EmptyString.

Fixpoint rstrip_slash (s : string) : string :=
  match s with
  | EmptyString => EmptyString
  | String c r =>
      match rstrip_slash r with
      | EmptyString => if Ascii.eqb c "/" then EmptyString else String c EmptyString
      | r' => String c r'
      end
  end.

(** [os.path.expanduser("~" + rest)] with [$HOME = home]. *)
Definition expanduser_tilde (home rest : string) : string :=
  match rstrip_slash home +:+ rest with
  | EmptyString => "/"
  | p => p
  end.

End Path.

(** ** The process environment: file system, working directory, argv *)

Inductive result (A : Type) : Type :=
| Ok (a : A)
| Raise (msg : string).
Arguments Ok {A} a.
Arguments Raise {A} msg.

Inductive node : Type :=
| File (content : string)
| Dir.

Record World : Type := mkWorld {
  fs : gmap string node;
  cwd : string;            (* os.getcwd() *)
  argv : list string;      (* sys.argv *)
  home : string;           (* $HOME *)
  dir_size : Z             (* st_size reported for a directory *)
}.

Definition set_fs (w : World) (m : gmap string node) : World :=
  {| fs := m; cwd := cwd w; argv := argv w; home := home w; dir_size := dir_size w |}.
Definition set_cwd (w : World) (d : string) : World :=
  {| fs := fs w; cwd := d; argv := argv w; home := home w; dir_size := dir_size w |}.
Definition set_argv (w : World) (a : list string) : World :=
  {| fs := fs w; cwd := cwd w; argv := a; home := home w; dir_size := dir_size w |}.

Module OS.

(** A path as the kernel sees it: relative paths hang off the working
    directory. Paths are compared textually ([.], [..] and doubled slashes
    are not normalised). *)
Definition abspath (w : World) (p : string) : string :=
  if Py.startswith "/" p then p else Path.join (cwd w) p.

Definition node_at (w : World) (p : string) : option node :=
  fs w !! abspath w p.

(** [os.path.exists], [os.path.isfile], [os.path.isdir] *)
Definition exists_ (w : World) (p : string) : bool :=
  match node_at w p with Some _ => true | None => false end.
Definition isfile (w : World) (p : string) : bool :=
  match node_at w p with Some (File _) => true | _ => false end.
Definition isdir (w : World) (p : string) : bool :=
  match node_at w p with Some Dir => true | _ => false end.

(** [os.path.getsize] *)
Definition getsize (w : World) (p : string) : result Z :=
  match node_at w p with
  | Some (File c) => Ok (Z.of_nat (String.length c))
  | Some Dir => Ok (dir_size w)
  | None => Raise "[Errno 2] No such file or directory"
  end.

(** [os.remove]: unlinks a regular file, raises on a directory or on a
    missing path. *)
Definition remove (w : World) (p : string) : World * result unit :=
  match node_at w p with
  | Some (File _) => (set_fs w (delete (abspath w p) (fs w)), Ok tt)
  | Some Dir => (w, Raise "[Errno 21] Is a directory")
  | None => (w, Raise "[Errno 2] No such file or directory")
  end.

(** [os.makedirs(p, exist_ok=True)]. The map does not record the
    hierarchy, so the parents it would create are not represented. *)
Definition makedirs (w : World) (p : string) : World * result unit :=
  match node_at w p with
  | Some Dir => (w, Ok tt)
  | Some (File _) => (w, Raise "[Errno 17] File exists")
  | None => (set_fs w (<[abspath w p := Dir]> (fs w)), Ok tt)
  end.

(** [open(p, 'wb')] and [open(p, 'ab')]: the handle is the resolved path. *)
Definition open_wb (w : World) (p : string) : World * result string :=
  match node_at w p with
  | Some Dir => (w, Raise "[Errno 21] Is a directory")
  | _ => (set_fs w (<[abspath w p := File EmptyString]> (fs w)), Ok (abspath w p))
  end.
Definition open_ab (w : World) (p : string) : World * result string :=
  match node_at w p with
  | Some Dir => (w, Raise "[Errno 21] Is a directory")
  | Some (File _) => (w, Ok (abspath w p))
  | None => (set_fs w (<[abspath w p := File EmptyString]> (fs w)), Ok (abspath w p))
  end.

(** [f.write(data)] on an open handle: appends to the file the handle
    names. Once the path has been unlinked the bytes no longer reach the
    name space. *)
Definition write (w : World) (handle data : string) : World :=
  match fs w !! handle with
  | Some (File c) => set_fs w (<[handle := File (c +:+ data)]> (fs w))
  | _ => w
  end.

(** A whole file written by a library, named by its absolute path:
    creates or replaces a regular file, never a directory. *)
Definition write_file (w : World) (p content : string) : World :=
  match fs w !! p with
  | Some Dir => w
  | _ => set_fs w (<[p := File content]> (fs w))
  end.

(** [open(p, 'r').read()] *)
Definition read_text (w : World) (p : string) : result string :=
  match node_at w p with
  | Some (File c) => Ok (Py.universal_newlines c)
  | Some Dir => Raise "[Errno 21] Is a directory"
  | None => Raise "[Errno 2] No such file or directory"
  end.

(** The entry name of [k] inside directory [d], if [k] is directly in it. *)
Definition child_of (d k : string) : option string :=
  let pre := if Py.endswith "/" d then d else d +:+ "/" in
  if Py.startswith pre k then
    let n := String.substring (String.length pre) (String.length k - String.length pre) k in
    if String.eqb n EmptyString || Py.contains "/" n then None else Some n
  else None.

(** [os.listdir] *)
Definition listdir (w : World) (p : string) : result (list string) :=
  match node_at w p with
  | Some Dir => Ok (omap (fun kv => child_of (abspath w p) (fst kv)) (map_to_list (fs w)))
  | Some (File _) => Raise "[Errno 20] Not a directory"
  | None => Raise "[Errno 2] No such file or directory"
  end.

(** [os.chdir] *)
Definition chdir (w : World) (p : string) : World * result unit :=
  match node_at w p with
  | Some Dir => (set_cwd w (abspath w p), Ok tt)
  | Some (File _) => (w, Raise "[Errno 20] Not a directory")
  | None => (w, Raise "[Errno 2] No such file or directory")
  end.

(** [shutil.copy2(src, dst)] for a file destination *)
Definition copy2 (w : World) (src dst : string) : World * result unit :=
  match node_at w src with
  | Some (File c) =>
      match node_at w dst with
      | Some Dir => (w, Raise "[Errno 21] Is a directory")
      | _ => (set_fs w (<[abspath w dst := File c]> (fs w)), Ok tt)
      end
  | Some Dir => (w, Raise "[Errno 21] Is a directory")
  | None => (w, Raise "[Errno 2] No such file or directory")
  end.

End OS.

(** ** Computations over the process environment that may raise *)

Definition M (A : Type) : Type := World -> World * result A.

Definition ret {A} (a : A) : M A := fun w => (w, Ok a).
Definition raise {A} (msg : string) : M A := fun w => (w, Raise msg).
Definition bind {A B} (m : M A) (k : A -> M B) : M B :=
  fun w => match m w with
           | (w1, Ok a) => k a w1
           | (w1, Raise e) => (w1, Raise e)
           end.
Definition get {A} (f : World -> A) : M A := fun w => (w, Ok (f w)).
Definition lift {A} (f : World -> result A) : M A := fun w => (w, f w).

(** [try: body  except Exception as e: handler(str(e))] *)
Definition try_except {A} (body : M A) (handler : string -> M A) : M A :=
  fun w => match body w with
           | (w1, Ok a) => (w1, Ok a)
           | (w1, Raise e) => handler e w1
           end.

(** [try: body  finally: fin]: [fin] always runs; if it raises, its
    exception replaces the outcome of the body. *)
Definition try_finally {A} (body : M A) (fin : M unit) : M A :=
  fun w => match body w with
           | (w1, r) =>
               match fin w1 with
               | (w2, Ok _) => (w2, r)
               | (w2, Raise e) => (w2, Raise e)
               end
           end.

Notation "'let!' x ':=' m 'in' k" := (bind m (fun x => k))
  (at level 10, x name, m at level 200, k at level 200, only parsing).
Notation "'run!' m 'in' k" := (bind m (fun _ => k))
  (at level 10, m at level 200, k at level 200, only parsing).

(** ** NSZ service ([nsz_service.py]) *)

(** What one call of the [nsz] library's [decompress] does to the process:
    the files it writes (absolute path and content), whether it leaves
    another working directory or another [sys.argv] behind, and whether it
    raises. *)
Record NszRun : Type := mkNszRun {
  nsz_writes : list (string * string);
  nsz_cwd : option string;
  nsz_argv : option (list string);
  nsz_raises : option string
}.

Definition write_all (files : list (string * string)) (w : World) : World :=
  fold_left (fun w' pc => OS.write_file w' (fst pc) (snd pc)) files w.

Definition decompress (lib : NszRun) : M unit :=
  fun w =>
    let w1 := write_all (nsz_writes lib) w in
    let w2 := match nsz_cwd lib with Some d => set_cwd w1 d | None => w1 end in
    let w3 := match nsz_argv lib with Some a => set_argv w2 a | None => w2 end in
    (w3, match nsz_raises lib with Some e => Raise e | None => Ok tt end).

Module NSZService.

(** [_setup_keys_environment]: the first default location that exists. *)
Definition _setup_keys_environment (w : World) : option string :=
  let default_keys_paths :=
    [ Path.expanduser_tilde (home w) "/.switch/prod.keys";
      Path.join (cwd w) "keys.txt";
      Path.join (cwd w) "prod.keys" ] in
  List.find (OS.exists_ w) default_keys_paths.

(** The body of the [for line in lines] loop: does this line count? *)
Definition valid_line (line0 : string) : bool :=
  let line := Py.strip line0 in
  if Py.contains "=" line && (10 <? String.length line)%nat then
    match Py.split1 "=" line with
    | Some (key_name, key_value) =>
        if (String.length key_value =? 32)%nat then Py.int16_ok key_value
        else false
    | None => false
    end
  else false.

Fixpoint count_valid_lines (lines : list string) (valid_lines : Z) : Z :=
  match lines with
  | [] => valid_lines
  | line :: rest =>
      count_valid_lines rest
        (if valid_line line then valid_lines + 1 else valid_lines)
  end.

Definition _validate_keys_file (w : World) (keys_path : string) : bool :=
  match OS.read_text w keys_path with
  | Ok content =>
      let lines := Py.split Py.LF (Py.strip content) in
      (0 <? count_valid_lines lines 0)%Z
  | Raise _ => false
  end.

Definition _ensure_keys_in_switch_dir (keys_path : option string) : M unit :=
  match keys_path with
  | None => ret tt
  | Some kp =>
      if String.eqb kp EmptyString then ret tt
      else
        let! h := get home in
        let switch_dir := Path.expanduser_tilde h "/.switch" in
        let expected_keys := Path.join switch_dir "prod.keys" in
        let! have_dir := get (fun w => OS.exists_ w switch_dir) in
        run! (if have_dir then ret tt else fun w => OS.makedirs w switch_dir) in
        let! have_keys := get (fun w => OS.exists_ w expected_keys) in
        if negb have_keys && negb (String.eqb kp expected_keys)
        then fun w => OS.copy2 w kp expected_keys
        else ret tt
  end.

(** [set_keys_path]: the process afterwards, the [keys_path] of the service
    afterwards, and what the call returns or raises. *)
Definition set_keys_path (old : option string) (keys_path : string) (w : World)
  : World * option string * result bool :=
  let direct := OS.isfile w keys_path
                && Py.endswith ".keys" (Py.lower keys_path) in
  let prod_keys_path := Path.join keys_path "prod.keys" in
  let actual_keys_path :=
    if direct then Some keys_path
    else if OS.isdir w keys_path then
      if OS.exists_ w prod_keys_path then Some prod_keys_path else None
    else None in
  match actual_keys_path with
  | Some akp =>
      if negb (String.eqb akp EmptyString) && _validate_keys_file w akp then
        (* self.keys_path is assigned before the copy is attempted *)
        match _ensure_keys_in_switch_dir (Some akp) w with
        | (w1, Ok _) => (w1, Some akp, Ok true)
        | (w1, Raise e) => (w1, Some akp, Raise e)
        end
      else (w, old, Ok false)
  | None => (w, old, Ok false)
  end.

Definition is_available (keys_path : option string) (w : World) : bool :=
  match keys_path with
  | Some kp => OS.isfile w kp
  | None => false
  end.

(** The part of [decompress_nsz] inside [try:], lines 179-206. *)
Definition decompress_stage (keys_path : option string) (lib : NszRun)
    (nsz_file_path output_dir : string) : M (bool * string) :=
  run! (fun w => OS.chdir w output_dir) in
  run! _ensure_keys_in_switch_dir keys_path in
  run! decompress lib in
  let nsz_filename := Path.basename nsz_file_path in
  let expected_nsp := Py.replace ".nsz" ".nsp" nsz_filename in
  let nsp_path := Path.join output_dir expected_nsp in
  let! found := get (fun w => OS.isfile w nsp_path) in
  if found then ret (true, "Successfully decompressed to " +:+ nsp_path)
  else
    let! entries := lift (fun w => OS.listdir w output_dir) in
    let nsp_files := List.filter (Py.endswith ".nsp") entries in
    match nsp_files with
    | _ :: _ =>
        ret (true, "Successfully decompressed. Created: " +:+ Py.join ", " nsp_files)
    | [] => ret (false, "Decompression completed but no NSP files found")
    end.

(** The [finally:] block, lines 210-213. *)
Definition restore (original_cwd : string) (original_argv : list string) : M unit :=
  run! (fun w => OS.chdir w original_cwd) in
  fun w => (set_argv w original_argv, Ok tt).

Definition decompress_nsz (keys_path : option string) (lib : NszRun)
    (nsz_file_path output_dir : string) : M (bool * string) :=
  let! available := get (is_available keys_path) in
  if negb available
  then ret (false, "NSZ service not available. Check nsz library and keys file.")
  else
    let! is_file := get (fun w => OS.isfile w nsz_file_path) in
    if negb is_file then ret (false, "NSZ file not found: " +:+ nsz_file_path)
    else if negb (Py.endswith ".nsz" (Py.lower nsz_file_path))
    then ret (false, "File is not an NSZ file")
    else
      run! (fun w => OS.makedirs w output_dir) in
      let! original_cwd := get cwd in
      let! original_argv := get argv in
      try_finally
        (try_except
           (decompress_stage keys_path lib nsz_file_path output_dir)
           (fun e => ret (false, "NSZ decompression failed: " +:+ e)))
        (restore original_cwd original_argv).

(** [get_decompressed_size_estimate] *)
Definition get_decompressed_size_estimate (w : World) (nsz_file_path : string)
  : option Z :=
  if OS.isfile w nsz_file_path then
    match OS.getsize w nsz_file_path with
    | Ok nsz_size => Some (nsz_size * 2)
    | Raise _ => None
    end
  else None.

End NSZService.

(** ** Download service ([download_service.py]) *)

(** A Python [dict] with string keys: insertion-ordered, one entry per key;
    assigning to an existing key keeps its position. *)
Module Dict.

Fixpoint get {V} (k : string) (d : list (string * V)) : option V :=
  match d with
  | [] => None
  | (k', v) :: r => if String.eqb k k' then Some v else get k r
  end.

Fixpoint set {V} (k : string) (v : V) (d : list (string * V)) : list (string * V) :=
  match d with
  | [] => [(k, v)]
  | (k', v') :: r =>
      if String.eqb k k' then (k, v) :: r else (k', v') :: set k v r
  end.

Fixpoint del {V} (k : string) (d : list (string * V)) : list (string * V) :=
  match d with
  | [] => []
  | (k', v') :: r => if String.eqb k k' then del k r else (k', v') :: del k r
  end.

End Dict.

(** The five values [task.status] takes. *)
Inductive Status : Type := pending | downloading | completed | failed | paused.

Global Instance Status_eq_dec : EqDecision Status.
Proof. solve_decision. Defined.

Record DownloadTask : Type := mkTask {
  url : string;
  filename : string;
  destination : string;
  status : Status;
  progress : Q;
  downloaded_bytes : Z;
  total_bytes : Z;
  speed : Q;
  error_message : string;
  start_time : option Q;
  end_time : option Q
}.

(** [DownloadTask.__init__] *)
Definition new_task (url filename destination : string) : DownloadTask :=
  {| url := url; filename := filename; destination := destination;
     status := pending; progress := 0; downloaded_bytes := 0;
     total_bytes := 0; speed := 0; error_message := EmptyString;
     start_time := None; end_time := None |}.

Definition get_output_path (t : DownloadTask) : string :=
  Path.join (destination t) (filename t).

Definition with_status (v : Status) (t : DownloadTask) : DownloadTask :=
  mkTask (url t) (filename t) (destination t) v (progress t)
    (downloaded_bytes t) (total_bytes t) (speed t) (error_message t)
    (start_time t) (end_time t).
Definition with_progress (v : Q) (t : DownloadTask) : DownloadTask :=
  mkTask (url t) (filename t) (destination t) (status t) v
    (downloaded_bytes t) (total_bytes t) (speed t) (error_message t)
    (start_time t) (end_time t).
Definition with_downloaded_bytes (v : Z) (t : DownloadTask) : DownloadTask :=
  mkTask (url t) (filename t) (destination t) (status t) (progress t)
    v (total_bytes t) (speed t) (error_message t)
    (start_time t) (end_time t).
Definition with_total_bytes (v : Z) (t : DownloadTask) : DownloadTask :=
  mkTask (url t) (filename t) (destination t) (status t) (progress t)
    (downloaded_bytes t) v (speed t) (error_message t)
    (start_time t) (end_time t).
Definition with_speed (v : Q) (t : DownloadTask) : DownloadTask :=
  mkTask (url t) (filename t) (destination t) (status t) (progress t)
    (downloaded_bytes t) (total_bytes t) v (error_message t)
    (start_time t) (end_time t).
Definition with_error_message (v : string) (t : DownloadTask) : DownloadTask :=
  mkTask (url t) (filename t) (destination t) (status t) (progress t)
    (downloaded_bytes t) (total_bytes t) (speed t) v
    (start_time t) (end_time t).
Definition with_start_time (v : Q) (t : DownloadTask) : DownloadTask :=
  mkTask (url t) (filename t) (destination t) (status t) (progress t)
    (downloaded_bytes t) (total_bytes t) (speed t) (error_message t)
    (Some v) (end_time t).
Definition with_end_time (v : Q) (t : DownloadTask) : DownloadTask :=
  mkTask (url t) (filename t) (destination t) (status t) (progress t)
    (downloaded_bytes t) (total_bytes t) (speed t) (error_message t)
    (start_time t) (Some v).

(** The service and the process it lives in. Task objects are shared
    between the registry and the workers, so they live in [heap] and are
    named by their address; objects are only ever appended. The registered
    callbacks are represented by what they are sent: [status_log] and
    [progress_log] (the latter with the task as it is at the call). *)
Record DownloadService : Type := mkService {
  world : World;
  heap : list DownloadTask;
  downloads : list (string * nat);
  active_downloads : Z;
  max_concurrent_downloads : Z;
  download_threads : list (string * nat);
  threads : list string;          (* workers started so far: their task_id *)
  keys_path : option string;      (* nsz_service.keys_path *)
  status_log : list (string * string * string);
  progress_log : list (string * DownloadTask)
}.

Definition with_world (w : World) (s : DownloadService) : DownloadService :=
  mkService w (heap s) (downloads s) (active_downloads s)
    (max_concurrent_downloads s) (download_threads s) (threads s)
    (keys_path s) (status_log s) (progress_log s).
Definition with_heap (h : list DownloadTask) (s : DownloadService) : DownloadService :=
  mkService (world s) h (downloads s) (active_downloads s)
    (max_concurrent_downloads s) (download_threads s) (threads s)
    (keys_path s) (status_log s) (progress_log s).
Definition with_downloads (d : list (string * nat)) (s : DownloadService) : DownloadService :=
  mkService (world s) (heap s) d (active_downloads s)
    (max_concurrent_downloads s) (download_threads s) (threads s)
    (keys_path s) (status_log s) (progress_log s).
Definition with_active_downloads (n : Z) (s : DownloadService) : DownloadService :=
  mkService (world s) (heap s) (downloads s) n
    (max_concurrent_downloads s) (download_threads s) (threads s)
    (keys_path s) (status_log s) (progress_log s).
Definition with_download_threads (d : list (string * nat)) (s : DownloadService) : DownloadService :=
  mkService (world s) (heap s) (downloads s) (active_downloads s)
    (max_concurrent_downloads s) d (threads s)
    (keys_path s) (status_log s) (progress_log s).
Definition with_threads (t : list string) (s : DownloadService) : DownloadService :=
  mkService (world s) (heap s) (downloads s) (active_downloads s)
    (max_concurrent_downloads s) (download_threads s) t
    (keys_path s) (status_log s) (progress_log s).
Definition with_status_log (l : list (string * string * string)) (s : DownloadService) : DownloadService :=
  mkService (world s) (heap s) (downloads s) (active_downloads s)
    (max_concurrent_downloads s) (download_threads s) (threads s)
    (keys_path s) l (progress_log s).
Definition with_progress_log (l : list (string * DownloadTask)) (s : DownloadService) : DownloadService :=
  mkService (world s) (heap s) (downloads s) (active_downloads s)
    (max_concurrent_downloads s) (download_threads s) (threads s)
    (keys_path s) (status_log s) l.

(** [DownloadService.__init__] in a given process. *)
Definition new_service (w : World) : DownloadService :=
  mkService w [] [] 0 3 [] [] (NSZService._setup_keys_environment w) [] [].

(** The object at an address. *)
Definition task_at (s : DownloadService) (l : nat) : DownloadTask :=
  default (new_task EmptyString EmptyString EmptyString) (heap s !! l).

(** A field assignment [task.x = v] on the object at [l]. *)
Definition update_task (l : nat) (f : DownloadTask -> DownloadTask)
    (s : DownloadService) : DownloadService :=
  with_heap (alter f l (heap s)) s.

Definition _notify_progress (task_id : string) (l : nat) (s : DownloadService)
  : DownloadService :=
  with_progress_log (progress_log s ++ [(task_id, task_at s l)]) s.

Definition _notify_status (task_id status message : string) (s : DownloadService)
  : DownloadService :=
  with_status_log (status_log s ++ [(task_id, status, message)]) s.

(** [add_download]; [now] is what [time.time()] returns. *)
Definition add_download (now : Q) (url filename destination : string)
    (s : DownloadService) : DownloadService * result string :=
  let task_id := filename +:+ "_" +:+ Py.str_int (Py.int_of_float now) in
  match OS.makedirs (world s) destination with
  | (w1, Raise e) => (with_world w1 s, Raise e)
  | (w1, Ok _) =>
      let l := length (heap s) in
      let s1 := with_world w1 s in
      let s2 := with_heap (heap s1 ++ [new_task url filename destination]) s1 in
      let s3 := with_downloads (Dict.set task_id l (downloads s2)) s2 in
      (_notify_status task_id "added" ("Added download: " +:+ filename) s3,
       Ok task_id)
  end.

(** [threading.Thread(target=self._download_worker, args=(task_id,)).start()] *)
Definition spawn_worker (task_id : string) (s : DownloadService) : DownloadService :=
  let thread := length (threads s) in
  let s1 := with_threads (threads s ++ [task_id]) s in
  with_download_threads (Dict.set task_id thread (download_threads s1)) s1.

Definition start_download (task_id : string) (s : DownloadService)
  : DownloadService * bool :=
  match Dict.get task_id (downloads s) with
  | None => (s, false)
  | Some l =>
      if negb (bool_decide (status (task_at s l) = pending)) then (s, false)
      else if active_downloads s >=? max_concurrent_downloads s then (s, false)
      else
        let s1 := spawn_worker task_id s in
        (with_active_downloads (active_downloads s1 + 1) s1, true)
  end.

Fixpoint start_all_loop (items : list (string * nat)) (started : Z)
    (s : DownloadService) : DownloadService * Z :=
  match items with
  | [] => (s, started)
  | (task_id, l) :: rest =>
      if bool_decide (status (task_at s l) = pending)
         && (active_downloads s <? max_concurrent_downloads s)
      then
        match start_download task_id s with
        | (s1, true) => start_all_loop rest (started + 1) s1
        | (s1, false) => start_all_loop rest started s1
        end
      else start_all_loop rest started s
  end.

Definition start_all_downloads (s : DownloadService) : DownloadService * Z :=
  start_all_loop (downloads s) 0 s.

Definition pause_download (task_id : string) (s : DownloadService) : DownloadService :=
  match Dict.get task_id (downloads s) with
  | Some l =>
      if bool_decide (status (task_at s l) = downloading) then
        _notify_status task_id "paused" "Download paused"
          (update_task l (with_status paused) s)
      else s
  | None => s
  end.

Definition resume_download (task_id : string) (s : DownloadService) : DownloadService :=
  match Dict.get task_id (downloads s) with
  | Some l =>
      if bool_decide (status (task_at s l) = paused) then
        fst (start_download task_id (update_task l (with_status pending) s))
      else s
  | None => s
  end.

Definition cancel_download (task_id : string) (s : DownloadService) : DownloadService :=
  match Dict.get task_id (downloads s) with
  | Some l =>
      let s1 :=
        if bool_decide (status (task_at s l) = downloading) then
          update_task l (fun t => with_error_message "Cancelled by user"
                                    (with_status failed t)) s
        else s in
      let output_path := get_output_path (task_at s1 l) in
      let s2 :=
        if OS.exists_ (world s1) output_path
        then with_world (fst (OS.remove (world s1) output_path)) s1
        else s1 in
      let s3 := with_downloads (Dict.del task_id (downloads s2)) s2 in
      let s4 := with_download_threads (Dict.del task_id (download_threads s3)) s3 in
      _notify_status task_id "cancelled" "Download cancelled" s4
  | None => s
  end.

(** [get_download_status]: the task, if any. *)
Definition get_download_status (task_id : string) (s : DownloadService)
  : option DownloadTask :=
  match Dict.get task_id (downloads s) with
  | Some l => Some (task_at s l)
  | None => None
  end.

Definition clear_completed_downloads (s : DownloadService) : DownloadService :=
  let to_remove :=
    List.filter (fun kv => bool_decide (status (task_at s (snd kv)) = completed)
                        || bool_decide (status (task_at s (snd kv)) = failed))
      (downloads s) in
  fold_left (fun s' kv =>
      let s1 := with_downloads (Dict.del (fst kv) (downloads s')) s' in
      with_download_threads (Dict.del (fst kv) (download_threads s1)) s1)
    to_remove s.

(** What one [ZipFile(zip_path).extractall(destination)] does: the files it
    writes (absolute path and content) and whether it raises. *)
Record ZipRun : Type := mkZipRun {
  zip_writes : list (string * string);
  zip_raises : option string
}.

Definition _extract_zip (lib : ZipRun) : M unit :=
  fun w =>
    (write_all (zip_writes lib) w,
     match zip_raises lib with Some e => Raise e | None => Ok tt end).

(** Lines 361-372: the [try] around extraction and removal of the archive. *)
Definition post_zip (task_id : string) (l : nat) (lib : ZipRun)
    (s : DownloadService) : DownloadService :=
  let task := task_at s l in
  let output_path := get_output_path task in
  match (run! _extract_zip lib in fun w => OS.remove w output_path) (world s) with
  | (w1, Ok _) =>
      _notify_status task_id "extracted" ("Extracted ZIP: " +:+ filename task)
        (with_world w1 s)
  | (w1, Raise e) =>
      _notify_status task_id "extract_failed" ("ZIP extraction failed: " +:+ e)
        (update_task l (with_error_message ("ZIP extraction failed: " +:+ e))
           (with_world w1 s))
  end.

(** Lines 376-393: the [try] around NSZ decompression. *)
Definition post_nsz (task_id : string) (l : nat) (lib : NszRun)
    (s : DownloadService) : DownloadService :=
  let task := task_at s l in
  let output_path := get_output_path task in
  let s1 := _notify_status task_id "decompressing"
              ("Decompressing NSZ: " +:+ filename task) s in
  match NSZService.decompress_nsz (keys_path s1) lib output_path
          (destination task) (world s1) with
  | (w1, Ok (true, message)) =>
      _notify_status task_id "decompressed" ("Decompressed NSZ: " +:+ message)
        (with_world w1 s1)
  | (w1, Ok (false, message)) =>
      _notify_status task_id "decompress_failed"
        ("NSZ decompression failed: " +:+ message)
        (update_task l (with_error_message ("NSZ decompression failed: " +:+ message))
           (with_world w1 s1))
  | (w1, Raise e) =>
      _notify_status task_id "decompress_failed"
        ("NSZ decompression failed: " +:+ e)
        (update_task l (with_error_message ("NSZ decompression failed: " +:+ e))
           (with_world w1 s1))
  end.

(** What the libraries used after a download do. *)
Record PostEnv : Type := mkPostEnv {
  zip_run : ZipRun;
  nsz_run : NszRun
}.

Definition _handle_post_download (task_id : string) (env : PostEnv)
    (s : DownloadService) : DownloadService * result unit :=
  match Dict.get task_id (downloads s) with
  | None => (s, Raise ("'" +:+ task_id +:+ "'"))      (* KeyError *)
  | Some l =>
      let output_path := get_output_path (task_at s l) in
      if Py.endswith ".zip" (Py.lower output_path)
      then (post_zip task_id l (zip_run env) s, Ok tt)
      else if Py.endswith ".nsz" (Py.lower output_path)
      then (post_nsz task_id l (nsz_run env) s, Ok tt)
      else (s, Ok tt)
  end.

Definition first_pending (s : DownloadService) : option string :=
  fst <$> List.find (fun kv => bool_decide (status (task_at s (snd kv)) = pending))
            (downloads s).

Definition _start_next_pending_download (s : DownloadService) : DownloadService :=
  if active_downloads s <? max_concurrent_downloads s then
    match first_pending s with
    | Some task_id => fst (start_download task_id s)
    | None => s
    end
  else s.

(** *** The worker *)

(** What another thread may do to the task between two chunks. *)
Inductive Interrupt : Type := IPause | ICancel.

(** What the worker meets while it iterates over the response body: a chunk
    (with the clock reading taken after writing it), a call made by another
    thread before the next chunk is looked at, or an exception from the
    transport or from the write. *)
Inductive StreamItem : Type :=
| Chunk (data : string) (now : Q)
| Interrupted (i : Interrupt)
| StreamRaise (msg : string).

(** Outcome of [requests.get(...)] followed by [raise_for_status()]; the
    content length is the header already read as an integer. *)
Inductive Response : Type :=
| RequestRaise (msg : string)
| RequestOk (content_length : option Z) (body : list StreamItem).

Record WorkerEnv : Type := mkWorkerEnv {
  t_start : Q;                          (* time.time(), line 256 *)
  respond : option Z -> Response;       (* the server, given the Range offset *)
  t_loop : Q;                           (* time.time(), line 290 *)
  t_end : Q;                            (* time.time(), line 322 *)
  t_fail : Q;                           (* time.time(), line 336 *)
  post : PostEnv
}.

Definition interrupt (i : Interrupt) (task_id : string) (s : DownloadService)
  : DownloadService :=
  match i with
  | IPause => pause_download task_id s
  | ICancel => cancel_download task_id s
  end.

(** Lines 298-315, for a non-empty chunk. *)
Definition take_chunk (task_id : string) (l : nat) (f data : string) (now : Q)
    (last_update : Q) (bytes_since_update : Z) (s : DownloadService)
  : DownloadService * Q * Z :=
  let n := Z.of_nat (String.length data) in
  let s1 := with_world (OS.write (world s) f data) s in
  let s2 := update_task l (fun t => with_downloaded_bytes (downloaded_bytes t + n) t) s1 in
  let bytes_since_update := bytes_since_update + n in
  if Qle_bool (1 # 2) (now - last_update) then
    let time_diff := (now - last_update)%Q in
    let s3 := update_task l (with_speed (inject_Z bytes_since_update / time_diff)) s2 in
    let s4 :=
      if 0 <? total_bytes (task_at s3 l) then
        update_task l (fun t => with_progress
          (inject_Z (downloaded_bytes t) / inject_Z (total_bytes t) * 100) t) s3
      else s3 in
    (_notify_progress task_id l s4, now, 0)
  else (s2, last_update, bytes_since_update).

(** The local variables of the loop next to the service itself. *)
Record LoopState : Type := mkLoop {
  svc : DownloadService;
  last_update : Q;
  bytes_since_update : Z
}.

Inductive LoopStep : Type :=
| Continue (c : LoopState)
| Break (s : DownloadService)
| Raised (s : DownloadService) (e : string).

(** One turn of the loop, lines 294-315. *)
Definition loop_step (task_id : string) (l : nat) (f : string)
    (item : StreamItem) (c : LoopState) : LoopStep :=
  let s := svc c in
  match item with
  | Interrupted i =>
      Continue (mkLoop (interrupt i task_id s) (last_update c) (bytes_since_update c))
  | StreamRaise e => Raised s e
  | Chunk data now =>
      if negb (bool_decide (status (task_at s l) = downloading)) then Break s
      else if String.eqb data EmptyString then Continue c
      else
        match take_chunk task_id l f data now (last_update c) (bytes_since_update c) s with
        | (s1, last_update', bytes_since_update') =>
            Continue (mkLoop s1 last_update' bytes_since_update')
        end
  end.

(** The loop over [response.iter_content]. *)
Fixpoint download_loop (task_id : string) (l : nat) (f : string)
    (items : list StreamItem) (c : LoopState) : DownloadService * result unit :=
  match items with
  | [] => (svc c, Ok tt)
  | item :: rest =>
      match loop_step task_id l f item c with
      | Continue c1 => download_loop task_id l f rest c1
      | Break s1 => (s1, Ok tt)
      | Raised s1 e => (s1, Raise e)
      end
  end.

(** The states the service goes through while the loop runs: the one it
    starts in, then the one after each turn. *)
Fixpoint loop_states (task_id : string) (l : nat) (f : string)
    (items : list StreamItem) (c : LoopState) : list DownloadService :=
  svc c ::
  match items with
  | [] => []
  | item :: rest =>
      match loop_step task_id l f item c with
      | Continue c1 => loop_states task_id l f rest c1
      | Break s1 => [s1]
      | Raised s1 e => [s1]
      end
  end.

(** Lines 318-331: what the worker decides once the stream has ended. *)
Definition finish (task_id : string) (l : nat) (env : WorkerEnv)
    (s : DownloadService) : DownloadService * result unit :=
  let task := task_at s l in
  if bool_decide (status task = downloading) then
    if (total_bytes task =? 0) || (downloaded_bytes task >=? total_bytes task) then
      let s1 := update_task l (fun t =>
                  with_end_time (t_end env) (with_progress 100 (with_status completed t))) s in
      match _handle_post_download task_id (post env) s1 with
      | (s2, Raise e) => (s2, Raise e)
      | (s2, Ok _) =>
          (_notify_status task_id "completed"
             ("Download completed: " +:+ filename task) s2, Ok tt)
      end
    else
      (_notify_status task_id "failed" "Download incomplete"
         (update_task l (fun t => with_error_message "Download incomplete"
                                    (with_status failed t)) s), Ok tt)
  else (s, Ok tt).

(** Lines 261-293: from the resume offset to the open file. The result is
    the file handle and the body of the response. *)
Definition begin_transfer (l : nat) (env : WorkerEnv) (s : DownloadService)
  : DownloadService * result (string * list StreamItem) :=
  let output_path := get_output_path (task_at s l) in
  match (if OS.exists_ (world s) output_path
         then OS.getsize (world s) output_path else Ok 0) with
  | Raise e => (s, Raise e)
  | Ok resume_pos =>
      let headers := if 0 <? resume_pos then Some resume_pos else None in
      match respond env headers with
      | RequestRaise e => (s, Raise e)
      | RequestOk content_length body =>
          let total :=
            match content_length with
            | Some n => n + resume_pos
            | None => 0
            end in
          let s1 := update_task l (fun t =>
                      with_downloaded_bytes resume_pos (with_total_bytes total t)) s in
          match (if 0 <? resume_pos then OS.open_ab (world s1) output_path
                 else OS.open_wb (world s1) output_path) with
          | (w2, Raise e) => (with_world w2 s1, Raise e)
          | (w2, Ok f) => (with_world w2 s1, Ok (f, body))
          end
      end
  end.

(** Lines 261-331: the body of the [try]. *)
Definition worker_try (task_id : string) (l : nat) (env : WorkerEnv)
    (s : DownloadService) : DownloadService * result unit :=
  match begin_transfer l env s with
  | (s1, Raise e) => (s1, Raise e)
  | (s1, Ok (f, body)) =>
      match download_loop task_id l f body (mkLoop s1 (t_loop env) 0) with
      | (s2, Raise e) => (s2, Raise e)
      | (s2, Ok _) => finish task_id l env s2
      end
  end.

(** Lines 333-337: [except Exception as e]. *)
Definition worker_except (task_id : string) (l : nat) (env : WorkerEnv)
    (e : string) (s : DownloadService) : DownloadService :=
  _notify_status task_id "failed" ("Download failed: " +:+ e)
    (update_task l (fun t => with_end_time (t_fail env)
                               (with_error_message e (with_status failed t))) s).

(** Lines 339-344: [finally]. *)
Definition worker_finally (task_id : string) (l : nat) (s : DownloadService)
  : DownloadService :=
  _start_next_pending_download
    (_notify_progress task_id l
       (with_active_downloads (active_downloads s - 1) s)).

(** Lines 254-258: the worker takes hold of its task. *)
Definition worker_enter (task_id : string) (l : nat) (env : WorkerEnv)
    (s : DownloadService) : DownloadService :=
  _notify_status task_id "started"
    ("Starting download: " +:+ filename (task_at s l))
    (update_task l (fun t => with_start_time (t_start env)
                               (with_status downloading t)) s).

(** The state at the end of the [try]/[except], before [finally]. *)
Definition worker_run (task_id : string) (l : nat) (env : WorkerEnv)
    (s : DownloadService) : DownloadService :=
  match worker_try task_id l env (worker_enter task_id l env s) with
  | (s1, Ok _) => s1
  | (s1, Raise e) => worker_except task_id l env e s1
  end.

Definition _download_worker (task_id : string) (env : WorkerEnv)
    (s : DownloadService) : DownloadService * result unit :=
  match Dict.get task_id (downloads s) with
  | None => (s, Raise ("'" +:+ task_id +:+ "'"))      (* KeyError, outside the try *)
  | Some l => (worker_finally task_id l (worker_run task_id l env s), Ok tt)
  end.

(** *** Queries and batch submission *)

(** [get_all_downloads]: a copy of the registry (the task objects are
    shared, the dictionary is not). *)
Definition get_all_downloads (s : DownloadService) : list (string * nat) :=
  downloads s.

(** The dictionary [get_download_stats] returns. *)
Record Stats : Type := mkStats {
  st_total : Z;
  st_pending : Z;
  st_downloading : Z;
  st_completed : Z;
  st_failed : Z;
  st_paused : Z
}.

(** [stats[task.status] += 1] *)
Definition bump (st : Status) (c : Stats) : Stats :=
  match st with
  | pending =>
      mkStats (st_total c) (st_pending c + 1) (st_downloading c) (st_completed c)
        (st_failed c) (st_paused c)
  | downloading =>
      mkStats (st_total c) (st_pending c) (st_downloading c + 1) (st_completed c)
        (st_failed c) (st_paused c)
  | completed =>
      mkStats (st_total c) (st_pending c) (st_downloading c) (st_completed c + 1)
        (st_failed c) (st_paused c)
  | failed =>
      mkStats (st_total c) (st_pending c) (st_downloading c) (st_completed c)
        (st_failed c + 1) (st_paused c)
  | paused =>
      mkStats (st_total c) (st_pending c) (st_downloading c) (st_completed c)
        (st_failed c) (st_paused c + 1)
  end.

Definition get_download_stats (s : DownloadService) : Stats :=
  fold_left (fun c kv => bump (status (task_at s (snd kv))) c) (downloads s)
    (mkStats (Z.of_nat (length (downloads s))) 0 0 0 0 0).

(** An element of [games_data]: a dictionary with string values, or
    anything else, of which only [str(game)] is used. *)
Inductive Game : Type :=
| GameDict (fields : list (string * string))
| GameOther (text : string).

(** [d.get(k, default)] *)
Definition get_or {V} (k : string) (default : V) (d : list (string * V)) : V :=
  match Dict.get k d with
  | Some v => v
  | None => default
  end.

(** Lines 119-144: the file name and URL a game asks for, or [None] when
    the loop goes on to the next game. [urljoin] is [urllib.parse.urljoin]. *)
Definition game_request (urljoin : string -> string -> string)
    (system_data : list (string * string)) (game : Game)
  : option (string * string) :=
  let parsed :=
    match game with
    | GameDict g =>
        let url := get_or "url" (get_or "href" EmptyString g) g in
        match Dict.get "filename" g with
        | Some filename => Some (filename, url)
        | None =>
            match Dict.get "name" g with
            | Some filename => Some (filename, url)
            | None => None
            end
        end
    | GameOther text => Some (text, EmptyString)
    end in
  match parsed with
  | None => None
  | Some (filename, url) =>
      let base_url := get_or "url" EmptyString system_data in
      if negb (String.eqb url EmptyString) && negb (Py.startswith "http" url) then
        if negb (String.eqb base_url EmptyString)
        then Some (filename, urljoin base_url url)
        else Some (filename, url)
      else if String.eqb url EmptyString then
        if negb (String.eqb base_url EmptyString)
        then Some (filename, urljoin base_url filename)
        else None
      else Some (filename, url)
  end.

(** The loop of [add_game_downloads]; [clock n] is what [time.time()]
    returns in the call of [add_download] number [n]. *)
Fixpoint add_games_loop (urljoin : string -> string -> string) (clock : nat -> Q)
    (n : nat) (games : list Game) (system_data : list (string * string))
    (system_download_dir : string) (task_ids : list string)
    (s : DownloadService) : DownloadService * result (list string) :=
  match games with
  | [] => (s, Ok task_ids)
  | game :: rest =>
      match game_request urljoin system_data game with
      | None =>
          add_games_loop urljoin clock n rest system_data system_download_dir
            task_ids s
      | Some (filename, url) =>
          match add_download (clock n) url filename system_download_dir s with
          | (s1, Ok task_id) =>
              add_games_loop urljoin clock (S n) rest system_data
                system_download_dir (task_ids ++ [task_id]) s1
          | (s1, Raise e) => (s1, Raise e)
          end
      end
  end.

Definition add_game_downloads (urljoin : string -> string -> string)
    (clock : nat -> Q) (games_data : list Game)
    (system_data : list (string * string)) (base_download_dir : string)
    (s : DownloadService) : DownloadService * result (list string) :=
  let system_folder := get_or "roms_folder" "unknown_system" system_data in
  let system_download_dir := Path.join base_download_dir system_folder in
  add_games_loop urljoin clock 0 games_data system_data system_download_dir [] s.

(** ** What the specification says, for comparison *)

(** A line is a [name=value] pair whose value is exactly 32 hexadecimal
    characters: the text after the first [=] has length 32 and consists of
    hexadecimal digits only. *)
Fixpoint all_hex (v : string) : bool :=
  match v with
  | EmptyString => true
  | String c r => Py.hex_digit c && all_hex r
  end.

Definition spec_key_line (line : string) : bool :=
  match Py.split1 "=" line with
  | Some (name, value) => (String.length value =? 32)%nat && all_hex value
  | None => false
  end.

(** The source file name with the suffix [.nsz] replaced by [.nsp]. *)
Definition spec_nsp_name (nsz_filename : string) : string :=
  String.substring 0 (String.length nsz_filename - 4) nsz_filename +:+ ".nsp".

(** ** Sample data *)

Module Sample.

Definition files : gmap string node :=
  list_to_map
    [ ("/app", Dir);
      ("/roms", Dir);
      ("/roms/GAME.NSZ", File "compressed container");
      ("/roms/done.bin", File "all of it");
      ("/roms/part.bin", File "half");
      ("/roms/pack.zip", File "archive bytes");
      ("/roms/dir.bin", Dir);
      ("/home/u/.switch", Dir);
      ("/home/u/.switch/prod.keys", File "header_key=00112233445566778899aabbccddeeff");
      ("/keys/odd.keys", File "header_key=0x000000000000000000000000000000") ].

Definition world : World :=
  {| fs := files; cwd := "/app"; argv := ["main.py"]; home := "/home/u";
     dir_size := 4096 |}.

Definition service : DownloadService := new_service world.

(** A library run that does nothing and returns. *)
Definition nsz_idle : NszRun := mkNszRun [] None None None.
Definition zip_idle : ZipRun := mkZipRun [] None.

(** A library run that wanders off and then raises. *)
Definition nsz_crash : NszRun :=
  mkNszRun [("/roms/tmp.part", "x")] (Some "/roms") (Some ["nsz"; "-D"])
    (Some "bad header").
Definition zip_crash : ZipRun :=
  mkZipRun [("/roms/readme.txt", "hello")] (Some "File is not a zip file").

Definition libs : PostEnv := mkPostEnv zip_idle nsz_idle.
Definition bad_libs : PostEnv := mkPostEnv zip_crash nsz_crash.

Definition task (name : string) (st : Status) (got total : Z) : DownloadTask :=
  with_total_bytes total
    (with_downloaded_bytes got (with_status st (new_task ("http://host/" +:+ name) name "/roms"))).

(** A registry with a finished file, a partial one, an archive, a
    compressed container and a task whose output path is a directory. *)
Definition busy : DownloadService :=
  mkService world
    [ task "done.bin" completed 9 9;
      task "part.bin" downloading 4 8;
      task "pack.zip" completed 13 13;
      task "GAME.NSZ" completed 20 20;
      task "dir.bin" pending 0 0;
      task "next.bin" pending 0 0 ]
    [ ("done.bin_1", 0%nat); ("part.bin_2", 1%nat); ("pack.zip_3", 2%nat);
      ("GAME.NSZ_4", 3%nat); ("dir.bin_5", 4%nat); ("next.bin_6", 5%nat) ]
    3 3 [("part.bin_2", 0%nat)] ["part.bin_2"]
    (Some "/home/u/.switch/prod.keys") [] [].

(** A server that announces 5 bytes and sends 10. *)
Definition long_body : WorkerEnv :=
  mkWorkerEnv 1 (fun _ => RequestOk (Some 5) [Chunk "0123456789" 3]) 2 4 5 libs.

(** A server that announces 10 bytes and sends them in two chunks. *)
Definition exact_body : WorkerEnv :=
  mkWorkerEnv 1 (fun _ => RequestOk (Some 10) [Chunk "01234" 3; Chunk "56789" (7 # 2)])
    2 4 5 libs.

(** One task submitted at second 1000 and started. *)
Definition queued : DownloadService :=
  fst (start_download "a.bin_1000"
         (fst (add_download 1000 "http://host/a.bin" "a.bin" "/roms" service))).

End Sample.

(** A catalogue page as the games screen hands it over. *)
Module Catalog.

Definition urljoin (base url : string) : string := base +:+ url.

Definition system : list (string * string) :=
  [("name", "Super Nintendo"); ("url", "http://host/snes/"); ("roms_folder", "snes")].

Definition games : list Game :=
  [ GameDict [("filename", "a.zip"); ("url", "http://mirror/a.zip")];
    GameDict [("title", "no file name")];
    GameOther "b.bin";
    GameDict [("name", "c.iso"); ("href", "files/c.iso")] ].

End Catalog.

(** ** Predicates used in the statements *)

(** The bytes a response body delivers. *)
Fixpoint stream_bytes (items : list StreamItem) : Z :=
  match items with
  | [] => 0
  | Chunk data _ :: rest => Z.of_nat (String.length data) + stream_bytes rest
  | _ :: rest => stream_bytes rest
  end.

(** Some registered task is pending. *)
Definition has_pending (s : DownloadService) : Prop :=
  exists task_id l,
    Dict.get task_id (downloads s) = Some l /\ status (task_at s l) = pending.

(** The node [n] found at the absolute path [K] is still there afterwards. *)
Definition keeps (K : string) (n : node) (w w' : World) : Prop :=
  fs w !! K = Some n -> fs w' !! K = Some n.

Definition Keeps {A} (K : string) (n : node) (m : M A) : Prop :=
  forall w, keeps K n w (fst (m w)).

(** What [os.getcwd()] always is: an absolute path that names a directory. *)
Definition cwd_ok (w : World) : Prop :=
  Py.startswith "/" (cwd w) = true /\ fs w !! cwd w = Some Dir.

(** What the scheduler looks at is out of the reach of a step: the
    admission counter, the limit, the started threads; objects are neither
    created nor freed, and the registry may only lose entries. *)
Record sched_same (s s' : DownloadService) : Prop := mkSchedSame {
  ss_active : active_downloads s' = active_downloads s;
  ss_max : max_concurrent_downloads s' = max_concurrent_downloads s;
  ss_threads : threads s' = threads s;
  ss_heap : length (heap s') = length (heap s);
  ss_registry : NoDup (downloads s).*1 -> NoDup (downloads s').*1
}.

(** The byte counters of every task are as they were. *)
Definition counters_same (s s' : DownloadService) : Prop :=
  forall l,
    downloaded_bytes (task_at s' l) = downloaded_bytes (task_at s l)
    /\ total_bytes (task_at s' l) = total_bytes (task_at s l).

(** The registered entries whose task is pending, in registry order. *)
Definition pending_entries (s : DownloadService) (items : list (string * nat))
  : list (string * nat) :=
  List.filter (fun kv => bool_decide (status (task_at s (snd kv)) = pending)) items.

(** The admission counter is within the limit. *)
Definition within_limit (s : DownloadService) : Prop :=
  active_downloads s <= max_concurrent_downloads s.

(** Every address in the registry names an object. *)
Definition registry_ok (s : DownloadService) : Prop :=
  forall k l, Dict.get k (downloads s) = Some l -> (l < length (heap s))%nat.

(** The identifiers a batch of requests (file name, URL) is given when the
    first of them is submission number [n]. *)
Fixpoint batch_ids (clock : nat -> Q) (n : nat) (reqs : list (string * string))
  : list string :=
  match reqs with
  | [] => []
  | (filename, _) :: rest =>
      (filename +:+ "_" +:+ Py.str_int (Py.int_of_float (clock n)))
        :: batch_ids clock (S n) rest
  end.

(** The bytes of a response body, in order. *)
Fixpoint chunk_data (items : list StreamItem) : string :=
  match items with
  | [] => EmptyString
  | Chunk data _ :: rest => data +:+ chunk_data rest
  | _ :: rest => chunk_data rest
  end.

Definition is_chunk (item : StreamItem) : bool :=
  match item with
  | Chunk _ _ => true
  | _ => false
  end.

(** What is on disk at a task's output path before the transfer: the bytes
    of the partial file, or nothing. *)
Definition partial_file (s : DownloadService) (l : nat) : string :=
  match OS.node_at (world s) (get_output_path (task_at s l)) with
  | Some (File c) => c
  | _ => EmptyString
  end.

(** * Properties *)

(** ** Task objects and the heap *)

Section Heap.

Implicit Types (s : DownloadService) (l : nat).

Lemma task_at_update_same s l f :
  (l < length (heap s))%nat ->
  task_at (update_task l f s) l = f (task_at s l).
Proof.
  intros Hl. unfold task_at, update_task. simpl.
  destruct (lookup_lt_is_Some_2 (heap s) l Hl) as [t Ht].
  rewrite list_lookup_alter_eq, Ht. reflexivity.
Qed.

Lemma task_at_update_other s l l' f :
  l <> l' -> task_at (update_task l f s) l' = task_at s l'.
Proof.
  intros Hne. unfold task_at, update_task. simpl.
  rewrite list_lookup_alter_ne by exact Hne. reflexivity.
Qed.

Lemma heap_length_update s l f :
  length (heap (update_task l f s)) = length (heap s).
Proof. unfold update_task. simpl. apply length_alter. Qed.

End Heap.

(** ** Admission control *)

Lemma start_all_loop_full items started s :
  active_downloads s >= max_concurrent_downloads s ->
  start_all_loop items started s = (s, started).
Proof.
  intros Hfull. induction items as [|[task_id l] rest IH]; simpl.
  - reflexivity.
  - replace (active_downloads s <? max_concurrent_downloads s) with false
      by (symmetry; apply Z.ltb_ge; lia).
    rewrite andb_false_r. exact IH.
Qed.

(** C3. [start_download] returns [False] and leaves the whole service (every
    task, the counter, the threads) as it was when the task is missing, is
    not pending, or the limit is reached; hence [start_all_downloads] with
    the counter at the limit starts nothing and returns 0. *)
Theorem start_download_refused task_id s :
  (Dict.get task_id (downloads s) = None
   \/ (exists l, Dict.get task_id (downloads s) = Some l
                 /\ status (task_at s l) <> pending)
   \/ active_downloads s >= max_concurrent_downloads s ->
   start_download task_id s = (s, false))
  /\ (active_downloads s = max_concurrent_downloads s ->
      start_all_downloads s = (s, 0)
      /\ threads (fst (start_all_downloads s)) = threads s).
Proof.
  split.
  - intros Hcase. unfold start_download.
    destruct (Dict.get task_id (downloads s)) as [l|] eqn:Hget; [|reflexivity].
    destruct (bool_decide (status (task_at s l) = pending)) eqn:Hpend; simpl;
      [|reflexivity].
    apply bool_decide_eq_true in Hpend.
    destruct Hcase as [Hmiss | [[l' [Hl' Hst]] | Hfull]].
    + discriminate.
    + injection Hl' as <-. contradiction.
    + replace (active_downloads s >=? max_concurrent_downloads s) with true
        by (symmetry; apply Z.geb_le; lia).
      reflexivity.
  - intros Heq. unfold start_all_downloads.
    rewrite start_all_loop_full by lia. split; reflexivity.
Qed.

(** ** Task identifiers *)

Lemma dict_get_set_same {V} (k : string) (v : V) d :
  Dict.get k (Dict.set k v d) = Some v.
Proof.
  induction d as [|[k' v'] d IH]; simpl.
  - rewrite String.eqb_refl. reflexivity.
  - destruct (String.eqb k k') eqn:E; simpl.
    + rewrite String.eqb_refl. reflexivity.
    + rewrite E. exact IH.
Qed.

Lemma makedirs_existing w d :
  OS.isdir w d = true -> OS.makedirs w d = (w, Ok tt).
Proof.
  unfold OS.isdir, OS.makedirs.
  destruct (OS.node_at w d) as [[|]|]; try discriminate. reflexivity.
Qed.

Lemma add_download_dir now url name dest s :
  OS.isdir (world s) dest = true ->
  let task_id := name +:+ "_" +:+ Py.str_int (Py.int_of_float now) in
  add_download now url name dest s
  = (_notify_status task_id "added" ("Added download: " +:+ name)
       (with_downloads (Dict.set task_id (length (heap s)) (downloads s))
          (with_heap (heap s ++ [new_task url name dest]) (with_world (world s) s))),
     Ok task_id).
Proof.
  intros Hdir task_id. unfold add_download.
  rewrite (makedirs_existing _ _ Hdir). reflexivity.
Qed.

(** Two submissions of one file name inside one clock second get the same
    identifier, and the second takes over the registry entry of the first. *)
Lemma add_download_collision now1 now2 url1 url2 name dest s :
  Py.int_of_float now1 = Py.int_of_float now2 ->
  OS.isdir (world s) dest = true ->
  let r1 := add_download now1 url1 name dest s in
  let r2 := add_download now2 url2 name dest (fst r1) in
  exists task_id,
    snd r1 = Ok task_id /\ snd r2 = Ok task_id
    /\ Dict.get task_id (downloads (fst r1)) = Some (length (heap s))
    /\ Dict.get task_id (downloads (fst r2)) = Some (S (length (heap s))).
Proof.
  intros Hsec Hdir r1 r2.
  exists (name +:+ "_" +:+ Py.str_int (Py.int_of_float now1)).
  assert (E1 := add_download_dir now1 url1 name dest s Hdir).
  cbv zeta in E1. fold r1 in E1.
  assert (Hdir1 : OS.isdir (world (fst r1)) dest = true).
  { rewrite E1. exact Hdir. }
  assert (E2 := add_download_dir now2 url2 name dest (fst r1) Hdir1).
  cbv zeta in E2. fold r2 in E2.
  rewrite E2. rewrite <- Hsec. rewrite E1. simpl.
  rewrite !dict_get_set_same, length_app. simpl.
  repeat split; try reflexivity. f_equal. lia.
Qed.

(** C7. The claim fails on the code: the identifier is the file name and the
    clock in whole seconds, so two calls for [game.zip] at 1000.2 s and
    1000.7 s return the same identifier and the registry keeps one entry,
    which now names the second task. *)
Theorem add_download_same_second :
  let r1 := add_download (10002 # 10) "http://mirror-a/game.zip" "game.zip" "/roms"
              Sample.service in
  let r2 := add_download (10007 # 10) "http://mirror-b/game.zip" "game.zip" "/roms"
              (fst r1) in
  snd r1 = Ok "game.zip_1000" /\ snd r2 = Ok "game.zip_1000"
  /\ get_download_status "game.zip_1000" (fst r1)
     = Some (new_task "http://mirror-a/game.zip" "game.zip" "/roms")
  /\ get_download_status "game.zip_1000" (fst r2)
     = Some (new_task "http://mirror-b/game.zip" "game.zip" "/roms")
  /\ downloads (fst r2) = [("game.zip_1000", 1%nat)].
Proof. vm_compute. repeat split; reflexivity. Qed.

Lemma start_download_refused_witness :
  start_download "next.bin_6" Sample.busy = (Sample.busy, false)
  /\ start_download "done.bin_1" Sample.busy = (Sample.busy, false)
  /\ start_download "nobody_0" Sample.busy = (Sample.busy, false)
  /\ start_all_downloads Sample.busy = (Sample.busy, 0).
Proof.
  split; [|split; [|split]].
  - apply (start_download_refused "next.bin_6" Sample.busy).
    right; right. simpl. lia.
  - apply (start_download_refused "done.bin_1" Sample.busy).
    right; left. exists 0%nat. split; [reflexivity | discriminate].
  - apply (start_download_refused "nobody_0" Sample.busy).
    left. reflexivity.
  - apply (start_download_refused "next.bin_6" Sample.busy). reflexivity.
Defined.

(** ** Key files *)

Lemma all_hex_no_space v : all_hex v = true -> Py.strip v = v.
Proof.
  assert (Hsp : forall c, Py.hex_digit c = true -> Py.isspace c = false).
  { intros c. unfold Py.hex_digit, Py.isspace, Py.code.
    destruct c as [[] [] [] [] [] [] [] []]; vm_compute; congruence. }
  assert (Hr : forall u, all_hex u = true -> Py.rstrip u = u).
  { induction u as [|c r IH]; simpl; [reflexivity|].
    intros H. apply andb_prop in H as [Hc Hrest].
    rewrite (IH Hrest). rewrite (Hsp c Hc). destruct r; reflexivity. }
  intros H. unfold Py.strip.
  destruct v as [|c r]; [reflexivity|].
  simpl in H. apply andb_prop in H as [Hc Hrest].
  simpl Py.lstrip. rewrite (Hsp c Hc).
  apply Hr. simpl. rewrite Hc, Hrest. reflexivity.
Qed.

Lemma all_hex_body v :
  all_hex v = true ->
  forall prev,
    Py.hex_body prev v = match v with EmptyString => prev | _ => true end.
Proof.
  induction v as [|c r IH]; simpl; [reflexivity|].
  intros H prev. apply andb_prop in H as [Hc Hrest].
  rewrite Hc. rewrite (IH Hrest). destruct r; reflexivity.
Qed.

(** A value of hexadecimal digits only, not empty, passes [int(v, 16)]. *)
Lemma all_hex_int16_ok v :
  all_hex v = true -> v <> EmptyString -> Py.int16_ok v = true.
Proof.
  intros H Hne. unfold Py.int16_ok. rewrite (all_hex_no_space v H).
  destruct v as [|c r]; [contradiction|].
  pose proof H as H'. simpl in H'. apply andb_prop in H' as [Hc Hr].
  assert (Hsign : Py.drop_sign (String c r) = String c r).
  { unfold Py.drop_sign.
    destruct (Ascii.eqb_spec c "+") as [->|_]; [discriminate Hc|].
    destruct (Ascii.eqb_spec c "-") as [->|_]; [discriminate Hc|]. reflexivity. }
  rewrite Hsign.
  assert (H0x : Py.drop_0x (String c r) = String c r).
  { unfold Py.drop_0x.
    destruct c as [[] [] [] [] [] [] [] []]; try reflexivity.
    destruct r as [|d r']; [reflexivity|].
    simpl in Hr. apply andb_prop in Hr as [Hd _].
    destruct (Ascii.eqb_spec d "x") as [->|_]; [discriminate Hd|].
    destruct (Ascii.eqb_spec d "X") as [->|_]; [discriminate Hd|]. reflexivity. }
  rewrite H0x. rewrite (all_hex_body _ H). reflexivity.
Qed.

Lemma split1_contains sep line a b :
  Py.split1 sep line = Some (a, b) ->
  Py.contains sep line = true /\ (String.length line = S (String.length a + String.length b))%nat.
Proof.
  revert a b. induction line as [|c r IH]; simpl; [discriminate|].
  intros a b. rewrite (Ascii.eqb_sym sep c).
  destruct (Ascii.eqb c sep).
  - intros [= <- <-]. split; reflexivity.
  - destruct (Py.split1 sep r) as [[a' b']|]; [|discriminate].
    intros [= <- <-]. destruct (IH a' b' eq_refl) as [Hc Hl].
    split; [exact Hc|]. simpl. rewrite Hl. reflexivity.
Qed.

(** Every line the specification calls a key line is counted by the code. *)
Lemma spec_key_line_valid line :
  spec_key_line (Py.strip line) = true -> NSZService.valid_line line = true.
Proof.
  unfold spec_key_line, NSZService.valid_line.
  destruct (Py.split1 "=" (Py.strip line)) as [[name value]|] eqn:Hs; [|discriminate].
  intros H. apply andb_prop in H as [Hlen Hhex].
  destruct (split1_contains _ _ _ _ Hs) as [Hc Hl].
  rewrite Hc, Hlen. apply Nat.eqb_eq in Hlen.
  replace (10 <? String.length (Py.strip line))%nat with true
    by (symmetry; apply Nat.ltb_lt; lia).
  simpl. apply all_hex_int16_ok; [exact Hhex|].
  intros ->. discriminate Hlen.
Qed.

Lemma count_valid_lines_mono lines : forall acc,
  acc <= NSZService.count_valid_lines lines acc.
Proof.
  induction lines as [|line rest IH]; intros acc; simpl; [lia|].
  destruct (NSZService.valid_line line); [specialize (IH (acc + 1)) | specialize (IH acc)]; lia.
Qed.

Lemma count_valid_lines_pos lines : forall acc,
  0 <= acc ->
  (0 < NSZService.count_valid_lines lines acc
   <-> 0 < acc \/ exists line, In line lines /\ NSZService.valid_line line = true).
Proof.
  induction lines as [|line rest IH]; intros acc Hacc; simpl.
  - split; [auto|]. intros [H|[line [[] _]]]. exact H.
  - destruct (NSZService.valid_line line) eqn:Hv.
    + split.
      * intros _. right. exists line. auto.
      * intros _. pose proof (count_valid_lines_mono rest (acc + 1)). lia.
    + rewrite (IH acc Hacc). split.
      * intros [H|[l' [Hin Hl']]]; [left; exact H|].
        right. exists l'. auto.
      * intros [H|[l' [[<-|Hin] Hl']]]; [left; exact H | congruence |].
        right. exists l'. auto.
Qed.

(** What [_validate_keys_file] computes: the file can be read and one of
    its lines, trimmed, holds an [=], is longer than 10 characters and has,
    after its first [=], 32 characters that [int(_, 16)] accepts. *)
Lemma validate_keys_file_iff w keys_path :
  NSZService._validate_keys_file w keys_path = true
  <-> exists content line,
        OS.read_text w keys_path = Ok content
        /\ In line (Py.split Py.LF (Py.strip content))
        /\ NSZService.valid_line line = true.
Proof.
  unfold NSZService._validate_keys_file.
  destruct (OS.read_text w keys_path) as [content|e].
  - rewrite Z.ltb_lt, count_valid_lines_pos by lia. split.
    + intros [H|[line [Hin Hv]]]; [lia|]. exists content, line. auto.
    + intros [c [line [[= <-] [Hin Hv]]]]. right. exists line. auto.
  - split; [discriminate|]. intros [c [line [H _]]]. discriminate H.
Qed.

(** The code accepts every file the specification accepts. *)
Lemma validate_keys_file_complete w keys_path content line :
  OS.read_text w keys_path = Ok content ->
  In line (Py.split Py.LF (Py.strip content)) ->
  spec_key_line (Py.strip line) = true ->
  NSZService._validate_keys_file w keys_path = true.
Proof.
  intros Hr Hin Hs. apply validate_keys_file_iff.
  exists content, line. split; [exact Hr|]. split; [exact Hin|].
  apply spec_key_line_valid. exact Hs.
Qed.

(** C8. The claim fails on the code in one direction: a value of length 32
    that [int(value, 16)] accepts need not be 32 hexadecimal characters. The
    file [/keys/odd.keys] holds the single line [header_key=0x] followed by
    thirty zeros; the code returns [True] though the specification's
    reading finds no key line in it. *)
Theorem validate_keys_accepts_prefixed_value :
  OS.read_text Sample.world "/keys/odd.keys"
    = Ok "header_key=0x000000000000000000000000000000"
  /\ NSZService._validate_keys_file Sample.world "/keys/odd.keys" = true
  /\ spec_key_line (Py.strip "header_key=0x000000000000000000000000000000") = false.
Proof. vm_compute. repeat split; reflexivity. Qed.

(** ** Decompression result *)

(** C9. The claim fails on the code: the expected name is computed with a
    case-sensitive [replace] although the suffix test ignores case. For
    [/roms/GAME.NSZ] the expected name is the source file itself, so a run
    of the library that produces nothing is reported as a success; no
    [.nsp] file exists in the output directory. *)
Theorem decompress_nsz_upper_case_suffix :
  let r := NSZService.decompress_nsz (Some "/home/u/.switch/prod.keys")
             Sample.nsz_idle "/roms/GAME.NSZ" "/roms" Sample.world in
  snd r = Ok (true, "Successfully decompressed to /roms/GAME.NSZ")
  /\ spec_nsp_name "GAME.NSZ" = "GAME.nsp"
  /\ OS.isfile (fst r) (Path.join "/roms" (spec_nsp_name "GAME.NSZ")) = false
  /\ exists entries,
       OS.listdir (fst r) "/roms" = Ok entries
       /\ List.filter (Py.endswith ".nsp") entries = [].
Proof.
  vm_compute. repeat split; try reflexivity.
  eexists. split; reflexivity.
Qed.

(** ** What a computation leaves in place on disk *)

Section Frame.

Variables (K : string) (n : node).

Lemma keeps_refl w : keeps K n w w.
Proof. intros H. exact H. Qed.

Lemma keeps_trans w1 w2 w3 : keeps K n w1 w2 -> keeps K n w2 w3 -> keeps K n w1 w3.
Proof. unfold keeps. auto. Qed.

Lemma keeps_same_fs w w' : fs w' = fs w -> keeps K n w w'.
Proof. unfold keeps. intros ->. auto. Qed.

Lemma keeps_insert_fresh w k v :
  fs w !! k = None -> keeps K n w (set_fs w (<[k := v]> (fs w))).
Proof.
  unfold keeps. simpl. intros Hk HK.
  rewrite lookup_insert_ne; [exact HK|]. intros ->. congruence.
Qed.

Lemma Keeps_ret {A} (a : A) : Keeps K n (ret a).
Proof. intros w. apply keeps_refl. Qed.

Lemma Keeps_get {A} (f : World -> A) : Keeps K n (get f).
Proof. intros w. apply keeps_refl. Qed.

Lemma Keeps_lift {A} (f : World -> result A) : Keeps K n (lift f).
Proof. intros w. apply keeps_refl. Qed.

Lemma Keeps_bind {A B} (m : M A) (k : A -> M B) :
  Keeps K n m -> (forall a, Keeps K n (k a)) -> Keeps K n (bind m k).
Proof.
  intros Hm Hk w. unfold bind. specialize (Hm w).
  destruct (m w) as [w1 [a|e]]; simpl in *.
  - eapply keeps_trans; [exact Hm | apply Hk].
  - exact Hm.
Qed.

Lemma Keeps_try_except {A} (m : M A) (h : string -> M A) :
  Keeps K n m -> (forall e, Keeps K n (h e)) -> Keeps K n (try_except m h).
Proof.
  intros Hm Hh w. unfold try_except. specialize (Hm w).
  destruct (m w) as [w1 [a|e]]; simpl in *.
  - exact Hm.
  - eapply keeps_trans; [exact Hm | apply Hh].
Qed.

Lemma Keeps_try_finally {A} (m : M A) (fin : M unit) :
  Keeps K n m -> Keeps K n fin -> Keeps K n (try_finally m fin).
Proof.
  intros Hm Hf w. unfold try_finally. specialize (Hm w).
  destruct (m w) as [w1 r]. specialize (Hf w1).
  destruct (fin w1) as [w2 [u|e]]; simpl in *;
    (eapply keeps_trans; [exact Hm | exact Hf]).
Qed.

Lemma Keeps_chdir d : Keeps K n (fun w => OS.chdir w d).
Proof.
  intros w. unfold OS.chdir.
  destruct (OS.node_at w d) as [[|]|]; simpl; apply keeps_same_fs; reflexivity.
Qed.

Lemma Keeps_makedirs d : Keeps K n (fun w => OS.makedirs w d).
Proof.
  intros w. unfold OS.makedirs.
  destruct (OS.node_at w d) as [[|]|] eqn:Hn; simpl; try apply keeps_refl.
  apply keeps_insert_fresh. exact Hn.
Qed.

(** A copy to a destination that does not exist yet. *)
Lemma keeps_copy2_fresh w src dst :
  OS.exists_ w dst = false -> keeps K n w (fst (OS.copy2 w src dst)).
Proof.
  unfold OS.exists_, OS.copy2. intros Hd.
  destruct (OS.node_at w dst) eqn:Hn; [discriminate|].
  destruct (OS.node_at w src) as [[|]|]; simpl; try apply keeps_refl.
  apply keeps_insert_fresh. exact Hn.
Qed.

Lemma Keeps_ensure_keys kp : Keeps K n (NSZService._ensure_keys_in_switch_dir kp).
Proof.
  unfold NSZService._ensure_keys_in_switch_dir.
  destruct kp as [kp|]; [|apply Keeps_ret].
  destruct (String.eqb kp EmptyString); [apply Keeps_ret|].
  apply Keeps_bind; [apply Keeps_get|]. intros h.
  apply Keeps_bind; [apply Keeps_get|]. intros have_dir.
  apply Keeps_bind.
  { destruct have_dir; [apply Keeps_ret | apply Keeps_makedirs]. }
  intros _ w. unfold bind, get.
  destruct (OS.exists_ w _) eqn:Hex; simpl; [apply keeps_refl|].
  destruct (negb _); simpl; [|apply keeps_refl].
  apply keeps_copy2_fresh. exact Hex.
Qed.

(** A library writes whole files: a directory stays, and so does any file
    it does not name. *)
Lemma keeps_write_all files w :
  n = Dir \/ K ∉ files.*1 -> keeps K n w (write_all files w).
Proof.
  unfold write_all. revert w.
  induction files as [|[p c] files IH]; intros w Hok; simpl.
  - apply keeps_refl.
  - eapply keeps_trans; [|apply IH].
    + unfold OS.write_file, keeps.
      destruct (fs w !! p) as [[|]|] eqn:Hp; simpl; auto.
      * intros HK. destruct (decide (p = K)) as [->|Hne].
        -- destruct Hok as [->|Hnot]; [congruence|].
           exfalso. apply Hnot. simpl. left.
        -- rewrite lookup_insert_ne; auto.
      * intros HK. rewrite lookup_insert_ne; [exact HK|]. intros ->. congruence.
    + destruct Hok as [Hd|Hnot]; [left; exact Hd|].
      right. intros Hin. apply Hnot. simpl. right. exact Hin.
Qed.

Lemma Keeps_decompress lib :
  n = Dir \/ K ∉ (nsz_writes lib).*1 -> Keeps K n (decompress lib).
Proof.
  intros Hok w. unfold decompress. simpl.
  eapply keeps_trans; [apply keeps_write_all; exact Hok|].
  apply keeps_same_fs.
  destruct (nsz_cwd lib), (nsz_argv lib); reflexivity.
Qed.

Lemma Keeps_restore c a : Keeps K n (NSZService.restore c a).
Proof.
  unfold NSZService.restore.
  apply Keeps_bind; [apply Keeps_chdir|].
  intros _ w. apply keeps_same_fs. reflexivity.
Qed.

Lemma Keeps_decompress_stage kp lib p d :
  n = Dir \/ K ∉ (nsz_writes lib).*1 ->
  Keeps K n (NSZService.decompress_stage kp lib p d).
Proof.
  intros Hok. unfold NSZService.decompress_stage.
  apply Keeps_bind; [apply Keeps_chdir|]. intros _.
  apply Keeps_bind; [apply Keeps_ensure_keys|]. intros _.
  apply Keeps_bind; [apply Keeps_decompress; exact Hok|]. intros _.
  apply Keeps_bind; [apply Keeps_get|]. intros found.
  destruct found; [apply Keeps_ret|].
  apply Keeps_bind; [apply Keeps_lift|]. intros entries.
  destruct (List.filter _ entries); apply Keeps_ret.
Qed.

Lemma Keeps_decompress_nsz kp lib p d :
  n = Dir \/ K ∉ (nsz_writes lib).*1 ->
  Keeps K n (NSZService.decompress_nsz kp lib p d).
Proof.
  intros Hok. unfold NSZService.decompress_nsz.
  apply Keeps_bind; [apply Keeps_get|]. intros available.
  destruct (negb available); [apply Keeps_ret|].
  apply Keeps_bind; [apply Keeps_get|]. intros is_file.
  destruct (negb is_file); [apply Keeps_ret|].
  destruct (negb _); [apply Keeps_ret|].
  apply Keeps_bind; [apply Keeps_makedirs|]. intros _.
  apply Keeps_bind; [apply Keeps_get|]. intros c.
  apply Keeps_bind; [apply Keeps_get|]. intros a.
  apply Keeps_try_finally; [|apply Keeps_restore].
  apply Keeps_try_except; [apply Keeps_decompress_stage; exact Hok|].
  intros e. apply Keeps_ret.
Qed.

End Frame.

(** ** Working directory and argv around a decompression *)

Lemma abspath_absolute w p : Py.startswith "/" p = true -> OS.abspath w p = p.
Proof. unfold OS.abspath. intros ->. reflexivity. Qed.

Lemma restore_succeeds c a w :
  Py.startswith "/" c = true -> fs w !! c = Some Dir ->
  NSZService.restore c a w = (set_argv (set_cwd w c) a, Ok tt).
Proof.
  intros Habs Hdir. unfold NSZService.restore, bind, OS.chdir, OS.node_at.
  rewrite (abspath_absolute w c Habs), Hdir. reflexivity.
Qed.

(** C10. Whatever the library does (files written, another working
    directory, another argv, an exception), and whether the function
    returns early, succeeds, finds no output or catches an exception, the
    working directory and [sys.argv] after [decompress_nsz] are those
    before it. *)
Theorem decompress_nsz_restores_cwd_argv kp lib nsz_file_path output_dir w :
  cwd_ok w ->
  let w' := fst (NSZService.decompress_nsz kp lib nsz_file_path output_dir w) in
  cwd w' = cwd w /\ argv w' = argv w.
Proof.
  intros [Habs Hdir]. unfold NSZService.decompress_nsz, bind, get.
  destruct (negb (NSZService.is_available kp w)); [split; reflexivity|].
  destruct (negb (OS.isfile w nsz_file_path)); [split; reflexivity|].
  destruct (negb (Py.endswith ".nsz" (Py.lower nsz_file_path)));
    [split; reflexivity|].
  pose proof (Keeps_makedirs (cwd w) Dir output_dir w Hdir) as Hdir1.
  assert (Hcwd1 : cwd (fst (OS.makedirs w output_dir)) = cwd w
                  /\ argv (fst (OS.makedirs w output_dir)) = argv w).
  { unfold OS.makedirs. destruct (OS.node_at w output_dir) as [[|]|];
      split; reflexivity. }
  destruct (OS.makedirs w output_dir) as [w1 [u|e]]; simpl in *;
    [|exact Hcwd1].
  destruct Hcwd1 as [-> ->].
  unfold try_finally.
  pose proof (Keeps_try_except (cwd w) Dir
                (NSZService.decompress_stage kp lib nsz_file_path output_dir)
                (fun e => ret (false, "NSZ decompression failed: " +:+ e))
                (Keeps_decompress_stage (cwd w) Dir kp lib nsz_file_path output_dir
                   (or_introl eq_refl))
                (fun e => Keeps_ret (cwd w) Dir _) w1 Hdir1) as Hdir2.
  destruct (try_except _ _ w1) as [w2 r]. simpl in Hdir2.
  rewrite (restore_succeeds (cwd w) (argv w) w2 Habs Hdir2).
  split; reflexivity.
Qed.

Lemma decompress_nsz_restores_cwd_argv_witness :
  cwd_ok Sample.world
  /\ (let w' := fst (NSZService.decompress_nsz (Some "/home/u/.switch/prod.keys")
                      Sample.nsz_crash "/roms/GAME.NSZ" "/roms" Sample.world) in
      cwd w' = cwd Sample.world /\ argv w' = argv Sample.world).
Proof.
  assert (H : cwd_ok Sample.world) by (split; reflexivity).
  split; [exact H|].
  exact (decompress_nsz_restores_cwd_argv (Some "/home/u/.switch/prod.keys")
           Sample.nsz_crash "/roms/GAME.NSZ" "/roms" Sample.world H).
Defined.

Example decompress_stage_wanders :
  let w' := fst (NSZService.decompress_stage (Some "/home/u/.switch/prod.keys")
                   Sample.nsz_crash "/roms/GAME.NSZ" "/roms" Sample.world) in
  cwd w' = "/roms" /\ argv w' = ["nsz"; "-D"].
Proof. vm_compute. split; reflexivity. Qed.

(** ** Cancelling *)

Lemma dict_get_del_same {V} (k : string) (d : list (string * V)) :
  Dict.get k (Dict.del k d) = None.
Proof.
  induction d as [|[k' v'] d IH]; simpl; [reflexivity|].
  destruct (String.eqb k k') eqn:E; simpl; [exact IH|].
  rewrite E. exact IH.
Qed.

Lemma output_path_update s l f :
  (forall t, filename (f t) = filename t /\ destination (f t) = destination t) ->
  get_output_path (task_at (update_task l f s) l) = get_output_path (task_at s l).
Proof.
  intros Hf. unfold task_at, update_task. simpl.
  rewrite list_lookup_alter_eq.
  destruct (heap s !! l) as [t|]; simpl; [|reflexivity].
  unfold get_output_path. destruct (Hf t) as [-> ->]. reflexivity.
Qed.

Lemma remove_gone w p :
  OS.isdir w p = false -> OS.exists_ (fst (OS.remove w p)) p = false.
Proof.
  unfold OS.isdir, OS.exists_, OS.remove, OS.node_at.
  destruct (fs w !! OS.abspath w p) as [[c|]|] eqn:Hn; simpl.
  - intros _. unfold OS.abspath. simpl. fold (OS.abspath w p).
    rewrite lookup_delete_eq. reflexivity.
  - discriminate.
  - rewrite Hn. reflexivity.
Qed.

(** What [cancel_download] does to a registered task, whatever its status. *)
Lemma cancel_download_effect task_id s l :
  Dict.get task_id (downloads s) = Some l ->
  let p := get_output_path (task_at s l) in
  let s' := cancel_download task_id s in
  get_download_status task_id s' = None
  /\ (OS.isdir (world s) p = false -> OS.exists_ (world s') p = false)
  /\ Dict.get task_id (download_threads s') = None
  /\ status_log s' = (status_log s ++ [(task_id, "cancelled", "Download cancelled")])%list.
Proof.
  intros Hget p s'. subst s'. unfold cancel_download. rewrite Hget.
  set (s1 := if bool_decide (status (task_at s l) = downloading) then _ else s).
  assert (Hw1 : world s1 = world s).
  { subst s1. destruct (bool_decide _); reflexivity. }
  assert (Hp1 : get_output_path (task_at s1 l) = p).
  { subst s1 p. destruct (bool_decide _); [|reflexivity].
    apply output_path_update. intros t. split; reflexivity. }
  assert (Hlog : status_log s1 = status_log s).
  { subst s1. destruct (bool_decide _); reflexivity. }
  rewrite Hp1, Hw1.
  split; [|split; [|split]].
  - unfold get_download_status. simpl. rewrite dict_get_del_same. reflexivity.
  - intros Hdir. simpl.
    destruct (OS.exists_ (world s) p) eqn:Hex; simpl.
    + apply remove_gone. exact Hdir.
    + rewrite Hw1. exact Hex.
  - simpl. apply dict_get_del_same.
  - simpl. destruct (OS.exists_ (world s) p); simpl; rewrite Hlog; reflexivity.
Qed.

(** C6, as the code has it. After [cancel_download] of a registered task
    the registry no longer holds its identifier; and for a task that has
    not completed, its output path no longer exists on disk unless that
    path names a directory (the error of the removal is swallowed). *)
Theorem cancel_download_removes task_id s l :
  Dict.get task_id (downloads s) = Some l ->
  let p := get_output_path (task_at s l) in
  let s' := cancel_download task_id s in
  get_download_status task_id s' = None
  /\ (status (task_at s l) <> completed ->
      OS.isdir (world s) p = false -> OS.exists_ (world s') p = false).
Proof.
  intros Hget p s'.
  destruct (cancel_download_effect task_id s l Hget) as [Hgone [Hfile _]].
  split; [exact Hgone|]. intros _. exact Hfile.
Qed.

Lemma cancel_download_removes_witness :
  Dict.get "part.bin_2" (downloads Sample.busy) = Some 1%nat
  /\ status (task_at Sample.busy 1) = downloading
  /\ OS.isfile (world Sample.busy) "/roms/part.bin" = true
  /\ get_download_status "part.bin_2" (cancel_download "part.bin_2" Sample.busy) = None
  /\ OS.exists_ (world (cancel_download "part.bin_2" Sample.busy)) "/roms/part.bin" = false.
Proof.
  assert (Hget : Dict.get "part.bin_2" (downloads Sample.busy) = Some 1%nat)
    by reflexivity.
  destruct (cancel_download_removes "part.bin_2" Sample.busy 1%nat Hget)
    as [Hgone Hfile].
  split; [exact Hget|]. split; [reflexivity|]. split; [reflexivity|].
  split; [exact Hgone|].
  apply Hfile; [discriminate | reflexivity].
Defined.

(** C6 as it is stated fails twice. The file of a task that has completed is
    deleted all the same: nothing in [cancel_download] looks at the status
    before removing. And a path that cannot be removed is still there
    afterwards. *)
Lemma cancel_download_counterexample :
  (exists t,
      get_download_status "done.bin_1" Sample.busy = Some t
      /\ status t = completed
      /\ OS.isfile (world Sample.busy) (get_output_path t) = true
      /\ OS.exists_ (world (cancel_download "done.bin_1" Sample.busy))
           (get_output_path t) = false)
  /\ (exists t,
      get_download_status "dir.bin_5" Sample.busy = Some t
      /\ OS.exists_ (world (cancel_download "dir.bin_5" Sample.busy))
           (get_output_path t) = true).
Proof.
  split; eexists; (split; [reflexivity|]); vm_compute; repeat split; reflexivity.
Qed.

(** ** Post-processing *)

Lemma keeps_remove_raise K n w p w1 e :
  OS.remove w p = (w1, Raise e) -> keeps K n w w1.
Proof.
  unfold OS.remove. destruct (OS.node_at w p) as [[|]|]; intros [= <- _];
    apply keeps_refl.
Qed.

(** What the archive branch does to the service. *)
Lemma post_zip_cases task_id l lib s :
  (l < length (heap s))%nat ->
  let t := task_at s l in
  (exists w1,
      post_zip task_id l lib s
      = _notify_status task_id "extracted" ("Extracted ZIP: " +:+ filename t)
          (with_world w1 s))
  \/ (exists w1 e,
      post_zip task_id l lib s
      = _notify_status task_id "extract_failed" ("ZIP extraction failed: " +:+ e)
          (update_task l (with_error_message ("ZIP extraction failed: " +:+ e))
             (with_world w1 s))
      /\ forall K n, K ∉ (zip_writes lib).*1 -> keeps K n (world s) w1).
Proof.
  intros Hl t. unfold post_zip, bind, _extract_zip.
  destruct (zip_raises lib) as [e|].
  - right. exists (write_all (zip_writes lib) (world s)), e.
    split; [reflexivity|]. intros K n HK.
    apply keeps_write_all. right. exact HK.
  - destruct (OS.remove _ _) as [w1 [u|e]] eqn:Hrm.
    + left. exists w1. reflexivity.
    + right. exists w1, e. split; [reflexivity|]. intros K n HK.
      eapply keeps_trans; [apply keeps_write_all; right; exact HK|].
      eapply keeps_remove_raise. exact Hrm.
Qed.

(** What the NSZ branch does to the service. *)
Lemma post_nsz_cases task_id l lib s :
  (l < length (heap s))%nat ->
  let t := task_at s l in
  let s1 := _notify_status task_id "decompressing"
              ("Decompressing NSZ: " +:+ filename t) s in
  exists w1,
    (forall K n, K ∉ (nsz_writes lib).*1 -> keeps K n (world s) w1)
    /\ ((exists m,
          post_nsz task_id l lib s
          = _notify_status task_id "decompressed" ("Decompressed NSZ: " +:+ m)
              (with_world w1 s1))
        \/ (exists m,
          post_nsz task_id l lib s
          = _notify_status task_id "decompress_failed"
              ("NSZ decompression failed: " +:+ m)
              (update_task l (with_error_message ("NSZ decompression failed: " +:+ m))
                 (with_world w1 s1)))).
Proof.
  intros Hl t s1. unfold post_nsz. fold t. fold s1.
  assert (HK : forall K n, K ∉ (nsz_writes lib).*1 ->
             keeps K n (world s)
               (fst (NSZService.decompress_nsz (keys_path s1) lib
                       (get_output_path t) (destination t) (world s1)))).
  { intros K n Hnot. apply (Keeps_decompress_nsz K n). right. exact Hnot. }
  destruct (NSZService.decompress_nsz _ _ _ _ _) as [w1 [[[|] m]|e]];
    exists w1; (split; [exact HK|]).
  - left. exists m. reflexivity.
  - right. exists m. reflexivity.
  - right. exists e. reflexivity.
Qed.

(** C5. For a task that has completed, post-processing never raises and
    never changes the status. When it reports [extract_failed] or
    [decompress_failed], the task differs from what it was in its
    [error_message] only, which is the message of the event, and what was
    at the output path is still there, as long as the library did not
    itself write to that path. *)
Theorem post_download_failure_keeps_completed task_id env s l :
  Dict.get task_id (downloads s) = Some l ->
  (l < length (heap s))%nat ->
  status (task_at s l) = completed ->
  let K := OS.abspath (world s) (get_output_path (task_at s l)) in
  K ∉ (zip_writes (zip_run env)).*1 ->
  K ∉ (nsz_writes (nsz_run env)).*1 ->
  exists s' evs,
    _handle_post_download task_id env s = (s', Ok tt)
    /\ status (task_at s' l) = completed
    /\ status_log s' = (status_log s ++ evs)%list
    /\ forall kind m,
         In (task_id, kind, m) evs ->
         kind = "extract_failed" \/ kind = "decompress_failed" ->
         task_at s' l = with_error_message m (task_at s l)
         /\ forall n, keeps K n (world s) (world s').
Proof.
  intros Hget Hl Hst K Hzip Hnsz. unfold _handle_post_download. rewrite Hget.
  destruct (Py.endswith ".zip" _).
  - destruct (post_zip_cases task_id l (zip_run env) s Hl) as [[w1 E]|[w1 [e [E Hk]]]];
      rewrite E; eexists; eexists; (split; [reflexivity|]).
    + split; [exact Hst|]. split; [reflexivity|].
      intros kind m [[= <- <-]|[]] [Hk|Hk]; discriminate Hk.
    + assert (Ht : task_at
                (_notify_status task_id "extract_failed" ("ZIP extraction failed: " +:+ e)
                   (update_task l (with_error_message ("ZIP extraction failed: " +:+ e))
                      (with_world w1 s))) l
              = with_error_message ("ZIP extraction failed: " +:+ e) (task_at s l)).
      { apply (task_at_update_same (with_world w1 s)). exact Hl. }
      split; [rewrite Ht; exact Hst|]. split; [reflexivity|].
      intros kind m [[= <- <-]|[]] _. split; [exact Ht|].
      intros n. apply Hk. exact Hzip.
  - destruct (Py.endswith ".nsz" _).
    + destruct (post_nsz_cases task_id l (nsz_run env) s Hl) as [w1 [Hk [[m E]|[m E]]]];
        rewrite E; eexists; eexists; (split; [reflexivity|]).
      * split; [exact Hst|]. split; [simpl; rewrite <- app_assoc; reflexivity|].
        intros kind m' [[= <- <-]|[[= <- <-]|[]]] [Hkd|Hkd]; discriminate Hkd.
      * assert (Ht : task_at
                  (_notify_status task_id "decompress_failed"
                     ("NSZ decompression failed: " +:+ m)
                     (update_task l
                        (with_error_message ("NSZ decompression failed: " +:+ m))
                        (with_world w1
                           (_notify_status task_id "decompressing"
                              ("Decompressing NSZ: " +:+ filename (task_at s l)) s)))) l
                = with_error_message ("NSZ decompression failed: " +:+ m) (task_at s l)).
        { apply (task_at_update_same
                   (with_world w1 (_notify_status task_id "decompressing"
                      ("Decompressing NSZ: " +:+ filename (task_at s l)) s))).
          exact Hl. }
        split; [rewrite Ht; exact Hst|].
        split; [simpl; rewrite <- app_assoc; reflexivity|].
        intros kind m' [[= <- <-]|[[= <- <-]|[]]] [Hkd|Hkd]; try discriminate Hkd.
        split; [exact Ht|]. intros n. apply Hk. exact Hnsz.
    + exists s, []. split; [reflexivity|]. split; [exact Hst|].
      split; [rewrite app_nil_r; reflexivity|]. intros kind m [].
Qed.

Lemma not_in_names (K : string) (names : list string) :
  forallb (fun p => negb (String.eqb K p)) names = true -> K ∉ names.
Proof.
  induction names as [|p names IH]; simpl; intros H Hin.
  - apply elem_of_nil in Hin. exact Hin.
  - apply andb_prop in H as [Hp Hrest].
    apply elem_of_cons in Hin as [->|Hin].
    + rewrite String.eqb_refl in Hp. discriminate.
    + exact (IH Hrest Hin).
Qed.

Lemma post_download_failure_keeps_completed_witness :
  exists s' evs,
    _handle_post_download "pack.zip_3" Sample.bad_libs Sample.busy = (s', Ok tt)
    /\ status (task_at s' 2) = completed
    /\ status_log s' = (status_log Sample.busy ++ evs)%list
    /\ forall kind m,
         In ("pack.zip_3", kind, m) evs ->
         kind = "extract_failed" \/ kind = "decompress_failed" ->
         task_at s' 2 = with_error_message m (task_at Sample.busy 2)
         /\ forall n, keeps "/roms/pack.zip" n (world Sample.busy) (world s').
Proof.
  apply (post_download_failure_keeps_completed "pack.zip_3" Sample.bad_libs
           Sample.busy 2).
  - reflexivity.
  - simpl. lia.
  - reflexivity.
  - apply not_in_names. reflexivity.
  - apply not_in_names. reflexivity.
Defined.

Example post_zip_failure :
  let s' := fst (_handle_post_download "pack.zip_3" Sample.bad_libs Sample.busy) in
  status_log s'
    = [("pack.zip_3", "extract_failed", "ZIP extraction failed: File is not a zip file")]
  /\ status (task_at s' 2) = completed
  /\ error_message (task_at s' 2) = "ZIP extraction failed: File is not a zip file"
  /\ fs (world s') !! "/roms/pack.zip" = Some (File "archive bytes").
Proof. vm_compute. repeat split; reflexivity. Qed.

Example post_nsz_failure :
  let s' := fst (_handle_post_download "GAME.NSZ_4" Sample.bad_libs Sample.busy) in
  status_log s'
    = [("GAME.NSZ_4", "decompressing", "Decompressing NSZ: GAME.NSZ");
       ("GAME.NSZ_4", "decompress_failed",
        "NSZ decompression failed: NSZ decompression failed: bad header")]
  /\ status (task_at s' 3) = completed
  /\ fs (world s') !! "/roms/GAME.NSZ" = Some (File "compressed container")
  /\ cwd (world s') = "/app".
Proof. vm_compute. repeat split; reflexivity. Qed.

(** ** Fields a step does not touch *)

Lemma task_at_update_field {X} (proj : DownloadTask -> X) s l' l f :
  (forall t, proj (f t) = proj t) ->
  proj (task_at (update_task l' f s) l) = proj (task_at s l).
Proof.
  intros Hf. unfold task_at, update_task. simpl.
  destruct (decide (l' = l)) as [->|Hne].
  - rewrite list_lookup_alter_eq. destruct (heap s !! l); simpl; auto.
  - rewrite list_lookup_alter_ne by exact Hne. reflexivity.
Qed.


Lemma sched_same_refl s : sched_same s s.
Proof. constructor; auto. Qed.

Lemma sched_same_trans s1 s2 s3 :
  sched_same s1 s2 -> sched_same s2 s3 -> sched_same s1 s3.
Proof.
  intros [A1 M1 T1 H1 R1] [A2 M2 T2 H2 R2].
  constructor; try congruence. auto.
Qed.

Lemma counters_same_refl s : counters_same s s.
Proof. intros l. split; reflexivity. Qed.

Lemma counters_same_trans s1 s2 s3 :
  counters_same s1 s2 -> counters_same s2 s3 -> counters_same s1 s3.
Proof.
  intros H1 H2 l. destruct (H1 l) as [A B], (H2 l) as [C D].
  split; congruence.
Qed.

Lemma dict_del_keys {V} (k x : string) (d : list (string * V)) :
  x ∈ (Dict.del k d).*1 -> x ∈ d.*1.
Proof.
  induction d as [|[k' v'] d IH]; simpl; [auto|].
  destruct (String.eqb k k'); simpl.
  - intros H. apply elem_of_cons. right. auto.
  - intros H. apply elem_of_cons in H as [->|H]; apply elem_of_cons; auto.
Qed.

Lemma dict_del_nodup {V} (k : string) (d : list (string * V)) :
  NoDup d.*1 -> NoDup (Dict.del k d).*1.
Proof.
  induction d as [|[k' v'] d IH]; simpl; [auto|].
  intros H. apply NoDup_cons in H as [Hnot Hd].
  destruct (String.eqb k k'); simpl; [auto|].
  apply NoDup_cons. split; [|auto].
  intros Hin. apply Hnot. eapply dict_del_keys. exact Hin.
Qed.

Lemma sched_same_update s l f : sched_same s (update_task l f s).
Proof. constructor; simpl; auto. apply length_alter. Qed.

Lemma sched_same_world s w : sched_same s (with_world w s).
Proof. constructor; simpl; auto. Qed.

Lemma sched_same_status s a b c : sched_same s (_notify_status a b c s).
Proof. constructor; simpl; auto. Qed.

Lemma sched_same_progress s a l : sched_same s (_notify_progress a l s).
Proof. constructor; simpl; auto. Qed.

Lemma counters_same_update s l f :
  (forall t, downloaded_bytes (f t) = downloaded_bytes t) ->
  (forall t, total_bytes (f t) = total_bytes t) ->
  counters_same s (update_task l f s).
Proof.
  intros Hd Ht l'. split.
  - apply (task_at_update_field downloaded_bytes). exact Hd.
  - apply (task_at_update_field total_bytes). exact Ht.
Qed.

Lemma counters_same_heap s s' : heap s' = heap s -> counters_same s s'.
Proof. intros H l. unfold task_at. rewrite H. split; reflexivity. Qed.

Lemma pause_download_same task_id s :
  sched_same s (pause_download task_id s)
  /\ counters_same s (pause_download task_id s).
Proof.
  unfold pause_download.
  destruct (Dict.get task_id (downloads s)) as [l|];
    [|split; [apply sched_same_refl | apply counters_same_refl]].
  destruct (bool_decide _);
    [|split; [apply sched_same_refl | apply counters_same_refl]].
  split.
  - apply (sched_same_trans _ (update_task l (with_status paused) s));
      [apply sched_same_update | apply sched_same_status].
  - apply (counters_same_trans _ (update_task l (with_status paused) s));
      [apply counters_same_update; reflexivity | apply counters_same_heap; reflexivity].
Qed.

Lemma cancel_download_same task_id s :
  sched_same s (cancel_download task_id s)
  /\ counters_same s (cancel_download task_id s).
Proof.
  unfold cancel_download.
  destruct (Dict.get task_id (downloads s)) as [l|];
    [|split; [apply sched_same_refl | apply counters_same_refl]].
  set (s1 := if bool_decide (status (task_at s l) = downloading) then _ else s).
  assert (H1 : sched_same s s1 /\ counters_same s s1).
  { subst s1. destruct (bool_decide _).
    - split; [apply sched_same_update | apply counters_same_update; reflexivity].
    - split; [apply sched_same_refl | apply counters_same_refl]. }
  destruct H1 as [S1 C1].
  set (s2 := if OS.exists_ (world s1) _ then _ else s1).
  assert (H2 : sched_same s1 s2 /\ heap s2 = heap s1).
  { subst s2. destruct (OS.exists_ _ _).
    - split; [apply sched_same_world | reflexivity].
    - split; [apply sched_same_refl | reflexivity]. }
  destruct H2 as [S2 Hh2].
  split.
  - eapply sched_same_trans; [exact S1|].
    eapply sched_same_trans; [exact S2|].
    constructor; simpl; auto. apply dict_del_nodup.
  - eapply counters_same_trans; [exact C1|].
    apply counters_same_heap. simpl. exact Hh2.
Qed.

Lemma interrupt_same i task_id s :
  sched_same s (interrupt i task_id s) /\ counters_same s (interrupt i task_id s).
Proof.
  destruct i; [apply pause_download_same | apply cancel_download_same].
Qed.

Lemma task_at_update_cases s l0 l f :
  task_at (update_task l0 f s) l = task_at s l
  \/ task_at (update_task l0 f s) l = f (task_at s l).
Proof.
  unfold task_at, update_task. simpl.
  destruct (decide (l0 = l)) as [->|Hne].
  - rewrite list_lookup_alter_eq. destruct (heap s !! l); simpl; auto.
  - rewrite list_lookup_alter_ne by exact Hne. auto.
Qed.

(** Post-processing touches the world, the status log and at most the
    [error_message] of a task; it raises only when the task is not
    registered. *)
Lemma handle_post_effect task_id env s :
  let r := _handle_post_download task_id env s in
  sched_same s (fst r)
  /\ downloads (fst r) = downloads s
  /\ (forall l, task_at (fst r) l = task_at s l
                \/ exists m, task_at (fst r) l = with_error_message m (task_at s l))
  /\ (forall l, Dict.get task_id (downloads s) = Some l -> snd r = Ok tt).
Proof.
  unfold _handle_post_download.
  destruct (Dict.get task_id (downloads s)) as [l0|]; simpl.
  2:{ split; [apply sched_same_refl|]. split; [reflexivity|].
      split; [auto | discriminate]. }
  destruct (Py.endswith ".zip" _); simpl.
  { unfold post_zip. destruct (bind _ _ _) as [w1 [u|e]].
    - split; [constructor; simpl; auto|]. split; [reflexivity|]. split; auto.
    - split; [constructor; simpl; auto; apply length_alter|].
      split; [reflexivity|]. split; [|auto].
      intros l.
      destruct (task_at_update_cases (with_world w1 s) l0 l
                  (with_error_message ("ZIP extraction failed: " +:+ e))) as [H|H].
      + left. exact H.
      + right. eexists. exact H. }
  destruct (Py.endswith ".nsz" _); simpl.
  { unfold post_nsz.
    destruct (NSZService.decompress_nsz _ _ _ _ _) as [w1 [[[|] m]|e]].
    - split; [constructor; simpl; auto|]. split; [reflexivity|]. split; auto.
    - split; [constructor; simpl; auto; apply length_alter|].
      split; [reflexivity|]. split; [|auto].
      intros l.
      destruct (task_at_update_cases
                  (with_world w1 (_notify_status task_id "decompressing"
                     ("Decompressing NSZ: " +:+ filename (task_at s l0)) s)) l0 l
                  (with_error_message ("NSZ decompression failed: " +:+ m))) as [H|H].
      + left. exact H.
      + right. eexists. exact H.
    - split; [constructor; simpl; auto; apply length_alter|].
      split; [reflexivity|]. split; [|auto].
      intros l.
      destruct (task_at_update_cases
                  (with_world w1 (_notify_status task_id "decompressing"
                     ("Decompressing NSZ: " +:+ filename (task_at s l0)) s)) l0 l
                  (with_error_message ("NSZ decompression failed: " +:+ e))) as [H|H].
      + left. exact H.
      + right. eexists. exact H. }
  split; [apply sched_same_refl|]. split; [reflexivity|]. split; auto.
Qed.

(** ** End of the stream *)

(** C2, as the code has it. At the end of the stream, with the task still
    [downloading]: it is marked [completed], with [end_time] set and
    post-processing run on the marked task, exactly when [total_bytes] is 0
    or [downloaded_bytes] has reached it; otherwise it is marked [failed]
    with the message [Download incomplete], spelt with a capital. *)
Theorem finish_completed_iff task_id l env s :
  Dict.get task_id (downloads s) = Some l ->
  (l < length (heap s))%nat ->
  status (task_at s l) = downloading ->
  let t := task_at s l in
  let enough := total_bytes t = 0 \/ downloaded_bytes t >= total_bytes t in
  let marked := update_task l (fun t =>
      with_end_time (t_end env) (with_progress 100 (with_status completed t))) s in
  exists s',
    finish task_id l env s = (s', Ok tt)
    /\ (status (task_at s' l) = completed <-> enough)
    /\ (enough ->
        end_time (task_at s' l) = Some (t_end env)
        /\ exists s2,
             _handle_post_download task_id (post env) marked = (s2, Ok tt)
             /\ s' = _notify_status task_id "completed"
                       ("Download completed: " +:+ filename t) s2)
    /\ (~ enough ->
        status (task_at s' l) = failed
        /\ error_message (task_at s' l) = "Download incomplete"
        /\ end_time (task_at s' l) = end_time t
        /\ status_log s'
           = (status_log s ++ [(task_id, "failed", "Download incomplete")])%list).
Proof.
  intros Hget Hl Hst t enough marked. unfold finish. fold t.
  rewrite (bool_decide_eq_true_2 _ Hst).
  destruct ((total_bytes t =? 0) || (downloaded_bytes t >=? total_bytes t)) eqn:Hc.
  - assert (He : enough).
    { rewrite Z.geb_leb in Hc. apply orb_prop in Hc as [H|H];
        [left; apply Z.eqb_eq; exact H | right; apply Z.leb_le in H; lia]. }
    fold marked.
    destruct (handle_post_effect task_id (post env) marked) as [_ [_ [Htask Hok]]].
    specialize (Hok l Hget). specialize (Htask l).
    destruct (_handle_post_download task_id (post env) marked) as [s2 r].
    simpl in Hok, Htask. subst r.
    assert (Hm : task_at marked l
                 = with_end_time (t_end env) (with_progress 100 (with_status completed t))).
    { apply task_at_update_same. exact Hl. }
    assert (Hs2 : status (task_at s2 l) = completed
                  /\ end_time (task_at s2 l) = Some (t_end env)).
    { destruct Htask as [E|[m E]]; rewrite E, Hm; split; reflexivity. }
    destruct Hs2 as [Hs2 He2].
    eexists. split; [reflexivity|].
    split; [split; [intros _; exact He | intros _; exact Hs2]|].
    split; [|intros Hne; contradiction].
    intros _. split; [exact He2|]. exists s2. split; reflexivity.
  - assert (He : ~ enough).
    { rewrite Z.geb_leb in Hc. apply orb_false_elim in Hc as [H1 H2].
      apply Z.eqb_neq in H1. apply Z.leb_gt in H2.
      intros [H|H]; [contradiction | lia]. }
    set (f := fun t0 => with_error_message "Download incomplete" (with_status failed t0)).
    assert (Hf : task_at (_notify_status task_id "failed" "Download incomplete"
                            (update_task l f s)) l = f t).
    { apply (task_at_update_same s). exact Hl. }
    eexists. split; [reflexivity|].
    split; [split; [rewrite Hf; discriminate | intros H; contradiction]|].
    split; [intros H; contradiction|].
    intros _. rewrite Hf. repeat split; reflexivity.
Qed.

Lemma finish_completed_iff_witness :
  exists s',
    finish "part.bin_2" 1 Sample.exact_body Sample.busy = (s', Ok tt)
    /\ status (task_at s' 1) = failed
    /\ error_message (task_at s' 1) = "Download incomplete".
Proof.
  destruct (finish_completed_iff "part.bin_2" 1 Sample.exact_body Sample.busy)
    as [s' [E [_ [_ Hshort]]]].
  - reflexivity.
  - simpl. lia.
  - reflexivity.
  - exists s'. split; [exact E|].
    destruct Hshort as [Hst [Hmsg _]].
    + simpl. lia.
    + split; [exact Hst | exact Hmsg].
Defined.

(** C2 as it is stated gives the message in lower case; the code's literal
    is not that string. A stream that ends at 4 bytes of 8: *)
Lemma finish_message_is_capitalised :
  let s' := fst (finish "part.bin_2" 1 Sample.exact_body Sample.busy) in
  status (task_at s' 1) = failed
  /\ error_message (task_at s' 1) = "Download incomplete"
  /\ error_message (task_at s' 1) <> "download incomplete".
Proof.
  cbv zeta. split; [|split]; vm_compute; [reflexivity | reflexivity | discriminate].
Qed.

Example finish_unknown_length :
  let s := update_task 1 (with_total_bytes 0) Sample.busy in
  let s' := fst (finish "part.bin_2" 1 Sample.exact_body s) in
  status (task_at s' 1) = completed
  /\ end_time (task_at s' 1) = Some (4 : Q)
  /\ status_log s' = [("part.bin_2", "completed", "Download completed: part.bin")].
Proof. vm_compute. repeat split; reflexivity. Qed.

(** ** Byte counters during the transfer *)

Lemma begin_transfer_heap l env s s1 r :
  begin_transfer l env s = (s1, r) -> length (heap s1) = length (heap s).
Proof.
  unfold begin_transfer.
  destruct (if OS.exists_ _ _ then _ else _) as [resume_pos|e];
    [|intros [= <- _]; reflexivity].
  destruct (respond env _) as [e|cl body]; [intros [= <- _]; reflexivity|].
  destruct (if 0 <? resume_pos then _ else _) as [w2 [f|e]];
    intros [= <- _]; simpl; apply length_alter.
Qed.

(** What the worker knows when the loop starts: the counter is the resume
    offset and the total is the announced length on top of it. *)
Lemma begin_transfer_counters l env s s1 f body :
  (l < length (heap s))%nat ->
  begin_transfer l env s = (s1, Ok (f, body)) ->
  exists resume_pos content_length,
    respond env (if 0 <? resume_pos then Some resume_pos else None)
      = RequestOk content_length body
    /\ downloaded_bytes (task_at s1 l) = resume_pos
    /\ total_bytes (task_at s1 l)
       = match content_length with Some n => n + resume_pos | None => 0 end.
Proof.
  intros Hl. unfold begin_transfer.
  destruct (if OS.exists_ _ _ then _ else _) as [resume_pos|e]; [|discriminate].
  destruct (respond env _) as [e|cl body'] eqn:Hr; [discriminate|].
  set (g := fun t => with_downloaded_bytes resume_pos (with_total_bytes _ t)).
  match goal with
  | |- context [let (_, _) := ?x in _] => destruct x as [w2 [fh|e]]
  end; [|discriminate].
  intros [= <- <- <-]. exists resume_pos, cl. split; [exact Hr|].
  assert (Ht : task_at (with_world w2 (update_task l g s)) l = g (task_at s l)).
  { apply (task_at_update_same s). exact Hl. }
  rewrite Ht. split; reflexivity.
Qed.

(** A chunk adds exactly its length. *)
Lemma take_chunk_adds task_id l f data now lu bsu s :
  (l < length (heap s))%nat ->
  let s1 := fst (fst (take_chunk task_id l f data now lu bsu s)) in
  length (heap s1) = length (heap s)
  /\ downloaded_bytes (task_at s1 l)
     = downloaded_bytes (task_at s l) + Z.of_nat (String.length data)
  /\ total_bytes (task_at s1 l) = total_bytes (task_at s l).
Proof.
  intros Hl. unfold take_chunk.
  set (n := Z.of_nat (String.length data)).
  set (s2 := update_task l (fun t => with_downloaded_bytes (downloaded_bytes t + n) t)
               (with_world (OS.write (world s) f data) s)).
  assert (H2 : task_at s2 l
               = with_downloaded_bytes (downloaded_bytes (task_at s l) + n) (task_at s l)).
  { subst s2.
    rewrite (task_at_update_same (with_world (OS.write (world s) f data) s) l _ Hl).
    reflexivity. }
  assert (L2 : length (heap s2) = length (heap s)).
  { subst s2. simpl. apply length_alter. }
  destruct (Qle_bool _ _); cbn [fst].
  - set (s3 := update_task l (with_speed _) s2).
    assert (D3 : downloaded_bytes (task_at s3 l) = downloaded_bytes (task_at s2 l)
                 /\ total_bytes (task_at s3 l) = total_bytes (task_at s2 l)).
    { subst s3. split;
        [apply (task_at_update_field downloaded_bytes)
        |apply (task_at_update_field total_bytes)]; reflexivity. }
    assert (L3 : length (heap s3) = length (heap s2)).
    { subst s3. simpl. apply length_alter. }
    destruct D3 as [D3 T3].
    destruct (0 <? total_bytes (task_at s3 l)).
    + split; [simpl; rewrite !length_alter; reflexivity|].
      unfold _notify_progress.
      change (task_at (with_progress_log ?x ?y) l) with (task_at y l).
      split.
      * etransitivity; [apply (task_at_update_field downloaded_bytes); reflexivity|].
        rewrite D3, H2. reflexivity.
      * etransitivity; [apply (task_at_update_field total_bytes); reflexivity|].
        rewrite T3, H2. reflexivity.
    + split; [simpl; rewrite !length_alter; reflexivity|]. unfold _notify_progress.
      change (task_at (with_progress_log ?x ?y) l) with (task_at y l).
      rewrite D3, T3, H2. split; reflexivity.
  - split; [exact L2|]. rewrite H2. split; reflexivity.
Qed.

Lemma stream_bytes_nonneg items : 0 <= stream_bytes items.
Proof.
  induction items as [|[data now|i|e] rest IH]; simpl; lia.
Qed.

(** One turn of the loop: the counter grows by at most the bytes of the
    item, the total stays, and a turn that leaves the loop changes nothing. *)
Lemma loop_step_counters task_id l f item c :
  (l < length (heap (svc c)))%nat ->
  match loop_step task_id l f item c with
  | Continue c1 =>
      length (heap (svc c1)) = length (heap (svc c))
      /\ downloaded_bytes (task_at (svc c) l) <= downloaded_bytes (task_at (svc c1) l)
      /\ downloaded_bytes (task_at (svc c1) l)
         <= downloaded_bytes (task_at (svc c) l) + stream_bytes [item]
      /\ total_bytes (task_at (svc c1) l) = total_bytes (task_at (svc c) l)
  | Break s1 => s1 = svc c
  | Raised s1 _ => s1 = svc c
  end.
Proof.
  intros Hl. destruct item as [data now|i|e]; unfold loop_step.
  - destruct (negb _); [reflexivity|].
    destruct (String.eqb data EmptyString); [simpl; repeat split; lia|].
    pose proof (take_chunk_adds task_id l f data now (last_update c)
                  (bytes_since_update c) (svc c) Hl) as H.
    destruct (take_chunk _ _ _ _ _ _ _ _) as [[s1 lu'] bsu'].
    cbn [fst svc] in *. destruct H as [HL [HD HT]].
    split; [exact HL|]. simpl stream_bytes.
    repeat split; lia.
  - destruct (interrupt_same i task_id (svc c)) as [HS HC].
    destruct (HC l) as [HD HT]. cbn [svc].
    split; [apply (ss_heap _ _ HS)|]. simpl stream_bytes.
    repeat split; lia.
  - reflexivity.
Qed.

(** Every state the loop goes through, measured against the state it
    started in. *)
Lemma loop_states_bounds task_id l f items : forall c sj,
  (l < length (heap (svc c)))%nat ->
  In sj (loop_states task_id l f items c) ->
  length (heap sj) = length (heap (svc c))
  /\ downloaded_bytes (task_at (svc c) l) <= downloaded_bytes (task_at sj l)
  /\ downloaded_bytes (task_at sj l)
     <= downloaded_bytes (task_at (svc c) l) + stream_bytes items
  /\ total_bytes (task_at sj l) = total_bytes (task_at (svc c) l).
Proof.
  induction items as [|item rest IH]; intros c sj Hl Hin.
  - destruct Hin as [<-|[]]. simpl. repeat split; lia.
  - pose proof (stream_bytes_nonneg (item :: rest)) as Hnn.
    destruct Hin as [<-|Hin]; [repeat split; lia|].
    pose proof (loop_step_counters task_id l f item c Hl) as Hstep.
    assert (Hsplit : stream_bytes (item :: rest) = stream_bytes [item] + stream_bytes rest).
    { destruct item; simpl; lia. }
    destruct (loop_step task_id l f item c) as [c1|s1|s1 e].
    + destruct Hstep as [HL [HD1 [HD2 HT]]].
      assert (Hl1 : (l < length (heap (svc c1)))%nat) by lia.
      destruct (IH c1 sj Hl1 Hin) as [HL' [HD1' [HD2' HT']]].
      split; [congruence|]. split; [lia|]. split; [lia|congruence].
    + destruct Hin as [<-|[]]. subst s1. repeat split; lia.
    + destruct Hin as [<-|[]]. subst s1. repeat split; lia.
Qed.

Lemma loop_states_last task_id l f items : forall c,
  last (loop_states task_id l f items c)
  = Some (fst (download_loop task_id l f items c)).
Proof.
  induction items as [|item rest IH]; intros c; [reflexivity|].
  simpl. destruct (loop_step task_id l f item c) as [c1|s1|s1 e].
  - specialize (IH c1).
    destruct (loop_states task_id l f rest c1) eqn:E; [discriminate IH|].
    exact IH.
  - reflexivity.
  - reflexivity.
Qed.

(** Between any two moments of the loop the counter has not gone down and
    the total has not moved. *)
Lemma loop_states_monotone task_id l f items : forall c i j si sj,
  (l < length (heap (svc c)))%nat ->
  (i <= j)%nat ->
  loop_states task_id l f items c !! i = Some si ->
  loop_states task_id l f items c !! j = Some sj ->
  downloaded_bytes (task_at si l) <= downloaded_bytes (task_at sj l)
  /\ total_bytes (task_at sj l) = total_bytes (task_at si l).
Proof.
  induction items as [|item rest IH]; intros c i j si sj Hl Hij Hi Hj.
  - destruct i as [|i]; [|discriminate Hi].
    destruct j as [|j]; [|discriminate Hj].
    simpl in Hi, Hj. injection Hi as <-. injection Hj as <-. split; [lia|reflexivity].
  - destruct i as [|i].
    + simpl in Hi. injection Hi as <-.
      assert (Hin : In sj (loop_states task_id l f (item :: rest) c)).
      { apply list_elem_of_In. eapply list_elem_of_lookup_2. exact Hj. }
      destruct (loop_states_bounds _ _ _ _ c sj Hl Hin) as [_ [HD [_ HT]]].
      split; [exact HD | exact HT].
    + destruct j as [|j]; [lia|].
      simpl in Hi, Hj.
      pose proof (loop_step_counters task_id l f item c Hl) as Hstep.
      destruct (loop_step task_id l f item c) as [c1|s1|s1 e].
      * destruct Hstep as [HL _].
        apply (IH c1 i j si sj); [lia | lia | exact Hi | exact Hj].
      * destruct i as [|i]; [|discriminate Hi].
        destruct j as [|j]; [|discriminate Hj].
        simpl in Hi, Hj. injection Hi as <-. injection Hj as <-.
        split; [lia|reflexivity].
      * destruct i as [|i]; [|discriminate Hi].
        destruct j as [|j]; [|discriminate Hj].
        simpl in Hi, Hj. injection Hi as <-. injection Hj as <-.
        split; [lia|reflexivity].
Qed.

(** C1, as the code has it. From the moment the file is open, through
    every turn of the loop (chunks, pauses, cancellations, errors), the
    counter [downloaded_bytes] of the task never goes down and
    [total_bytes] does not move. The counter stays within [total_bytes]
    provided the body brings no more bytes than were announced, that is
    than [total_bytes] less the resume offset; nothing in the loop enforces
    it. *)
Theorem downloaded_bytes_in_loop task_id l env s s1 f body :
  (l < length (heap s))%nat ->
  begin_transfer l env s = (s1, Ok (f, body)) ->
  let c := mkLoop s1 (t_loop env) 0 in
  let states := loop_states task_id l f body c in
  last states = Some (fst (download_loop task_id l f body c))
  /\ (forall i j si sj,
        (i <= j)%nat -> states !! i = Some si -> states !! j = Some sj ->
        downloaded_bytes (task_at si l) <= downloaded_bytes (task_at sj l)
        /\ total_bytes (task_at sj l) = total_bytes (task_at si l))
  /\ (stream_bytes body
        <= total_bytes (task_at s1 l) - downloaded_bytes (task_at s1 l) ->
      forall j sj, states !! j = Some sj ->
        downloaded_bytes (task_at sj l) <= total_bytes (task_at sj l)).
Proof.
  intros Hl Hbegin c states.
  assert (Hl1 : (l < length (heap (svc c)))%nat).
  { simpl. rewrite (begin_transfer_heap _ _ _ _ _ Hbegin). exact Hl. }
  split; [apply loop_states_last|].
  split.
  - intros i j si sj Hij Hi Hj.
    exact (loop_states_monotone task_id l f body c i j si sj Hl1 Hij Hi Hj).
  - intros Hfit j sj Hj.
    assert (Hin : In sj states).
    { apply list_elem_of_In. eapply list_elem_of_lookup_2. exact Hj. }
    destruct (loop_states_bounds _ _ _ _ c sj Hl1 Hin) as [_ [_ [HD HT]]].
    simpl in HD, HT. lia.
Qed.

Lemma downloaded_bytes_in_loop_witness :
  let s0 := worker_enter "a.bin_1000" 0 Sample.exact_body Sample.queued in
  let s1 := fst (begin_transfer 0 Sample.exact_body s0) in
  let body := [Chunk "01234" 3; Chunk "56789" (7 # 2)] in
  exists s2,
    loop_states "a.bin_1000" 0 "/roms/a.bin" body (mkLoop s1 2 0) !! 2%nat = Some s2
    /\ downloaded_bytes (task_at s2 0) = 10
    /\ downloaded_bytes (task_at s2 0) <= total_bytes (task_at s2 0).
Proof.
  intros s0 s1 body.
  destruct (downloaded_bytes_in_loop "a.bin_1000" 0 Sample.exact_body s0 s1
              "/roms/a.bin" body) as [_ [_ Hfit]].
  - vm_compute. lia.
  - vm_compute. reflexivity.
  - eexists. split; [vm_compute; reflexivity|].
    split; [reflexivity|].
    apply (Hfit ltac:(vm_compute; discriminate) 2%nat).
    vm_compute. reflexivity.
Defined.

(** C1 as it is stated fails in its second half. A server announces 5 bytes
    and sends 10: while the task is still [downloading], with
    [total_bytes = 5], its counter stands at 10, and that is what the
    progress listeners are shown. *)
Lemma downloaded_bytes_exceeds_total :
  let s0 := worker_enter "a.bin_1000" 0 Sample.long_body Sample.queued in
  let r := begin_transfer 0 Sample.long_body s0 in
  let body := [Chunk "0123456789" 3] in
  let s2 := fst (download_loop "a.bin_1000" 0 "/roms/a.bin" body
                   (mkLoop (fst r) 2 0)) in
  let shown := progress_log
                 (fst (_download_worker "a.bin_1000" Sample.long_body Sample.queued)) in
  snd r = Ok ("/roms/a.bin", body)
  /\ (status (task_at s2 0), total_bytes (task_at s2 0), downloaded_bytes (task_at s2 0))
     = (downloading, 5, 10)
  /\ (fun p => (fst p, status (snd p), total_bytes (snd p), downloaded_bytes (snd p)))
       <$> head shown
     = Some ("a.bin_1000", downloading, 5, 10).
Proof.
  cbv zeta. split; [|split]; vm_compute; reflexivity.
Qed.

(** ** The worker and the scheduler *)

Lemma begin_transfer_sched l env s :
  sched_same s (fst (begin_transfer l env s)).
Proof.
  unfold begin_transfer.
  destruct (if OS.exists_ _ _ then _ else _) as [resume_pos|e];
    [|apply sched_same_refl].
  destruct (respond env _) as [e|cl body]; [apply sched_same_refl|].
  match goal with
  | |- context [let (_, _) := ?x in _] => destruct x as [w2 [fh|e]]
  end; simpl;
    (eapply sched_same_trans; [apply sched_same_update | apply sched_same_world]).
Qed.

Lemma take_chunk_sched task_id l f data now lu bsu s :
  sched_same s (fst (fst (take_chunk task_id l f data now lu bsu s))).
Proof.
  unfold take_chunk.
  set (s2 := update_task l _ (with_world _ s)).
  assert (H2 : sched_same s s2).
  { subst s2. eapply sched_same_trans; [apply sched_same_world | apply sched_same_update]. }
  destruct (Qle_bool _ _); cbn [fst]; [|exact H2].
  eapply sched_same_trans; [exact H2|].
  eapply sched_same_trans; [apply sched_same_update|].
  destruct (0 <? _).
  - eapply sched_same_trans; [apply sched_same_update | apply sched_same_progress].
  - apply sched_same_progress.
Qed.

Lemma download_loop_sched task_id l f items : forall c,
  sched_same (svc c) (fst (download_loop task_id l f items c)).
Proof.
  induction items as [|item rest IH]; intros c; simpl; [apply sched_same_refl|].
  destruct item as [data now|i|e]; unfold loop_step.
  - destruct (negb _); [apply sched_same_refl|].
    destruct (String.eqb data EmptyString); [apply IH|].
    pose proof (take_chunk_sched task_id l f data now (last_update c)
                  (bytes_since_update c) (svc c)) as H.
    destruct (take_chunk _ _ _ _ _ _ _ _) as [[s1 lu'] bsu']. cbn [fst] in H.
    eapply sched_same_trans; [exact H | apply (IH (mkLoop s1 lu' bsu'))].
  - eapply sched_same_trans; [apply (interrupt_same i task_id (svc c))|].
    apply (IH (mkLoop _ _ _)).
  - apply sched_same_refl.
Qed.

Lemma finish_sched task_id l env s :
  sched_same s (fst (finish task_id l env s)).
Proof.
  unfold finish. destruct (bool_decide _); [|apply sched_same_refl].
  destruct (_ || _).
  - set (marked := update_task l _ s).
    destruct (handle_post_effect task_id (post env) marked) as [HS _].
    destruct (_handle_post_download task_id (post env) marked) as [s2 [u|e]];
      simpl in *.
    + eapply sched_same_trans; [apply sched_same_update|].
      eapply sched_same_trans; [exact HS | apply sched_same_status].
    + eapply sched_same_trans; [apply sched_same_update | exact HS].
  - simpl. eapply sched_same_trans; [apply sched_same_update | apply sched_same_status].
Qed.

Lemma worker_try_sched task_id l env s :
  sched_same s (fst (worker_try task_id l env s)).
Proof.
  unfold worker_try.
  pose proof (begin_transfer_sched l env s) as H1.
  destruct (begin_transfer l env s) as [s1 [[f body]|e]]; simpl in H1; [|exact H1].
  pose proof (download_loop_sched task_id l f body (mkLoop s1 (t_loop env) 0)) as H2.
  destruct (download_loop _ _ _ _ _) as [s2 [u|e]]; simpl in H2.
  - eapply sched_same_trans; [exact H1|].
    eapply sched_same_trans; [exact H2 | apply finish_sched].
  - eapply sched_same_trans; [exact H1 | exact H2].
Qed.

(** The body of the worker, whatever its outcome, leaves the admission
    counter, the limit and the started threads alone. *)
Lemma worker_run_sched task_id l env s :
  sched_same s (worker_run task_id l env s).
Proof.
  unfold worker_run.
  assert (H0 : sched_same s (worker_enter task_id l env s)).
  { unfold worker_enter.
    eapply sched_same_trans; [apply sched_same_update | apply sched_same_status]. }
  pose proof (worker_try_sched task_id l env (worker_enter task_id l env s)) as H1.
  destruct (worker_try _ _ _ _) as [s1 [u|e]]; simpl in H1.
  - eapply sched_same_trans; [exact H0 | exact H1].
  - eapply sched_same_trans; [exact H0|].
    eapply sched_same_trans; [exact H1|].
    unfold worker_except.
    eapply sched_same_trans; [apply sched_same_update | apply sched_same_status].
Qed.

Lemma dict_get_first {V} (d : list (string * V)) k v :
  NoDup d.*1 -> In (k, v) d -> Dict.get k d = Some v.
Proof.
  induction d as [|[k' v'] d IH]; simpl; [intros _ []|].
  intros Hnd Hin. apply NoDup_cons in Hnd as [Hnot Hnd].
  destruct (String.eqb_spec k k') as [->|Hne].
  - destruct Hin as [[= ->]|Hin]; [reflexivity|].
    exfalso. apply Hnot. apply list_elem_of_In.
    apply (in_map fst) in Hin. exact Hin.
  - destruct Hin as [[= <- _]|Hin]; [contradiction|]. auto.
Qed.

Lemma dict_get_in {V} (d : list (string * V)) k v :
  Dict.get k d = Some v -> In (k, v) d.
Proof.
  induction d as [|[k' v'] d IH]; simpl; [discriminate|].
  destruct (String.eqb_spec k k') as [->|Hne].
  - intros [= ->]. left. reflexivity.
  - intros H. right. auto.
Qed.

(** [first_pending] finds a pending task exactly when there is one. *)
Lemma first_pending_spec s :
  NoDup (downloads s).*1 ->
  match first_pending s with
  | Some task_id =>
      exists l, Dict.get task_id (downloads s) = Some l
                /\ status (task_at s l) = pending
  | None => ~ has_pending s
  end.
Proof.
  intros Hnd. unfold first_pending.
  destruct (List.find _ (downloads s)) as [[k l]|] eqn:Hf; simpl.
  - apply find_some in Hf as [Hin Hp]. simpl in Hp.
    apply bool_decide_eq_true in Hp.
    exists l. split; [apply dict_get_first; assumption | exact Hp].
  - intros [k [l [Hget Hp]]].
    apply dict_get_in in Hget.
    pose proof (find_none _ _ Hf _ Hget) as Hn. simpl in Hn.
    apply bool_decide_eq_false in Hn. contradiction.
Qed.

(** C4. A worker that has taken hold of its task ends by way of the
    [finally] block whatever happened in between (completion, short stream,
    exception, pause or cancellation): the counter, which the body never
    touches, is decremented once; then, if some registered task is pending
    and the decremented counter is below the limit, exactly one worker is
    started, for a pending task, and otherwise none. *)
Theorem worker_releases_slot task_id env s l :
  Dict.get task_id (downloads s) = Some l ->
  NoDup (downloads s).*1 ->
  let s1 := worker_run task_id l env s in
  let room := has_pending s1
              /\ active_downloads s - 1 < max_concurrent_downloads s in
  exists s2,
    _download_worker task_id env s = (s2, Ok tt)
    /\ active_downloads s1 = active_downloads s
    /\ threads s1 = threads s
    /\ max_concurrent_downloads s2 = max_concurrent_downloads s
    /\ (room ->
        exists next l',
          Dict.get next (downloads s1) = Some l'
          /\ status (task_at s1 l') = pending
          /\ threads s2 = (threads s ++ [next])%list
          /\ active_downloads s2 = active_downloads s - 1 + 1)
    /\ (~ room ->
        threads s2 = threads s
        /\ active_downloads s2 = active_downloads s - 1).
Proof.
  intros Hget Hnd s1 room.
  destruct (worker_run_sched task_id l env s) as [HA HM HT _ HR].
  fold s1 in HA, HM, HT, HR. specialize (HR Hnd).
  unfold _download_worker. rewrite Hget. fold s1.
  eexists. split; [reflexivity|]. split; [exact HA|]. split; [exact HT|].
  unfold worker_finally, _start_next_pending_download.
  set (sd := _notify_progress task_id l
               (with_active_downloads (active_downloads s1 - 1) s1)).
  change (active_downloads sd) with (active_downloads s1 - 1).
  change (max_concurrent_downloads sd) with (max_concurrent_downloads s1).
  change (first_pending sd) with (first_pending s1).
  pose proof (first_pending_spec s1 HR) as Hfp.
  rewrite HA, HM.
  destruct (active_downloads s - 1 <? max_concurrent_downloads s) eqn:Hcap.
  - apply Z.ltb_lt in Hcap.
    destruct (first_pending s1) as [next|].
    + destruct Hfp as [l' [Hg Hp]].
      unfold start_download.
      change (downloads sd) with (downloads s1). rewrite Hg.
      change (task_at sd l') with (task_at s1 l').
      rewrite (bool_decide_eq_true_2 _ Hp).
      change (active_downloads sd) with (active_downloads s1 - 1).
      change (max_concurrent_downloads sd) with (max_concurrent_downloads s1).
      rewrite HA, HM.
      replace (active_downloads s - 1 >=? max_concurrent_downloads s) with false
        by (symmetry; rewrite Z.geb_leb; apply Z.leb_gt; lia).
      simpl. split; [exact HM|]. split.
      * intros _. exists next, l'.
        rewrite HT, HA. repeat split; assumption || reflexivity.
      * intros Hno. exfalso. apply Hno. split; [|exact Hcap].
        exists next, l'. split; assumption.
    + split; [exact HM|]. split.
      * intros [Hp _]. contradiction.
      * intros _. simpl. rewrite HT, HA. split; reflexivity.
  - apply Z.ltb_ge in Hcap. split; [exact HM|]. split.
    + intros [_ Hlt]. lia.
    + intros _. simpl. rewrite HT, HA. split; reflexivity.
Qed.

Lemma worker_releases_slot_witness :
  exists s2,
    _download_worker "part.bin_2" Sample.exact_body Sample.busy = (s2, Ok tt)
    /\ threads s2 = ["part.bin_2"; "dir.bin_5"]
    /\ active_downloads s2 = 3 - 1 + 1.
Proof.
  destruct (worker_releases_slot "part.bin_2" Sample.exact_body Sample.busy 1)
    as [s2 [E [_ [_ [_ [Hroom _]]]]]].
  - reflexivity.
  - apply (bool_decide_unpack _). vm_compute. exact I.
  - exists s2. split; [exact E|].
    destruct Hroom as [next [l' [Hg [Hp [Ht Ha]]]]].
    + split; [|simpl; lia].
      exists "dir.bin_5", 4%nat. split; vm_compute; reflexivity.
    + assert (Hnext : next = "dir.bin_5").
      { assert (E2 : threads s2
                     = threads (fst (_download_worker "part.bin_2" Sample.exact_body
                                       Sample.busy))) by (rewrite E; reflexivity).
        rewrite Ht in E2. vm_compute in E2. injection E2 as E2. exact E2. }
      subst next. split; [exact Ht | exact Ha].
Defined.

(** The four ways out of the worker each release one slot and hand it to the
    first pending task. *)
Example worker_ways_out :
  let run env := fst (_download_worker "part.bin_2" env Sample.busy) in
  let failing := mkWorkerEnv 1 (fun _ => RequestRaise "503 Server Error") 2 4 5 Sample.libs in
  let short := mkWorkerEnv 1 (fun _ => RequestOk (Some 4) [Chunk "xy" 3]) 2 4 5 Sample.libs in
  let full := mkWorkerEnv 1 (fun _ => RequestOk (Some 4) [Chunk "abcd" 3]) 2 4 5 Sample.libs in
  let cancelled := mkWorkerEnv 1
      (fun _ => RequestOk (Some 4) [Chunk "ab" 3; Interrupted ICancel; Chunk "cd" 3])
      2 4 5 Sample.libs in
  (status (task_at (run failing) 1), active_downloads (run failing), threads (run failing))
    = (failed, 3, ["part.bin_2"; "dir.bin_5"])
  /\ (status (task_at (run short) 1), error_message (task_at (run short) 1),
      active_downloads (run short))
    = (failed, "Download incomplete", 3)
  /\ (status (task_at (run full) 1), downloaded_bytes (task_at (run full) 1),
      active_downloads (run full), fs (world (run full)) !! "/roms/part.bin")
    = (completed, 8, 3, Some (File "halfabcd"))
  /\ (status (task_at (run cancelled) 1), downloaded_bytes (task_at (run cancelled) 1),
      get_download_status "part.bin_2" (run cancelled),
      fs (world (run cancelled)) !! "/roms/part.bin", active_downloads (run cancelled))
    = (failed, 6, None, None, 3).
Proof. vm_compute. repeat split; reflexivity. Qed.

(** A worker whose task is no longer registered when it starts stops at its
    first statement, before the [try]: nothing is changed. *)
Example worker_without_task :
  _download_worker "gone_0" Sample.exact_body Sample.busy
  = (Sample.busy, Raise "'gone_0'").
Proof. reflexivity. Qed.

(** ** The string and path primitives on examples *)

Example lower_ex : Py.lower "Game.NSZ" = "game.nsz".
Proof. reflexivity. Qed.

Example endswith_ex :
  Py.endswith ".nsz" "a/b.nsz" = true /\ Py.endswith ".nsz" "nsz" = false.
Proof. split; reflexivity. Qed.

Example replace_ex :
  Py.replace ".nsz" ".nsp" "a.nsz.nsz" = "a.nsp.nsp"
  /\ Py.replace ".nsz" ".nsp" "GAME.NSZ" = "GAME.NSZ".
Proof. split; reflexivity. Qed.

Example strip_ex : Py.strip "  k=v  " = "k=v".
Proof. reflexivity. Qed.

Example split_ex : Py.split "/" "a/b//c" = ["a"; "b"; EmptyString; "c"].
Proof. reflexivity. Qed.

Example split1_ex : Py.split1 "=" "k=v=w" = Some ("k", "v=w").
Proof. reflexivity. Qed.

Example join_ex :
  Path.join "/roms" "x.zip" = "/roms/x.zip"
  /\ Path.join "/roms/" "x.zip" = "/roms/x.zip"
  /\ Path.join "/roms" "/abs/x.zip" = "/abs/x.zip".
Proof. repeat split; reflexivity. Qed.

Example basename_ex : Path.basename "/roms/GAME.NSZ" = "GAME.NSZ".
Proof. reflexivity. Qed.

Example expanduser_ex : Path.expanduser_tilde "/home/u/" "/.switch" = "/home/u/.switch".
Proof. reflexivity. Qed.

Example int16_ex :
  Py.int16_ok "0x_1f" = true /\ Py.int16_ok "1__f" = false
  /\ Py.int16_ok "-ff" = true /\ Py.int16_ok "0x" = false
  /\ Py.int16_ok EmptyString = false /\ Py.int16_ok " ff" = true /\ Py.int16_ok "fg" = false.
Proof. repeat split; reflexivity. Qed.

Example str_int_ex : Py.str_int 1730000000 = "1730000000".
Proof. reflexivity. Qed.

Example int_of_float_ex : Py.int_of_float (10007 # 10) = 1000.
Proof. reflexivity. Qed.

Example valid_line_ex :
  NSZService.valid_line "header_key=00112233445566778899aabbccddeeff" = true
  /\ NSZService.valid_line "header_key = 00112233445566778899aabbccddeeff" = false
  /\ NSZService.valid_line "k=-0112233445566778899aabbccddeeff" = true
  /\ NSZService.valid_line "# comment" = false.
Proof. repeat split; reflexivity. Qed.

(** * Further properties of the two services *)

(** ** Starting downloads *)

Lemma start_download_ok task_id s l :
  Dict.get task_id (downloads s) = Some l ->
  status (task_at s l) = pending ->
  active_downloads s < max_concurrent_downloads s ->
  start_download task_id s
  = (with_active_downloads (active_downloads s + 1) (spawn_worker task_id s), true).
Proof.
  intros Hget Hp Hcap. unfold start_download. rewrite Hget.
  rewrite (bool_decide_eq_true_2 _ Hp). simpl negb. cbv iota.
  replace (active_downloads s >=? max_concurrent_downloads s) with false
    by (symmetry; rewrite Z.geb_leb; apply Z.leb_gt; lia).
  reflexivity.
Qed.

(** X1. A registered pending task is started when a slot is free: the call
    returns [True], the counter grows by one, one thread is started for the
    task and recorded under its identifier; the task itself is not
    touched (it is the worker that will mark it [downloading]), nor are the
    registry, the disk or the status listeners. *)
Theorem start_download_starts task_id s l :
  Dict.get task_id (downloads s) = Some l ->
  status (task_at s l) = pending ->
  active_downloads s < max_concurrent_downloads s ->
  exists s',
    start_download task_id s = (s', true)
    /\ active_downloads s' = active_downloads s + 1
    /\ threads s' = (threads s ++ [task_id])%list
    /\ Dict.get task_id (download_threads s') = Some (length (threads s))
    /\ downloads s' = downloads s
    /\ heap s' = heap s
    /\ world s' = world s
    /\ status_log s' = status_log s.
Proof.
  intros Hget Hp Hcap. rewrite (start_download_ok _ _ _ Hget Hp Hcap).
  eexists. split; [reflexivity|]. simpl.
  rewrite dict_get_set_same. repeat split; reflexivity.
Qed.

Lemma start_download_starts_witness :
  let s := with_active_downloads 2 Sample.busy in
  exists s',
    start_download "next.bin_6" s = (s', true)
    /\ active_downloads s' = 3
    /\ threads s' = ["part.bin_2"; "next.bin_6"]
    /\ status (task_at s' 5) = pending.
Proof.
  intros s.
  destruct (start_download_starts "next.bin_6" s 5) as [s' [E [Ha [Ht [_ [_ [Hh _]]]]]]].
  - reflexivity.
  - reflexivity.
  - simpl. lia.
  - exists s'. split; [exact E|]. split; [exact Ha|]. split; [exact Ht|].
    unfold task_at. rewrite Hh. reflexivity.
Defined.

(** X2. Nothing in [start_download] marks the task as started, so a second
    call made before the worker has run starts a second worker for the same
    task and takes a second slot. *)
Theorem start_download_twice task_id s l :
  Dict.get task_id (downloads s) = Some l ->
  status (task_at s l) = pending ->
  active_downloads s + 1 < max_concurrent_downloads s ->
  let s1 := fst (start_download task_id s) in
  let s2 := fst (start_download task_id s1) in
  snd (start_download task_id s1) = true
  /\ threads s2 = (threads s ++ [task_id; task_id])%list
  /\ active_downloads s2 = active_downloads s + 2.
Proof.
  intros Hget Hp Hcap s1 s2. subst s2 s1.
  rewrite (start_download_ok _ _ _ Hget Hp) by lia. cbn [fst].
  rewrite (start_download_ok task_id _ l); [| exact Hget | exact Hp | simpl; lia].
  simpl. rewrite <- app_assoc. repeat split; try reflexivity. lia.
Qed.

Lemma start_download_twice_witness :
  let s := with_active_downloads 0 Sample.busy in
  let s1 := fst (start_download "next.bin_6" s) in
  let s2 := fst (start_download "next.bin_6" s1) in
  threads s2 = ["part.bin_2"; "next.bin_6"; "next.bin_6"]
  /\ active_downloads s2 = 2.
Proof.
  intros s s1 s2.
  destruct (start_download_twice "next.bin_6" s 5) as [_ [Ht Ha]].
  - reflexivity.
  - reflexivity.
  - simpl. lia.
  - split; [exact Ht | exact Ha].
Defined.

(** The loop of [start_all_downloads] over entries of the registry: it
    starts the pending ones in order until the slots run out. *)
Lemma start_all_loop_count items : forall started s,
  (forall k l, In (k, l) items -> Dict.get k (downloads s) = Some l) ->
  within_limit s ->
  let free := Z.to_nat (max_concurrent_downloads s - active_downloads s) in
  let chosen := firstn free (pending_entries s items) in
  exists s',
    start_all_loop items started s = (s', started + Z.of_nat (length chosen))
    /\ active_downloads s' = active_downloads s + Z.of_nat (length chosen)
    /\ threads s' = (threads s ++ map fst chosen)%list
    /\ max_concurrent_downloads s' = max_concurrent_downloads s
    /\ downloads s' = downloads s /\ heap s' = heap s /\ world s' = world s.
Proof.
  induction items as [|[k l] rest IH]; intros started s Hreg Hlim free chosen.
  - subst chosen. simpl. rewrite firstn_nil. simpl.
    exists s. rewrite app_nil_r, !Z.add_0_r. repeat split; reflexivity.
  - unfold within_limit in Hlim. simpl start_all_loop.
    subst chosen. unfold pending_entries. simpl List.filter.
    fold (pending_entries s rest).
    destruct (bool_decide (status (task_at s l) = pending)) eqn:Hp; simpl andb.
    + apply bool_decide_eq_true in Hp.
      destruct (active_downloads s <? max_concurrent_downloads s) eqn:Hcap.
      * apply Z.ltb_lt in Hcap.
        rewrite (start_download_ok k s l (Hreg k l (or_introl eq_refl)) Hp Hcap).
        set (s1 := with_active_downloads (active_downloads s + 1) (spawn_worker k s)).
        destruct (IH (started + 1) s1) as [s' [E [Ha [Ht [Hm [Hd [Hh Hw]]]]]]].
        { intros k' l' Hin. apply (Hreg k' l'). right. exact Hin. }
        { unfold within_limit. simpl. lia. }
        assert (Hfree : free = S (Z.to_nat (max_concurrent_downloads s1
                                              - active_downloads s1))).
        { subst free. simpl. lia. }
        rewrite Hfree. simpl firstn.
        change (pending_entries s1 rest) with (pending_entries s rest) in *.
        exists s'. rewrite E. simpl length. simpl map. simpl in Ha, Ht, Hm, Hd, Hh, Hw.
        split; [f_equal; lia|]. split; [lia|].
        split; [rewrite Ht, <- app_assoc; reflexivity|].
        repeat split; assumption.
      * apply Z.ltb_ge in Hcap.
        assert (Hfree : free = 0%nat) by (subst free; lia).
        rewrite Hfree. simpl firstn. simpl.
        rewrite start_all_loop_full by lia.
        exists s. rewrite app_nil_r, !Z.add_0_r. repeat split; reflexivity.
    + apply (IH started s).
      * intros k' l' Hin. apply (Hreg k' l'). right. exact Hin.
      * exact Hlim.
Qed.

(** X3. With the counter within the limit, [start_all_downloads] starts the
    pending tasks in registry order until the free slots run out: it
    returns the smaller of the number of pending tasks and the number of
    free slots, raises the counter by that much and never past the limit,
    and touches no task. *)
Theorem start_all_downloads_count s :
  NoDup (downloads s).*1 ->
  within_limit s ->
  let free := Z.to_nat (max_concurrent_downloads s - active_downloads s) in
  let pend := pending_entries s (downloads s) in
  let n := Nat.min (length pend) free in
  exists s',
    start_all_downloads s = (s', Z.of_nat n)
    /\ active_downloads s' = active_downloads s + Z.of_nat n
    /\ within_limit s'
    /\ threads s' = (threads s ++ map fst (firstn free pend))%list
    /\ downloads s' = downloads s /\ heap s' = heap s.
Proof.
  intros Hnd Hlim free pend n.
  destruct (start_all_loop_count (downloads s) 0 s) as [s' [E [Ha [Ht [Hm [Hd [Hh _]]]]]]].
  { intros k l Hin. apply dict_get_first; assumption. }
  { exact Hlim. }
  fold free in E, Ha, Ht. fold pend in E, Ha, Ht.
  assert (Hlen : length (firstn free pend) = n).
  { subst n. rewrite length_firstn. apply Nat.min_comm. }
  rewrite Hlen in E, Ha. unfold start_all_downloads.
  exists s'. split; [exact E|]. split; [exact Ha|].
  split; [|repeat split; assumption].
  unfold within_limit in *. rewrite Ha, Hm. subst n free. lia.
Qed.

Lemma start_all_downloads_count_witness :
  let s := with_active_downloads 2 Sample.busy in
  exists s',
    start_all_downloads s = (s', 1)
    /\ active_downloads s' = 3
    /\ threads s' = ["part.bin_2"; "dir.bin_5"].
Proof.
  intros s.
  destruct (start_all_downloads_count s) as [s' [E [Ha [_ [Ht _]]]]].
  - apply (bool_decide_unpack _). vm_compute. exact I.
  - unfold within_limit. simpl. lia.
  - exists s'. split; [exact E|]. split; [exact Ha | exact Ht].
Defined.

(** ** Pausing and resuming *)

(** X4. [pause_download] acts on a downloading task only: it marks it
    [paused], tells the status listeners, and leaves the byte counters, the
    disk and the admission counter as they are (the slot is released later,
    by the worker). On a missing task or one in any other state it does
    nothing at all. *)
Theorem pause_download_effect task_id s :
  (forall l,
      Dict.get task_id (downloads s) = Some l ->
      (l < length (heap s))%nat ->
      status (task_at s l) = downloading ->
      let s' := pause_download task_id s in
      task_at s' l = with_status paused (task_at s l)
      /\ status_log s' = (status_log s ++ [(task_id, "paused", "Download paused")])%list
      /\ world s' = world s
      /\ active_downloads s' = active_downloads s
      /\ downloads s' = downloads s)
  /\ (Dict.get task_id (downloads s) = None
      \/ (exists l, Dict.get task_id (downloads s) = Some l
                    /\ status (task_at s l) <> downloading) ->
      pause_download task_id s = s).
Proof.
  split.
  - intros l Hget Hl Hst s'. subst s'. unfold pause_download.
    rewrite Hget, (bool_decide_eq_true_2 _ Hst).
    split; [apply (task_at_update_same s); exact Hl|].
    repeat split; reflexivity.
  - intros Hcase. unfold pause_download.
    destruct (Dict.get task_id (downloads s)) as [l|]; [|reflexivity].
    destruct Hcase as [H|[l' [[= <-] Hst]]]; [discriminate|].
    rewrite (bool_decide_eq_false_2 _ Hst). reflexivity.
Qed.

Lemma pause_download_effect_witness :
  status (task_at (pause_download "part.bin_2" Sample.busy) 1) = paused
  /\ downloaded_bytes (task_at (pause_download "part.bin_2" Sample.busy) 1) = 4
  /\ pause_download "done.bin_1" Sample.busy = Sample.busy.
Proof.
  destruct (pause_download_effect "part.bin_2" Sample.busy) as [Hon _].
  destruct (pause_download_effect "done.bin_1" Sample.busy) as [_ Hoff].
  destruct (Hon 1%nat) as [Ht _]; [reflexivity | simpl; lia | reflexivity |].
  rewrite Ht. split; [reflexivity|]. split; [reflexivity|].
  apply Hoff. right. exists 0%nat. split; [reflexivity | discriminate].
Defined.

Lemma start_download_full task_id s :
  active_downloads s >= max_concurrent_downloads s ->
  start_download task_id s = (s, false).
Proof.
  intros Hfull. unfold start_download.
  destruct (Dict.get task_id (downloads s)) as [l|]; [|reflexivity].
  destruct (negb _); [reflexivity|].
  replace (active_downloads s >=? max_concurrent_downloads s) with true
    by (symmetry; apply Z.geb_le; lia).
  reflexivity.
Qed.

(** X5. [resume_download] acts on a paused task only. The task goes back to
    [pending]; if a slot is free a worker is started for it at once,
    otherwise nothing is started and the task waits as any pending task
    does. In every other case nothing changes. *)
Theorem resume_download_effect task_id s :
  (forall l,
      Dict.get task_id (downloads s) = Some l ->
      (l < length (heap s))%nat ->
      status (task_at s l) = paused ->
      let s' := resume_download task_id s in
      task_at s' l = with_status pending (task_at s l)
      /\ (active_downloads s < max_concurrent_downloads s ->
          threads s' = (threads s ++ [task_id])%list
          /\ active_downloads s' = active_downloads s + 1)
      /\ (active_downloads s >= max_concurrent_downloads s ->
          threads s' = threads s
          /\ active_downloads s' = active_downloads s))
  /\ (Dict.get task_id (downloads s) = None
      \/ (exists l, Dict.get task_id (downloads s) = Some l
                    /\ status (task_at s l) <> paused) ->
      resume_download task_id s = s).
Proof.
  split.
  - intros l Hget Hl Hst s'. subst s'. unfold resume_download.
    rewrite Hget, (bool_decide_eq_true_2 _ Hst).
    set (s1 := update_task l (with_status pending) s).
    assert (H1 : task_at s1 l = with_status pending (task_at s l)).
    { apply task_at_update_same. exact Hl. }
    assert (Hp : status (task_at s1 l) = pending) by (rewrite H1; reflexivity).
    destruct (Z.lt_ge_cases (active_downloads s) (max_concurrent_downloads s))
      as [Hcap|Hfull].
    + rewrite (start_download_ok task_id s1 l Hget Hp Hcap). cbn [fst].
      split; [exact H1|]. split.
      * intros _. split; reflexivity.
      * intros H. lia.
    + rewrite (start_download_full task_id s1) by (simpl; lia). cbn [fst].
      split; [exact H1|]. split.
      * intros H. lia.
      * intros _. split; reflexivity.
  - intros Hcase. unfold resume_download.
    destruct (Dict.get task_id (downloads s)) as [l|]; [|reflexivity].
    destruct Hcase as [H|[l' [[= <-] Hst]]]; [discriminate|].
    rewrite (bool_decide_eq_false_2 _ Hst). reflexivity.
Qed.

Lemma resume_download_effect_witness :
  let waiting := pause_download "part.bin_2" Sample.busy in
  let roomy := with_active_downloads 1 waiting in
  (status (task_at (resume_download "part.bin_2" waiting) 1) = pending
   /\ threads (resume_download "part.bin_2" waiting) = ["part.bin_2"])
  /\ (status (task_at (resume_download "part.bin_2" roomy) 1) = pending
      /\ threads (resume_download "part.bin_2" roomy) = ["part.bin_2"; "part.bin_2"]
      /\ active_downloads (resume_download "part.bin_2" roomy) = 2)
  /\ resume_download "done.bin_1" waiting = waiting.
Proof.
  intros waiting roomy.
  destruct (resume_download_effect "part.bin_2" waiting) as [Hw _].
  destruct (resume_download_effect "part.bin_2" roomy) as [Hr _].
  destruct (resume_download_effect "done.bin_1" waiting) as [_ Hoff].
  destruct (Hw 1%nat) as [Ht1 [_ Hfull]]; [reflexivity | simpl; lia | reflexivity |].
  destruct (Hr 1%nat) as [Ht2 [Hfree _]]; [reflexivity | simpl; lia | reflexivity |].
  split; [|split].
  - rewrite Ht1. split; [reflexivity|]. apply Hfull. simpl. lia.
  - rewrite Ht2. split; [reflexivity|]. apply Hfree. simpl. lia.
  - apply Hoff. right. exists 0%nat. split; [reflexivity | discriminate].
Defined.

(** ** Clearing and counting *)

Lemma dict_get_del {V} (k k' : string) (d : list (string * V)) :
  Dict.get k (Dict.del k' d) = if String.eqb k' k then None else Dict.get k d.
Proof.
  induction d as [|[k0 v0] d IH]; simpl.
  - destruct (String.eqb k' k); reflexivity.
  - destruct (String.eqb_spec k' k0) as [->|Hne]; simpl.
    + rewrite IH. destruct (String.eqb_spec k0 k) as [->|Hne'].
      * reflexivity.
      * destruct (String.eqb_spec k k0) as [->|_]; [contradiction | reflexivity].
    + destruct (String.eqb_spec k k0) as [->|Hne'].
      * destruct (String.eqb_spec k' k0) as [->|_]; [contradiction | reflexivity].
      * exact IH.
Qed.

Lemma clear_fold (ks : list (string * nat)) : forall s,
  let s' := fold_left (fun s' kv =>
      let s1 := with_downloads (Dict.del (fst kv) (downloads s')) s' in
      with_download_threads (Dict.del (fst kv) (download_threads s1)) s1) ks s in
  (forall k, Dict.get k (downloads s')
             = if existsb (fun kv => String.eqb (fst kv) k) ks then None
               else Dict.get k (downloads s))
  /\ heap s' = heap s /\ world s' = world s
  /\ active_downloads s' = active_downloads s
  /\ threads s' = threads s /\ status_log s' = status_log s.
Proof.
  induction ks as [|[k0 l0] ks IH]; intros s; simpl.
  - repeat split; reflexivity.
  - destruct (IH (with_download_threads
                    (Dict.del k0 (download_threads (with_downloads (Dict.del k0 (downloads s)) s)))
                    (with_downloads (Dict.del k0 (downloads s)) s)))
      as [Hget [Hh [Hw [Ha [Ht Hl]]]]].
    split; [|repeat split; assumption].
    intros k. rewrite Hget. simpl. rewrite dict_get_del.
    destruct (String.eqb k0 k); simpl.
    + destruct (existsb _ ks); reflexivity.
    + reflexivity.
Qed.

(** Which entries [clear_completed_downloads] removes. *)
Lemma clear_completed_fold s :
  let terminal := fun kv : string * nat =>
      bool_decide (status (task_at s (snd kv)) = completed)
      || bool_decide (status (task_at s (snd kv)) = failed) in
  let s' := clear_completed_downloads s in
  (forall k, Dict.get k (downloads s')
             = if existsb (fun kv => String.eqb (fst kv) k)
                    (List.filter terminal (downloads s))
               then None else Dict.get k (downloads s))
  /\ heap s' = heap s /\ world s' = world s
  /\ active_downloads s' = active_downloads s.
Proof.
  intros terminal s'.
  destruct (clear_fold (List.filter terminal (downloads s)) s)
    as [Hget [Hh [Hw [Ha _]]]].
  repeat split; assumption.
Qed.

(** X6. [clear_completed_downloads] forgets exactly the tasks that are
    completed or failed and keeps every other one; it deletes no file and
    changes neither a task nor the admission counter. *)
Theorem clear_completed_downloads_lookup s task_id :
  NoDup (downloads s).*1 ->
  let s' := clear_completed_downloads s in
  get_download_status task_id s'
  = match get_download_status task_id s with
    | Some t =>
        match status t with
        | completed | failed => None
        | _ => Some t
        end
    | None => None
    end
  /\ world s' = world s
  /\ heap s' = heap s
  /\ active_downloads s' = active_downloads s.
Proof.
  intros Hnd s'.
  destruct (clear_completed_fold s) as [Hget [Hh [Hw Ha]]].
  fold s' in Hget, Hh, Hw, Ha.
  set (terminal := fun kv : string * nat =>
         bool_decide (status (task_at s (snd kv)) = completed)
         || bool_decide (status (task_at s (snd kv)) = failed)) in Hget.
  split; [|repeat split; assumption].
  assert (Htask : forall l, task_at s' l = task_at s l).
  { intros l. unfold task_at. rewrite Hh. reflexivity. }
  assert (Hin_ex : forall l, In (task_id, l) (List.filter terminal (downloads s)) ->
             existsb (fun kv : string * nat => String.eqb (fst kv) task_id)
               (List.filter terminal (downloads s)) = true).
  { intros l Hin. apply existsb_exists. exists (task_id, l).
    split; [exact Hin | apply String.eqb_refl]. }
  unfold get_download_status. rewrite Hget.
  destruct (Dict.get task_id (downloads s)) as [l|] eqn:Hg.
  - destruct (existsb _ _) eqn:Hex.
    + apply existsb_exists in Hex as [[k' l'] [Hin Hk]].
      apply filter_In in Hin as [Hin Hterm]. simpl in Hk.
      apply String.eqb_eq in Hk. subst k'.
      assert (l' = l).
      { pose proof (dict_get_first _ _ _ Hnd Hin) as H. congruence. }
      subst l'. unfold terminal in Hterm. simpl in Hterm.
      apply orb_prop in Hterm as [H|H]; apply bool_decide_eq_true in H;
        rewrite H; reflexivity.
    + rewrite Htask.
      destruct (status (task_at s l)) eqn:Hst; try reflexivity; exfalso;
        (assert (Habs : false = true); [|discriminate Habs]);
        apply (Hin_ex l);
        (apply filter_In; split; [apply dict_get_in; exact Hg|]);
        unfold terminal; simpl; rewrite Hst; reflexivity.
  - destruct (existsb _ _); reflexivity.
Qed.

Lemma clear_completed_downloads_lookup_witness :
  get_download_status "done.bin_1" (clear_completed_downloads Sample.busy) = None
  /\ get_download_status "part.bin_2" (clear_completed_downloads Sample.busy)
     = Some (Sample.task "part.bin" downloading 4 8)
  /\ world (clear_completed_downloads Sample.busy) = world Sample.busy.
Proof.
  assert (Hnd : NoDup (downloads Sample.busy).*1).
  { apply (bool_decide_unpack _). vm_compute. exact I. }
  destruct (clear_completed_downloads_lookup Sample.busy "done.bin_1" Hnd)
    as [H1 [Hw _]].
  destruct (clear_completed_downloads_lookup Sample.busy "part.bin_2" Hnd)
    as [H2 _].
  split; [rewrite H1; reflexivity|]. split; [rewrite H2; reflexivity | exact Hw].
Defined.

Lemma bump_fold s items : forall c,
  let r := fold_left (fun c kv => bump (status (task_at s (snd kv))) c) items c in
  st_total r = st_total c
  /\ st_pending r + st_downloading r + st_completed r + st_failed r + st_paused r
     = st_pending c + st_downloading c + st_completed c + st_failed c + st_paused c
       + Z.of_nat (length items)
  /\ st_pending r = st_pending c + Z.of_nat (length (pending_entries s items)).
Proof.
  induction items as [|[k l] rest IH]; intros c; simpl.
  - repeat split; lia.
  - destruct (IH (bump (status (task_at s l)) c)) as [Ht [Hs Hp]].
    unfold pending_entries in *. simpl List.filter.
    destruct (status (task_at s l)) eqn:Hst; simpl in *;
      rewrite ?Hst; simpl; repeat split; lia.
Qed.

(** X7. In the statistics every registered task is counted once, under its
    status: the five counters add up to [total], which is the number of
    registered tasks, and [pending] is the number of pending ones. *)
Theorem get_download_stats_partition s :
  let st := get_download_stats s in
  st_total st = Z.of_nat (length (downloads s))
  /\ st_pending st + st_downloading st + st_completed st + st_failed st + st_paused st
     = st_total st
  /\ st_pending st = Z.of_nat (length (pending_entries s (downloads s))).
Proof.
  intros st. subst st. unfold get_download_stats.
  destruct (bump_fold s (downloads s)
              (mkStats (Z.of_nat (length (downloads s))) 0 0 0 0 0)) as [Ht [Hs Hp]].
  simpl in Ht, Hs, Hp. rewrite Ht. repeat split; lia.
Qed.

Example get_download_stats_busy :
  get_download_stats Sample.busy = mkStats 6 2 1 3 0 0.
Proof. reflexivity. Qed.

(** ** The concurrency bound *)

Lemma start_download_limit task_id s :
  within_limit s -> within_limit (fst (start_download task_id s)).
Proof.
  unfold within_limit, start_download. intros Hlim.
  destruct (Dict.get task_id (downloads s)) as [l|]; [|exact Hlim].
  destruct (negb _); [exact Hlim|].
  destruct (active_downloads s >=? max_concurrent_downloads s) eqn:Hc; [exact Hlim|].
  rewrite Z.geb_leb in Hc. apply Z.leb_gt in Hc. simpl. lia.
Qed.

Lemma start_all_loop_limit items : forall started s,
  within_limit s -> within_limit (fst (start_all_loop items started s)).
Proof.
  induction items as [|[k l] rest IH]; intros started s Hlim; simpl; [exact Hlim|].
  destruct (_ && _); [|apply IH; exact Hlim].
  pose proof (start_download_limit k s Hlim) as H1.
  destruct (start_download k s) as [s1 [|]]; apply IH; exact H1.
Qed.

Lemma sched_same_limit s s' : sched_same s s' -> within_limit s -> within_limit s'.
Proof. intros [Ha Hm _ _ _]. unfold within_limit. lia. Qed.

Lemma clear_completed_sched s : sched_same s (clear_completed_downloads s).
Proof.
  unfold clear_completed_downloads.
  generalize (List.filter
    (fun kv : string * nat =>
       bool_decide (status (task_at s (snd kv)) = completed)
       || bool_decide (status (task_at s (snd kv)) = failed)) (downloads s)).
  intros ks. revert s. induction ks as [|[k l] ks IH]; intros s; simpl.
  - apply sched_same_refl.
  - eapply sched_same_trans; [|apply IH].
    constructor; simpl; auto. apply dict_del_nodup.
Qed.

(** X8. The concurrency bound is an invariant of the service: if the
    admission counter is within the limit, it still is after any call of
    the interface and after any run of a worker. *)
Theorem within_limit_invariant s :
  within_limit s ->
  (forall now url name dest, within_limit (fst (add_download now url name dest s)))
  /\ (forall task_id, within_limit (fst (start_download task_id s)))
  /\ within_limit (fst (start_all_downloads s))
  /\ (forall task_id, within_limit (pause_download task_id s))
  /\ (forall task_id, within_limit (resume_download task_id s))
  /\ (forall task_id, within_limit (cancel_download task_id s))
  /\ within_limit (clear_completed_downloads s)
  /\ (forall task_id env, within_limit (fst (_download_worker task_id env s))).
Proof.
  intros Hlim. repeat split.
  - intros now url name dest. unfold add_download.
    destruct (OS.makedirs (world s) dest) as [w1 [u|e]]; exact Hlim.
  - intros task_id. apply start_download_limit. exact Hlim.
  - apply start_all_loop_limit. exact Hlim.
  - intros task_id.
    exact (sched_same_limit _ _ (proj1 (pause_download_same task_id s)) Hlim).
  - intros task_id. unfold resume_download.
    destruct (Dict.get task_id (downloads s)) as [l|]; [|exact Hlim].
    destruct (bool_decide _); [|exact Hlim].
    apply start_download_limit.
    exact (sched_same_limit _ _ (sched_same_update s l _) Hlim).
  - intros task_id.
    exact (sched_same_limit _ _ (proj1 (cancel_download_same task_id s)) Hlim).
  - exact (sched_same_limit _ _ (clear_completed_sched s) Hlim).
  - intros task_id env. unfold _download_worker.
    destruct (Dict.get task_id (downloads s)) as [l|]; [|exact Hlim].
    cbn [fst]. unfold worker_finally, _start_next_pending_download.
    pose proof (sched_same_limit _ _ (worker_run_sched task_id l env s) Hlim) as H1.
    set (s1 := worker_run task_id l env s) in *.
    set (sd := _notify_progress task_id l
                 (with_active_downloads (active_downloads s1 - 1) s1)).
    assert (Hd : within_limit sd).
    { unfold within_limit in *. simpl. lia. }
    destruct (active_downloads sd <? max_concurrent_downloads sd); [|exact Hd].
    destruct (first_pending sd); [|exact Hd].
    apply start_download_limit. exact Hd.
Qed.

Lemma within_limit_invariant_witness :
  within_limit Sample.busy
  /\ within_limit (fst (start_all_downloads Sample.busy))
  /\ within_limit (fst (_download_worker "part.bin_2" Sample.exact_body Sample.busy)).
Proof.
  assert (H : within_limit Sample.busy) by (unfold within_limit; simpl; lia).
  destruct (within_limit_invariant Sample.busy H)
    as [_ [_ [Hall [_ [_ [_ [_ Hw]]]]]]].
  split; [exact H|]. split; [exact Hall | apply Hw].
Defined.

(** ** Submitting *)

Lemma with_world_same s : with_world (world s) s = s.
Proof. destruct s. reflexivity. Qed.

Lemma dict_get_set_other {V} (k k' : string) (v : V) d :
  k <> k' -> Dict.get k (Dict.set k' v d) = Dict.get k d.
Proof.
  intros Hne. induction d as [|[k0 v0] d IH]; simpl.
  - destruct (String.eqb_spec k k') as [->|_]; [contradiction | reflexivity].
  - destruct (String.eqb_spec k' k0) as [->|Hne0]; simpl.
    + destruct (String.eqb_spec k k0) as [->|_]; [contradiction | reflexivity].
    + destruct (String.eqb_spec k k0); [reflexivity | exact IH].
Qed.

(** X9. When the destination is an existing regular file the directory
    cannot be made: [add_download] raises and the service is exactly as it
    was, with no task registered and no listener told. *)
Theorem add_download_destination_is_file now url name dest s :
  OS.isfile (world s) dest = true ->
  exists e, add_download now url name dest s = (s, Raise e).
Proof.
  intros Hf. unfold add_download, OS.makedirs. unfold OS.isfile in Hf.
  destruct (OS.node_at (world s) dest) as [[c|]|]; try discriminate.
  rewrite with_world_same. eexists. reflexivity.
Qed.

Lemma add_download_destination_is_file_witness :
  exists e,
    add_download 1000 "http://host/x.bin" "x.bin" "/roms/done.bin" Sample.busy
    = (Sample.busy, Raise e).
Proof.
  apply (add_download_destination_is_file 1000 "http://host/x.bin" "x.bin"
           "/roms/done.bin" Sample.busy).
  reflexivity.
Defined.

Lemma makedirs_makes w d :
  OS.isfile w d = false ->
  exists w1, OS.makedirs w d = (w1, Ok tt) /\ OS.isdir w1 d = true
             /\ cwd w1 = cwd w.
Proof.
  unfold OS.isfile, OS.makedirs, OS.isdir, OS.node_at.
  destruct (fs w !! OS.abspath w d) as [[c|]|] eqn:Hn; [discriminate|..]; intros _.
  - exists w. rewrite Hn. repeat split; reflexivity.
  - eexists. split; [reflexivity|]. unfold OS.abspath. simpl.
    rewrite lookup_insert_eq. split; reflexivity.
Qed.

(** What a successful [add_download] leaves behind. *)
Lemma add_download_state now url name dest s :
  OS.isfile (world s) dest = false ->
  let task_id := name +:+ "_" +:+ Py.str_int (Py.int_of_float now) in
  exists w1,
    OS.isdir w1 dest = true
    /\ add_download now url name dest s
       = (_notify_status task_id "added" ("Added download: " +:+ name)
            (with_downloads (Dict.set task_id (length (heap s)) (downloads s))
               (with_heap (heap s ++ [new_task url name dest]) (with_world w1 s))),
          Ok task_id).
Proof.
  intros Hf task_id. destruct (makedirs_makes _ _ Hf) as [w1 [E [Hd _]]].
  exists w1. split; [exact Hd|]. unfold add_download. rewrite E. reflexivity.
Qed.

Lemma task_at_app_old s t l w :
  (l < length (heap s))%nat ->
  task_at (with_heap (heap s ++ [t]) (with_world w s)) l = task_at s l.
Proof.
  intros Hl. unfold task_at. simpl. rewrite lookup_app_l by exact Hl. reflexivity.
Qed.

(** What a successful [add_download] does, in full. *)
Lemma add_download_spec now url name dest s :
  registry_ok s ->
  OS.isfile (world s) dest = false ->
  let task_id := name +:+ "_" +:+ Py.str_int (Py.int_of_float now) in
  exists s',
    add_download now url name dest s = (s', Ok task_id)
    /\ get_download_status task_id s' = Some (new_task url name dest)
    /\ (forall k, k <> task_id ->
          get_download_status k s' = get_download_status k s)
    /\ OS.isdir (world s') dest = true
    /\ registry_ok s'
    /\ active_downloads s' = active_downloads s
    /\ threads s' = threads s
    /\ status_log s'
       = (status_log s ++ [(task_id, "added", "Added download: " +:+ name)])%list.
Proof.
  intros Hok Hf task_id.
  destruct (add_download_state now url name dest s Hf) as [w1 [Hd E]].
  fold task_id in E. rewrite E. eexists. split; [reflexivity|].
  split; [|split; [|split; [|split; [|split; [|split]]]]].
  - unfold get_download_status. simpl. rewrite dict_get_set_same.
    unfold task_at. simpl. rewrite lookup_app_r by lia.
    rewrite Nat.sub_diag. reflexivity.
  - intros k Hne. unfold get_download_status. simpl.
    rewrite dict_get_set_other by exact Hne.
    destruct (Dict.get k (downloads s)) as [l|] eqn:Hg; [|reflexivity].
    f_equal. apply (task_at_app_old s _ l w1). exact (Hok k l Hg).
  - exact Hd.
  - intros k l. simpl. rewrite length_app. simpl.
    destruct (String.eqb_spec k task_id) as [->|Hne].
    + rewrite dict_get_set_same. intros [= <-]. lia.
    + rewrite dict_get_set_other by exact Hne. intros Hg.
      pose proof (Hok k l Hg). lia.
  - reflexivity.
  - reflexivity.
  - reflexivity.
Qed.

(** X10. When the destination is not a regular file, [add_download]
    returns the identifier made of the file name and the clock second,
    registers under it a new pending task with zero counters, leaves every
    other identifier with the task it had, makes sure the destination
    directory exists, keeps the registry sound and tells the listeners
    [added]. *)
Theorem add_download_registers now url name dest s :
  registry_ok s ->
  OS.isfile (world s) dest = false ->
  let task_id := name +:+ "_" +:+ Py.str_int (Py.int_of_float now) in
  exists s',
    add_download now url name dest s = (s', Ok task_id)
    /\ get_download_status task_id s' = Some (new_task url name dest)
    /\ (forall k, k <> task_id ->
          get_download_status k s' = get_download_status k s)
    /\ OS.isdir (world s') dest = true
    /\ registry_ok s'
    /\ active_downloads s' = active_downloads s
    /\ status_log s'
       = (status_log s ++ [(task_id, "added", "Added download: " +:+ name)])%list.
Proof.
  intros Hok Hf task_id.
  destruct (add_download_spec now url name dest s Hok Hf)
    as [s' [E [Hn [Ho [Hd [Hr [Ha [_ Hl]]]]]]]].
  exists s'. repeat split; assumption.
Qed.

Lemma sample_busy_registry_ok : registry_ok Sample.busy.
Proof.
  intros k l. simpl.
  repeat (destruct (String.eqb k _); [intros [= <-]; simpl; lia|]).
  discriminate.
Qed.

Lemma add_download_registers_witness :
  exists s',
    add_download 1000 "http://host/new.bin" "new.bin" "/roms" Sample.busy
    = (s', Ok "new.bin_1000")
    /\ get_download_status "new.bin_1000" s'
       = Some (new_task "http://host/new.bin" "new.bin" "/roms")
    /\ get_download_status "part.bin_2" s'
       = get_download_status "part.bin_2" Sample.busy.
Proof.
  destruct (add_download_registers 1000 "http://host/new.bin" "new.bin" "/roms"
              Sample.busy sample_busy_registry_ok eq_refl)
    as [s' [E [Hnew [Hold _]]]].
  exists s'. split; [exact E|]. split; [exact Hnew|].
  apply Hold. discriminate.
Defined.

Lemma task_id_seconds name z1 z2 :
  name +:+ "_" +:+ Py.str_int z1 = name +:+ "_" +:+ Py.str_int z2 -> z1 = z2.
Proof.
  intros H. apply (inj (String.app name)) in H.
  apply (inj (String.app "_")) in H.
  unfold Py.str_int in H. apply (inj pretty) in H. exact H.
Qed.

(** X11. Two submissions of one file name in different clock seconds get
    different identifiers, and after both each identifier names its own
    task. *)
Theorem add_download_distinct_seconds now1 now2 url1 url2 name dest s :
  registry_ok s ->
  OS.isfile (world s) dest = false ->
  Py.int_of_float now1 <> Py.int_of_float now2 ->
  let id1 := name +:+ "_" +:+ Py.str_int (Py.int_of_float now1) in
  let id2 := name +:+ "_" +:+ Py.str_int (Py.int_of_float now2) in
  let s1 := fst (add_download now1 url1 name dest s) in
  let s2 := fst (add_download now2 url2 name dest s1) in
  id1 <> id2
  /\ snd (add_download now1 url1 name dest s) = Ok id1
  /\ snd (add_download now2 url2 name dest s1) = Ok id2
  /\ get_download_status id1 s2 = Some (new_task url1 name dest)
  /\ get_download_status id2 s2 = Some (new_task url2 name dest).
Proof.
  intros Hok Hf Hsec id1 id2 s1 s2.
  assert (Hne : id1 <> id2).
  { intros H. apply Hsec. exact (task_id_seconds name _ _ H). }
  destruct (add_download_spec now1 url1 name dest s Hok Hf)
    as [s1' [E1 [Hn1 [_ [Hd1 [Hok1 _]]]]]].
  assert (Es1 : s1 = s1') by (subst s1; rewrite E1; reflexivity).
  assert (Hf1 : OS.isfile (world s1') dest = false).
  { unfold OS.isdir in Hd1. unfold OS.isfile.
    destruct (OS.node_at (world s1') dest) as [[|]|]; try discriminate. reflexivity. }
  destruct (add_download_spec now2 url2 name dest s1' Hok1 Hf1)
    as [s2' [E2 [Hn2 [Ho2 _]]]].
  assert (Es2 : s2 = s2') by (subst s2; rewrite Es1, E2; reflexivity).
  split; [exact Hne|]. rewrite E1. split; [reflexivity|].
  rewrite Es1, E2, Es2. split; [reflexivity|].
  split; [|exact Hn2].
  rewrite (Ho2 id1 Hne). exact Hn1.
Qed.

Lemma add_download_distinct_seconds_witness :
  let s1 := fst (add_download 1000 "http://a/g.zip" "g.zip" "/roms" Sample.busy) in
  let s2 := fst (add_download 1001 "http://b/g.zip" "g.zip" "/roms" s1) in
  get_download_status "g.zip_1000" s2 = Some (new_task "http://a/g.zip" "g.zip" "/roms")
  /\ get_download_status "g.zip_1001" s2 = Some (new_task "http://b/g.zip" "g.zip" "/roms").
Proof.
  intros s1 s2.
  destruct (add_download_distinct_seconds 1000 1001 "http://a/g.zip" "http://b/g.zip"
              "g.zip" "/roms" Sample.busy sample_busy_registry_ok eq_refl)
    as [_ [_ [_ [H1 H2]]]].
  - vm_compute. discriminate.
  - split; [exact H1 | exact H2].
Defined.

(** ** Submitting a batch *)

Lemma add_games_loop_spec urljoin clock system_data dir games : forall n acc s,
  registry_ok s ->
  OS.isfile (world s) dir = false ->
  let ids := batch_ids clock n (omap (game_request urljoin system_data) games) in
  exists s',
    add_games_loop urljoin clock n games system_data dir acc s
    = (s', Ok (acc ++ ids)%list)
    /\ registry_ok s'
    /\ OS.isfile (world s') dir = false
    /\ active_downloads s' = active_downloads s
    /\ threads s' = threads s
    /\ (forall k, ~ In k ids -> get_download_status k s' = get_download_status k s)
    /\ (forall k, In k ids ->
          exists t, get_download_status k s' = Some t
                    /\ status t = pending /\ destination t = dir
                    /\ downloaded_bytes t = 0).
Proof.
  induction games as [|game rest IH]; intros n acc s Hok Hf ids.
  - subst ids. simpl. exists s. rewrite app_nil_r.
    repeat split; try reflexivity; try assumption. intros k [].
  - subst ids. simpl add_games_loop. simpl omap.
    destruct (game_request urljoin system_data game) as [[filename url]|].
    + simpl batch_ids.
      set (id0 := filename +:+ "_" +:+ Py.str_int (Py.int_of_float (clock n))).
      destruct (add_download_spec (clock n) url filename dir s Hok Hf)
        as [s1 [E [Hn [Ho [Hd [Hr [Ha [Ht _]]]]]]]].
      fold id0 in E, Hn, Ho. rewrite E.
      assert (Hf1 : OS.isfile (world s1) dir = false).
      { unfold OS.isdir in Hd. unfold OS.isfile.
        destruct (OS.node_at (world s1) dir) as [[|]|]; try discriminate. reflexivity. }
      destruct (IH (S n) (acc ++ [id0])%list s1 Hr Hf1)
        as [s' [E' [Hr' [Hf' [Ha' [Ht' [Hout Hin]]]]]]].
      exists s'. rewrite E', <- app_assoc. simpl.
      split; [reflexivity|]. split; [exact Hr'|]. split; [exact Hf'|].
      split; [congruence|]. split; [congruence|]. split.
      * intros k Hk. rewrite Hout by (intros H; apply Hk; right; exact H).
        apply Ho. intros ->. apply Hk. left. reflexivity.
      * intros k Hk.
        destruct (in_dec string_dec k
                    (batch_ids clock (S n)
                       (omap (game_request urljoin system_data) rest))) as [Hl|Hl].
        -- exact (Hin k Hl).
        -- destruct Hk as [<-|Hk]; [|contradiction].
           rewrite (Hout id0 Hl), Hn. eexists. repeat split; reflexivity.
    + exact (IH n acc s Hok Hf).
Qed.

(** X12. [add_game_downloads] puts every usable game into the system's
    folder under the base directory and starts none of them. Games that
    give neither a file name nor a name, or for which no URL can be made,
    are passed over without an error. When that folder is not a regular
    file the call returns one identifier per usable game, in order; each
    names a pending task with zero bytes whose destination is the folder;
    tasks under other identifiers are untouched and the admission counter
    and the threads are as before. *)
Theorem add_game_downloads_batch urljoin clock games system_data base s :
  let dir := Path.join base (get_or "roms_folder" "unknown_system" system_data) in
  let reqs := omap (game_request urljoin system_data) games in
  let ids := batch_ids clock 0 reqs in
  registry_ok s ->
  OS.isfile (world s) dir = false ->
  exists s',
    add_game_downloads urljoin clock games system_data base s = (s', Ok ids)
    /\ (length ids <= length games)%nat
    /\ active_downloads s' = active_downloads s
    /\ threads s' = threads s
    /\ (forall k, ~ In k ids -> get_download_status k s' = get_download_status k s)
    /\ (forall k, In k ids ->
          exists t, get_download_status k s' = Some t
                    /\ status t = pending /\ destination t = dir
                    /\ downloaded_bytes t = 0).
Proof.
  intros dir reqs ids Hok Hf.
  destruct (add_games_loop_spec urljoin clock system_data dir games 0 [] s Hok Hf)
    as [s' [E [_ [_ [Ha [Ht [Hout Hin]]]]]]].
  exists s'. unfold add_game_downloads. fold dir. rewrite E.
  split; [reflexivity|]. split; [|repeat split; assumption].
  subst ids reqs. clear. generalize 0%nat.
  induction games as [|g rest IH]; intros n; simpl; [lia|].
  destruct (game_request urljoin system_data g) as [[f u]|]; simpl.
  - apply le_n_S. apply IH.
  - apply le_S. apply IH.
Qed.

Lemma add_game_downloads_batch_witness :
  exists s',
    add_game_downloads Catalog.urljoin (fun _ : nat => 1000%Q) Catalog.games Catalog.system
      "/roms" Sample.busy
    = (s', Ok ["a.zip_1000"; "b.bin_1000"; "c.iso_1000"])
    /\ active_downloads s' = 3
    /\ threads s' = ["part.bin_2"].
Proof.
  destruct (add_game_downloads_batch Catalog.urljoin (fun _ : nat => 1000%Q) Catalog.games
              Catalog.system "/roms" Sample.busy sample_busy_registry_ok eq_refl)
    as [s' [E [_ [Ha [Ht _]]]]].
  exists s'. split; [exact E|]. split; [exact Ha | exact Ht].
Defined.

Example game_request_cases :
  game_request Catalog.urljoin Catalog.system
    (GameDict [("name", "c.iso"); ("href", "files/c.iso")])
  = Some ("c.iso", "http://host/snes/files/c.iso")
  /\ game_request Catalog.urljoin Catalog.system (GameOther "b.bin")
     = Some ("b.bin", "http://host/snes/b.bin")
  /\ game_request Catalog.urljoin Catalog.system
       (GameDict [("filename", "a.zip"); ("url", "http://mirror/a.zip")])
     = Some ("a.zip", "http://mirror/a.zip")
  /\ game_request Catalog.urljoin [("roms_folder", "snes")] (GameOther "b.bin") = None
  /\ game_request Catalog.urljoin Catalog.system (GameDict [("url", "http://x/y")]) = None.
Proof. repeat split; reflexivity. Qed.

(** ** The worker: errors, resuming, interruption *)

Lemma getsize_existing w p :
  OS.exists_ w p = true -> exists n, OS.getsize w p = Ok n.
Proof.
  unfold OS.exists_, OS.getsize.
  destruct (OS.node_at w p) as [[c|]|]; [eexists; reflexivity.. | discriminate].
Qed.

(** X13. When the request itself fails (connection error, timeout, HTTP
    error status) nothing is written: the disk is as it was, the task ends
    [failed] with the text of the exception as its message and [end_time]
    set, and the listeners are told [started] then [failed]. *)
Theorem worker_request_error task_id l env s e :
  (l < length (heap s))%nat ->
  (forall range, respond env range = RequestRaise e) ->
  let s1 := worker_run task_id l env s in
  task_at s1 l
  = with_end_time (t_fail env)
      (with_error_message e
         (with_status failed
            (with_start_time (t_start env) (with_status downloading (task_at s l)))))
  /\ world s1 = world s
  /\ status_log s1
     = (status_log s
        ++ [(task_id, "started", "Starting download: " +:+ filename (task_at s l));
            (task_id, "failed", "Download failed: " +:+ e)])%list.
Proof.
  intros Hl Hresp s1. subst s1. unfold worker_run.
  set (s0 := worker_enter task_id l env s).
  assert (H0 : task_at s0 l
               = with_start_time (t_start env) (with_status downloading (task_at s l))).
  { apply (task_at_update_same s). exact Hl. }
  assert (Htry : worker_try task_id l env s0 = (s0, Raise e)).
  { unfold worker_try, begin_transfer.
    destruct (OS.exists_ (world s0) (get_output_path (task_at s0 l))) eqn:Hex.
    - destruct (getsize_existing _ _ Hex) as [n ->]. rewrite Hresp. reflexivity.
    - rewrite Hresp. reflexivity. }
  rewrite Htry. unfold worker_except.
  split; [|split].
  - etransitivity;
      [apply (task_at_update_same s0); subst s0; simpl; rewrite length_alter; exact Hl|].
    rewrite H0. reflexivity.
  - reflexivity.
  - simpl. rewrite <- app_assoc. reflexivity.
Qed.

Lemma worker_request_error_witness :
  let env := mkWorkerEnv 1 (fun _ => RequestRaise "503 Server Error") 2 4 5 Sample.libs in
  let s1 := worker_run "part.bin_2" 1 env Sample.busy in
  status (task_at s1 1) = failed
  /\ error_message (task_at s1 1) = "503 Server Error"
  /\ world s1 = world Sample.busy.
Proof.
  intros env s1.
  destruct (worker_request_error "part.bin_2" 1 env Sample.busy "503 Server Error")
    as [Ht [Hw _]].
  - simpl. lia.
  - intros range. reflexivity.
  - fold s1 in Ht, Hw. rewrite Ht. split; [reflexivity|]. split; [reflexivity | exact Hw].
Defined.

Lemma append_cons (x : ascii) (a b : string) :
  String x a +:+ b = String x (a +:+ b).
Proof. reflexivity. Qed.

Lemma append_assoc (a b c : string) : (a +:+ b) +:+ c = a +:+ (b +:+ c).
Proof.
  induction a as [|x a IH]; [reflexivity|].
  rewrite !append_cons, IH. reflexivity.
Qed.

Lemma append_empty_r (a : string) : a +:+ EmptyString = a.
Proof.
  induction a as [|x a IH]; [reflexivity|].
  rewrite append_cons, IH. reflexivity.
Qed.

Lemma length_append (a b : string) :
  String.length (a +:+ b) = (String.length a + String.length b)%nat.
Proof.
  induction a as [|x a IH]; [reflexivity|].
  rewrite append_cons. simpl. rewrite IH. reflexivity.
Qed.

Lemma take_chunk_world task_id l f data now lu bsu s :
  let s1 := fst (fst (take_chunk task_id l f data now lu bsu s)) in
  world s1 = OS.write (world s) f data
  /\ status (task_at s1 l) = status (task_at s l).
Proof.
  unfold take_chunk.
  set (s2 := update_task l _ (with_world _ s)).
  assert (H2 : status (task_at s2 l) = status (task_at s l)).
  { subst s2. etransitivity;
      [apply (task_at_update_field status); reflexivity | reflexivity]. }
  destruct (Qle_bool _ _); cbn [fst]; [|split; [reflexivity | exact H2]].
  set (s3 := update_task l (with_speed _) s2).
  assert (H3 : status (task_at s3 l) = status (task_at s2 l)).
  { subst s3. apply (task_at_update_field status). reflexivity. }
  destruct (0 <? _).
  - split; [reflexivity|]. unfold _notify_progress.
    change (task_at (with_progress_log ?x ?y) l) with (task_at y l).
    etransitivity; [apply (task_at_update_field status); reflexivity|].
    congruence.
  - split; [reflexivity|]. unfold _notify_progress.
    change (task_at (with_progress_log ?x ?y) l) with (task_at y l). congruence.
Qed.

(** A body made of chunks only, met by a task that stays [downloading]: every
    byte is appended to the file and counted. *)
Lemma download_loop_chunks task_id l f items : forall c c0,
  forallb is_chunk items = true ->
  (l < length (heap (svc c)))%nat ->
  status (task_at (svc c) l) = downloading ->
  fs (world (svc c)) !! f = Some (File c0) ->
  let r := download_loop task_id l f items c in
  snd r = Ok tt
  /\ fs (world (fst r)) !! f = Some (File (c0 +:+ chunk_data items))
  /\ downloaded_bytes (task_at (fst r) l)
     = downloaded_bytes (task_at (svc c) l) + stream_bytes items
  /\ total_bytes (task_at (fst r) l) = total_bytes (task_at (svc c) l)
  /\ status (task_at (fst r) l) = downloading.
Proof.
  induction items as [|item rest IH]; intros c c0 Hall Hl Hst Hf; simpl.
  - rewrite append_empty_r. repeat split; try assumption; lia.
  - destruct item as [data now|i|e]; try discriminate Hall. simpl in Hall.
    unfold loop_step. rewrite (bool_decide_eq_true_2 _ Hst). simpl negb. cbv iota.
    destruct (String.eqb_spec data EmptyString) as [->|Hne].
    + destruct (IH c c0 Hall Hl Hst Hf) as [Hr [Hfs [Hd [Ht Hs]]]].
      change (EmptyString +:+ chunk_data rest) with (chunk_data rest).
      change (Z.of_nat (String.length EmptyString)) with 0.
      repeat split; assumption.
    + pose proof (take_chunk_adds task_id l f data now (last_update c)
                    (bytes_since_update c) (svc c) Hl) as Hadd.
      pose proof (take_chunk_world task_id l f data now (last_update c)
                    (bytes_since_update c) (svc c)) as Hw.
      destruct (take_chunk _ _ _ _ _ _ _ _) as [[s1 lu'] bsu'].
      cbn [fst] in Hadd, Hw. destruct Hadd as [HL [HD HT]]. destruct Hw as [HW HS].
      assert (Hf1 : fs (world s1) !! f = Some (File (c0 +:+ data))).
      { rewrite HW. unfold OS.write. rewrite Hf. simpl. apply lookup_insert_eq. }
      destruct (IH (mkLoop s1 lu' bsu') (c0 +:+ data) Hall) as [Hr [Hfs [Hd [Ht Hs]]]];
        [simpl; lia | simpl; congruence | exact Hf1 |].
      simpl in Hd, Ht. rewrite append_assoc in Hfs.
      repeat split; try assumption; [lia | congruence].
Qed.

Lemma stream_bytes_chunk_data items :
  stream_bytes items = Z.of_nat (String.length (chunk_data items)).
Proof.
  induction items as [|[data now|i|e] rest IH]; simpl; try exact IH; [reflexivity|].
  rewrite length_append, IH. lia.
Qed.

(** What [begin_transfer] does when the output path is not a directory and
    the server answers: the file is opened at its present content (created
    empty if need be) and the counters are set from its size. *)
Lemma begin_transfer_opens l env s content_length body :
  (l < length (heap s))%nat ->
  let path := get_output_path (task_at s l) in
  OS.isdir (world s) path = false ->
  let old := partial_file s l in
  let size := Z.of_nat (String.length old) in
  respond env (if 0 <? size then Some size else None)
    = RequestOk content_length body ->
  exists s1,
    begin_transfer l env s = (s1, Ok (OS.abspath (world s) path, body))
    /\ fs (world s1) !! OS.abspath (world s) path = Some (File old)
    /\ length (heap s1) = length (heap s)
    /\ task_at s1 l
       = with_downloaded_bytes size
           (with_total_bytes
              match content_length with Some n => n + size | None => 0 end
              (task_at s l)).
Proof.
  intros Hl path Hdir old size Hresp.
  unfold begin_transfer. fold path.
  unfold partial_file in old. fold path in old.
  unfold OS.exists_, OS.getsize, OS.isdir in *.
  set (g := fun resume_pos t =>
         with_downloaded_bytes resume_pos
           (with_total_bytes
              match content_length with Some n => n + resume_pos | None => 0 end t)).
  assert (Htask : forall w, task_at (with_world w (update_task l (g size) s)) l
                            = g size (task_at s l)).
  { intros w. apply (task_at_update_same s). exact Hl. }
  destruct (OS.node_at (world s) path) as [[c|]|] eqn:Hn; [|discriminate|].
  - subst old. fold size. rewrite Hresp. fold (g size).
    destruct (0 <? size) eqn:Hpos.
    + unfold OS.open_ab. simpl world. rewrite Hn.
      eexists. split; [reflexivity|].
      split; [exact Hn|]. split; [simpl; apply length_alter | apply Htask].
    + assert (c = EmptyString).
      { destruct c; [reflexivity|]. subst size. simpl in Hpos. discriminate Hpos. }
      subst c. unfold OS.open_wb. simpl world. rewrite Hn.
      eexists. split; [reflexivity|].
      split; [simpl; apply lookup_insert_eq|].
      split; [simpl; apply length_alter | apply Htask].
  - subst old size.
    change (0 <? Z.of_nat (String.length EmptyString)) with false in Hresp.
    change (0 <? 0) with false. cbv iota. rewrite Hresp.
    fold (g 0). unfold OS.open_wb. simpl world. rewrite Hn.
    eexists. split; [reflexivity|].
    split; [simpl; apply lookup_insert_eq|].
    split; [simpl; apply length_alter | apply Htask].
Qed.

(** X14. Resuming appends. With the output path not a directory and a
    body that arrives whole while the task stays [downloading], the
    request carries the size of the partial file as its range offset (none
    when the file is missing or empty), and when the loop ends the file
    holds the old bytes followed by the body, with [downloaded_bytes] equal
    to the size of the file. *)
Theorem transfer_appends task_id l env s content_length body :
  (l < length (heap s))%nat ->
  status (task_at s l) = downloading ->
  let path := get_output_path (task_at s l) in
  OS.isdir (world s) path = false ->
  let old := partial_file s l in
  let size := Z.of_nat (String.length old) in
  respond env (if 0 <? size then Some size else None)
    = RequestOk content_length body ->
  forallb is_chunk body = true ->
  exists s1 f,
    begin_transfer l env s = (s1, Ok (f, body))
    /\ let s2 := fst (download_loop task_id l f body (mkLoop s1 (t_loop env) 0)) in
       fs (world s2) !! f = Some (File (old +:+ chunk_data body))
       /\ downloaded_bytes (task_at s2 l)
          = Z.of_nat (String.length (old +:+ chunk_data body))
       /\ total_bytes (task_at s2 l)
          = match content_length with Some n => n + size | None => 0 end
       /\ status (task_at s2 l) = downloading.
Proof.
  intros Hl Hst path Hdir old size Hresp Hall.
  destruct (begin_transfer_opens l env s content_length body Hl Hdir Hresp)
    as [s1 [E [Hf [HL Ht]]]].
  fold path in E, Hf. fold old in Hf, Ht. fold size in Ht.
  exists s1, (OS.abspath (world s) path). split; [exact E|].
  destruct (download_loop_chunks task_id l (OS.abspath (world s) path) body
              (mkLoop s1 (t_loop env) 0) old Hall) as [_ [Hfs [Hd [Htot Hs]]]].
  - simpl. lia.
  - simpl. rewrite Ht. exact Hst.
  - exact Hf.
  - simpl in Hd, Htot. rewrite Ht in Hd, Htot. simpl in Hd, Htot.
    split; [exact Hfs|]. split; [|split; [exact Htot | exact Hs]].
    rewrite Hd, stream_bytes_chunk_data, length_append. subst size. lia.
Qed.

Lemma transfer_appends_witness :
  let s := Sample.busy in
  let env := mkWorkerEnv 1
      (fun range => match range with
                    | Some 4 => RequestOk (Some 4) [Chunk "ab" 3; Chunk "cd" 3]
                    | _ => RequestRaise "416 Range Not Satisfiable"
                    end) 2 4 5 Sample.libs in
  exists s1 f,
    begin_transfer 1 env s = (s1, Ok (f, [Chunk "ab" 3; Chunk "cd" 3]))
    /\ let s2 := fst (download_loop "part.bin_2" 1 f [Chunk "ab" 3; Chunk "cd" 3]
                        (mkLoop s1 2 0)) in
       fs (world s2) !! f = Some (File "halfabcd")
       /\ downloaded_bytes (task_at s2 1) = 8.
Proof.
  intros s env.
  destruct (transfer_appends "part.bin_2" 1 env s (Some 4) [Chunk "ab" 3; Chunk "cd" 3])
    as [s1 [f [E [Hfs [Hd _]]]]].
  - simpl. lia.
  - reflexivity.
  - reflexivity.
  - reflexivity.
  - reflexivity.
  - exists s1, f. split; [exact E|]. split; [exact Hfs | exact Hd].
Defined.

(** ** NSZ decompression: what escapes, what is kept *)

(** Once the output directory is there, [decompress_nsz] returns: the
    [except] clause catches what the stage raises and the [finally] block
    finds the working directory it goes back to. *)
Lemma decompress_guarded_returns kp lib nsz_file_path output_dir w1 c a :
  Py.startswith "/" c = true -> fs w1 !! c = Some Dir ->
  exists b msg,
    snd (try_finally
           (try_except
              (NSZService.decompress_stage kp lib nsz_file_path output_dir)
              (fun e => ret (false, "NSZ decompression failed: " +:+ e)))
           (NSZService.restore c a) w1) = Ok (b, msg).
Proof.
  intros Habs Hdir. unfold try_finally.
  pose proof (Keeps_try_except c Dir
                (NSZService.decompress_stage kp lib nsz_file_path output_dir)
                (fun e => ret (false, "NSZ decompression failed: " +:+ e))
                (Keeps_decompress_stage c Dir kp lib nsz_file_path output_dir
                   (or_introl eq_refl))
                (fun e => Keeps_ret c Dir _) w1 Hdir) as Hdir2.
  assert (Hr : exists b msg,
             snd (try_except
                    (NSZService.decompress_stage kp lib nsz_file_path output_dir)
                    (fun e => ret (false, "NSZ decompression failed: " +:+ e)) w1)
             = Ok (b, msg)).
  { unfold try_except.
    destruct (NSZService.decompress_stage _ _ _ _ w1) as [w2 [[b msg]|e]]; simpl; eauto. }
  destruct (try_except _ _ w1) as [w2 r]. simpl in Hdir2, Hr.
  rewrite (restore_succeeds c a w2 Habs Hdir2). exact Hr.
Qed.

(** X15. The one exception that escapes [decompress_nsz] is that of
    [os.makedirs], which runs before the [try]: the call raises exactly
    when the service is available, the source is a regular file with the
    [.nsz] suffix, and the output directory names a regular file. Whatever
    the library raises comes back as a [(False, message)] result. *)
Theorem decompress_nsz_raises_iff kp lib nsz_file_path output_dir w :
  cwd_ok w ->
  let r := snd (NSZService.decompress_nsz kp lib nsz_file_path output_dir w) in
  (exists e, r = Raise e)
  <-> (NSZService.is_available kp w = true
       /\ OS.isfile w nsz_file_path = true
       /\ Py.endswith ".nsz" (Py.lower nsz_file_path) = true
       /\ OS.isfile w output_dir = true).
Proof.
  intros [Habs Hdir]. unfold NSZService.decompress_nsz, bind, get.
  destruct (NSZService.is_available kp w); simpl.
  2:{ split; [intros [e He]; discriminate He | intros [H _]; discriminate H]. }
  destruct (OS.isfile w nsz_file_path); simpl.
  2:{ split; [intros [e He]; discriminate He | intros [_ [H _]]; discriminate H]. }
  destruct (Py.endswith ".nsz" (Py.lower nsz_file_path)); simpl.
  2:{ split; [intros [e He]; discriminate He | intros [_ [_ [H _]]]; discriminate H]. }
  pose proof (Keeps_makedirs (cwd w) Dir output_dir w Hdir) as Hdir1.
  assert (Hcwd1 : cwd (fst (OS.makedirs w output_dir)) = cwd w).
  { unfold OS.makedirs. destruct (OS.node_at w output_dir) as [[|]|]; reflexivity. }
  assert (Hmk : OS.isfile w output_dir = true
                <-> exists e, snd (OS.makedirs w output_dir) = Raise e).
  { unfold OS.makedirs, OS.isfile.
    destruct (OS.node_at w output_dir) as [[|]|]; simpl; split;
      try (intros [e He]; discriminate He); try discriminate; eauto. }
  destruct (OS.makedirs w output_dir) as [w1 [u|e]]; simpl in *.
  - rewrite Hcwd1.
    destruct (decompress_guarded_returns kp lib nsz_file_path output_dir
                w1 (cwd w) (argv w1) Habs Hdir1) as [b [msg Hr]].
    rewrite Hr. split.
    + intros [e He]. discriminate He.
    + intros [_ [_ [_ H]]]. apply Hmk in H. destruct H as [e He]. discriminate He.
  - split; [|eauto]. intros _. repeat split. apply Hmk. eauto.
Qed.

Lemma decompress_nsz_raises_iff_witness :
  cwd_ok Sample.world
  /\ (exists e,
        snd (NSZService.decompress_nsz (Some "/home/u/.switch/prod.keys")
               Sample.nsz_idle "/roms/GAME.NSZ" "/roms/done.bin" Sample.world)
        = Raise e)
  /\ (exists b msg,
        snd (NSZService.decompress_nsz (Some "/home/u/.switch/prod.keys")
               Sample.nsz_crash "/roms/GAME.NSZ" "/roms" Sample.world)
        = Ok (b, msg)).
Proof.
  assert (H : cwd_ok Sample.world) by (split; reflexivity).
  split; [exact H|]. split.
  - apply (decompress_nsz_raises_iff (Some "/home/u/.switch/prod.keys")
             Sample.nsz_idle "/roms/GAME.NSZ" "/roms/done.bin" Sample.world H).
    repeat split.
  - exists false, "NSZ decompression failed: bad header". vm_compute. reflexivity.
Defined.

(** ** Archives after a download *)

Lemma write_file_frame w p c :
  cwd (OS.write_file w p c) = cwd w
  /\ forall K, (exists c0, fs w !! K = Some (File c0)) ->
               exists c1, fs (OS.write_file w p c) !! K = Some (File c1).
Proof.
  unfold OS.write_file.
  destruct (fs w !! p) as [[c'|]|] eqn:Hp; simpl; (split; [reflexivity|]);
    intros K [c0 HK]; try (exists c0; exact HK);
    (destruct (decide (p = K)) as [->|Hne];
     [exists c; apply lookup_insert_eq
     |exists c0; rewrite lookup_insert_ne; [exact HK | exact Hne]]).
Qed.

(** A library that writes whole files leaves the working directory alone
    and a regular file a regular file. *)
Lemma write_all_frame files : forall w,
  cwd (write_all files w) = cwd w
  /\ forall K, (exists c0, fs w !! K = Some (File c0)) ->
               exists c1, fs (write_all files w) !! K = Some (File c1).
Proof.
  unfold write_all.
  induction files as [|[p c] files IH]; intros w; simpl.
  - split; [reflexivity | auto].
  - destruct (IH (OS.write_file w p c)) as [Hc Hf].
    destruct (write_file_frame w p c) as [Hc0 Hf0].
    split; [rewrite Hc; exact Hc0|].
    intros K HK. apply Hf, Hf0, HK.
Qed.

(** X16. A clean extraction deletes the archive. For a registered task
    whose output path ends in [.zip] (in any case) and names a regular
    file, when the archive library returns, post-processing removes the
    file at the output path, reports [extracted] with the file name, and
    leaves every task object as it was; whatever else was on disk and was
    not written by the library is still there. *)
Theorem post_zip_success task_id env s l :
  Dict.get task_id (downloads s) = Some l ->
  let t := task_at s l in
  let output_path := get_output_path t in
  Py.endswith ".zip" (Py.lower output_path) = true ->
  OS.isfile (world s) output_path = true ->
  zip_raises (zip_run env) = None ->
  let s' := fst (_handle_post_download task_id env s) in
  OS.exists_ (world s') output_path = false
  /\ status_log s'
     = (status_log s
          ++ [(task_id, "extracted", "Extracted ZIP: " +:+ filename t)])%list
  /\ heap s' = heap s
  /\ downloads s' = downloads s
  /\ forall K n,
       K <> OS.abspath (world s) output_path ->
       K ∉ (zip_writes (zip_run env)).*1 ->
       fs (world s) !! K = Some n -> fs (world s') !! K = Some n.
Proof.
  intros Hget t output_path Hzip Hfile Hok s'.
  subst s'. unfold _handle_post_download. rewrite Hget.
  fold t. fold output_path. rewrite Hzip. simpl fst.
  unfold post_zip. fold t. fold output_path.
  unfold bind, _extract_zip. rewrite Hok.
  set (w1 := write_all (zip_writes (zip_run env)) (world s)).
  destruct (write_all_frame (zip_writes (zip_run env)) (world s)) as [Hcwd Hstay].
  fold w1 in Hcwd, Hstay.
  assert (Habs : OS.abspath w1 output_path = OS.abspath (world s) output_path).
  { unfold OS.abspath. rewrite Hcwd. reflexivity. }
  unfold OS.isfile, OS.node_at in Hfile.
  destruct (fs (world s) !! OS.abspath (world s) output_path) as [[c0|]|] eqn:Hn;
    try discriminate Hfile.
  destruct (Hstay _ (ex_intro _ c0 Hn)) as [c1 Hn1].
  unfold OS.remove, OS.node_at. rewrite Habs, Hn1. simpl.
  split.
  { unfold OS.exists_, OS.node_at, OS.abspath. simpl.
    fold (OS.abspath w1 output_path). rewrite Habs.
    rewrite lookup_delete_eq. reflexivity. }
  split; [reflexivity|]. split; [reflexivity|]. split; [reflexivity|].
  intros K n HK Hnot HKn.
  rewrite lookup_delete_ne; [|intros E; apply HK; symmetry; exact E].
  apply (keeps_write_all K n (zip_writes (zip_run env)) (world s)); [|exact HKn].
  right. exact Hnot.
Qed.

Lemma post_zip_success_witness :
  let s' := fst (_handle_post_download "pack.zip_3" Sample.libs Sample.busy) in
  OS.exists_ (world s') "/roms/pack.zip" = false
  /\ status_log s' = [("pack.zip_3", "extracted", "Extracted ZIP: pack.zip")]
  /\ fs (world s') !! "/roms/done.bin" = Some (File "all of it").
Proof.
  destruct (post_zip_success "pack.zip_3" Sample.libs Sample.busy 2)
    as [Hgone [Hlog [_ [_ Hkeep]]]]; try reflexivity.
  split; [exact Hgone|]. split; [exact Hlog|].
  apply Hkeep.
  - discriminate.
  - simpl. apply not_elem_of_nil.
  - reflexivity.
Defined.

Lemma endswith_zip_not_nsz p :
  Py.endswith ".nsz" p = true -> Py.endswith ".zip" p = false.
Proof.
  unfold Py.endswith. simpl String.length.
  destruct (4 <=? String.length p)%nat; [|reflexivity].
  intros H. apply String.eqb_eq in H. rewrite H. reflexivity.
Qed.

(** X17. The compressed container outlives its decompression. For a
    registered task whose output path ends in [.nsz] (in any case), whatever
    the NSZ library does short of writing to that very path, the file at
    the output path is still there after post-processing, which reports
    [decompressing] and then either [decompressed], with every task object
    as it was, or [decompress_failed], with the message stored in the
    task. *)
Theorem post_nsz_keeps_source task_id env s l n :
  Dict.get task_id (downloads s) = Some l ->
  (l < length (heap s))%nat ->
  let t := task_at s l in
  let output_path := get_output_path t in
  Py.endswith ".nsz" (Py.lower output_path) = true ->
  let K := OS.abspath (world s) output_path in
  fs (world s) !! K = Some n ->
  K ∉ (nsz_writes (nsz_run env)).*1 ->
  let s' := fst (_handle_post_download task_id env s) in
  let started := (task_id, "decompressing", "Decompressing NSZ: " +:+ filename t) in
  fs (world s') !! K = Some n
  /\ exists m,
       (status_log s'
        = (status_log s
             ++ [started; (task_id, "decompressed", "Decompressed NSZ: " +:+ m)])%list
        /\ heap s' = heap s)
       \/ (status_log s'
           = (status_log s
                ++ [started;
                    (task_id, "decompress_failed",
                     "NSZ decompression failed: " +:+ m)])%list
           /\ task_at s' l
              = with_error_message ("NSZ decompression failed: " +:+ m) t).
Proof.
  intros Hget Hl t output_path Hnsz K HK Hnot s' started.
  subst s'. unfold _handle_post_download. rewrite Hget.
  fold t. fold output_path.
  rewrite (endswith_zip_not_nsz _ Hnsz), Hnsz. simpl fst.
  destruct (post_nsz_cases task_id l (nsz_run env) s Hl) as [w1 [Hkeep Hcases]].
  fold t in Hcases. specialize (Hkeep K n Hnot HK).
  destruct Hcases as [[m ->]|[m ->]].
  - split; [exact Hkeep|]. exists m. left.
    split; [|reflexivity]. simpl. rewrite <- app_assoc. reflexivity.
  - split; [exact Hkeep|]. exists m. right.
    split; [simpl; rewrite <- app_assoc; reflexivity|].
    apply (task_at_update_same
             (with_world w1
                (_notify_status task_id "decompressing"
                   ("Decompressing NSZ: " +:+ filename t) s))).
    exact Hl.
Qed.

Lemma post_nsz_keeps_source_witness :
  let s' := fst (_handle_post_download "GAME.NSZ_4" Sample.bad_libs Sample.busy) in
  fs (world s') !! "/roms/GAME.NSZ" = Some (File "compressed container")
  /\ exists m,
       (status_log s'
        = [("GAME.NSZ_4", "decompressing", "Decompressing NSZ: GAME.NSZ");
           ("GAME.NSZ_4", "decompressed", "Decompressed NSZ: " +:+ m)]
        /\ heap s' = heap Sample.busy)
       \/ (status_log s'
           = [("GAME.NSZ_4", "decompressing", "Decompressing NSZ: GAME.NSZ");
              ("GAME.NSZ_4", "decompress_failed", "NSZ decompression failed: " +:+ m)]
           /\ task_at s' 3
              = with_error_message ("NSZ decompression failed: " +:+ m)
                  (task_at Sample.busy 3)).
Proof.
  apply (post_nsz_keeps_source "GAME.NSZ_4" Sample.bad_libs Sample.busy 3
           (File "compressed container")).
  - reflexivity.
  - simpl. lia.
  - reflexivity.
  - reflexivity.
  - apply not_in_names. reflexivity.
Defined.

(** ** Configuring the keys *)

Lemma ensure_keys_cwd kp w :
  cwd (fst (NSZService._ensure_keys_in_switch_dir kp w)) = cwd w.
Proof.
  unfold NSZService._ensure_keys_in_switch_dir.
  destruct kp as [kp|]; [|reflexivity].
  destruct (String.eqb kp EmptyString); [reflexivity|].
  unfold bind, get, ret. simpl.
  set (switch_dir := Path.expanduser_tilde (home w) "/.switch").
  assert (H1 : forall w0, cwd (fst (OS.makedirs w0 switch_dir)) = cwd w0).
  { intros w0. unfold OS.makedirs.
    destruct (OS.node_at w0 switch_dir) as [[|]|]; reflexivity. }
  assert (H2 : forall w0 a b, cwd (fst (OS.copy2 w0 a b)) = cwd w0).
  { intros w0 a b. unfold OS.copy2.
    destruct (OS.node_at w0 a) as [[|]|]; try reflexivity.
    destruct (OS.node_at w0 b) as [[|]|]; reflexivity. }
  destruct (OS.exists_ w switch_dir).
  - destruct (negb _ && negb _); [apply H2 | reflexivity].
  - specialize (H1 w). destruct (OS.makedirs w switch_dir) as [w1 [u|e]];
      simpl in *; [|exact H1].
    destruct (negb _ && negb _); simpl; [rewrite H2; exact H1 | exact H1].
Qed.

Lemma validated_is_file w p :
  NSZService._validate_keys_file w p = true -> exists c, OS.node_at w p = Some (File c).
Proof.
  unfold NSZService._validate_keys_file, OS.read_text.
  destruct (OS.node_at w p) as [[c|]|]; try discriminate. eauto.
Qed.

(** X18. What [set_keys_path] leaves behind. It never removes or
    overwrites anything on disk. When it returns [False] the process and
    the configured path are as before. When it returns [True] the path it
    stored is the argument or [prod.keys] under it, that file passed
    validation, and the service is available. *)
Theorem set_keys_path_effect old keys_path w :
  let r := NSZService.set_keys_path old keys_path w in
  let w1 := fst (fst r) in
  let kp1 := snd (fst r) in
  (forall K n, fs w !! K = Some n -> fs w1 !! K = Some n)
  /\ (snd r = Ok false -> w1 = w /\ kp1 = old)
  /\ (snd r = Ok true ->
      exists akp,
        kp1 = Some akp
        /\ (akp = keys_path \/ akp = Path.join keys_path "prod.keys")
        /\ NSZService._validate_keys_file w akp = true
        /\ NSZService.is_available kp1 w1 = true).
Proof.
  unfold NSZService.set_keys_path.
  set (a := if OS.isfile w keys_path && Py.endswith ".keys" (Py.lower keys_path)
            then Some keys_path
            else if OS.isdir w keys_path
                 then if OS.exists_ w (Path.join keys_path "prod.keys")
                      then Some (Path.join keys_path "prod.keys") else None
                 else None).
  assert (Ha : forall akp, a = Some akp ->
                 akp = keys_path \/ akp = Path.join keys_path "prod.keys").
  { subst a. intros akp.
    destruct (OS.isfile w keys_path && _); [intros [= <-]; left; reflexivity|].
    destruct (OS.isdir w keys_path); [|discriminate].
    destruct (OS.exists_ w _); [|discriminate].
    intros [= <-]. right. reflexivity. }
  destruct a as [akp|]; cbv beta iota zeta.
  2:{ split; [auto|]. split; [auto | discriminate]. }
  destruct (negb (String.eqb akp EmptyString)
            && NSZService._validate_keys_file w akp) eqn:Hv; cbv beta iota zeta.
  2:{ split; [auto|]. split; [auto | discriminate]. }
  apply andb_prop in Hv as [_ Hv].
  pose proof (fun K n => Keeps_ensure_keys K n (Some akp) w) as Hkeep.
  pose proof (ensure_keys_cwd (Some akp) w) as Hcwd.
  destruct (NSZService._ensure_keys_in_switch_dir (Some akp) w) as [w1 [u|e]];
    cbn [fst snd] in *.
  - split; [exact Hkeep|]. split; [discriminate|].
    intros _. exists akp. split; [reflexivity|]. split; [apply Ha; reflexivity|].
    split; [exact Hv|].
    destruct (validated_is_file w akp Hv) as [c Hc].
    unfold NSZService.is_available, OS.isfile, OS.node_at, OS.abspath in *.
    rewrite Hcwd.
    rewrite (Hkeep _ _ Hc). reflexivity.
  - split; [exact Hkeep|]. split; discriminate.
Qed.

Lemma set_keys_path_effect_witness :
  let custom := <["/keys" := Dir]>
                  (<["/keys/prod.keys" := File "header_key=00112233445566778899aabbccddeeff"]>
                     (delete "/home/u/.switch/prod.keys" Sample.files)) in
  let w := set_fs Sample.world custom in
  let r := NSZService.set_keys_path None "/keys" w in
  snd r = Ok true
  /\ snd (fst r) = Some "/keys/prod.keys"
  /\ NSZService.is_available (snd (fst r)) (fst (fst r)) = true.
Proof.
  intros custom w r.
  destruct (set_keys_path_effect None "/keys" w) as [_ [_ H]].
  assert (E : snd r = Ok true) by (vm_compute; reflexivity).
  split; [exact E|]. split; [vm_compute; reflexivity|].
  destruct (H E) as [akp [_ [_ [_ Hav]]]]. exact Hav.
Defined.

Example set_keys_path_cases :
  let custom := <["/keys" := Dir]>
                  (<["/keys/prod.keys" := File "header_key=00112233445566778899aabbccddeeff"]>
                     (delete "/home/u/.switch/prod.keys" Sample.files)) in
  let w := set_fs Sample.world custom in
  let r := NSZService.set_keys_path None "/keys" w in
  snd r = Ok true
  /\ snd (fst r) = Some "/keys/prod.keys"
  /\ fs (fst (fst r)) !! "/home/u/.switch/prod.keys"
     = Some (File "header_key=00112233445566778899aabbccddeeff")
  /\ NSZService.set_keys_path (Some "/old.keys") "/roms/part.bin" Sample.world
     = (Sample.world, Some "/old.keys", Ok false).
Proof. cbv zeta. repeat split; vm_compute; reflexivity. Qed.

Lemma join_relative a b b' :
  Py.startswith "/" b = false -> Py.startswith "/" b' = false ->
  exists sep, Path.join a b = a +:+ sep +:+ b /\ Path.join a b' = a +:+ sep +:+ b'.
Proof.
  intros Hb Hb'. unfold Path.join. rewrite Hb, Hb'.
  destruct (String.eqb a EmptyString || Py.endswith "/" a).
  - exists EmptyString. split; reflexivity.
  - exists "/". split; reflexivity.
Qed.

(** A relative component appended to a path gives another path, also after
    both are resolved against the working directory. *)
Lemma abspath_join_longer w a b :
  a <> EmptyString -> b <> EmptyString -> Py.startswith "/" b = false ->
  (String.length (OS.abspath w a) < String.length (OS.abspath w (Path.join a b)))%nat.
Proof.
  intros Ha Hb Hrel.
  destruct (join_relative a b b Hrel Hrel) as [sep [E _]]. rewrite E.
  assert (Hlen : (0 < String.length b)%nat).
  { destruct b; [contradiction | simpl; lia]. }
  assert (Hpre : Py.startswith "/" (a +:+ sep +:+ b) = Py.startswith "/" a).
  { destruct a as [|ch r]; [contradiction|]. rewrite append_cons.
    assert (He : forall x, String.prefix EmptyString x = true)
      by (intros []; reflexivity).
    unfold Py.startswith. cbn -[Ascii.ascii_dec].
    destruct (Ascii.ascii_dec "/" ch); [rewrite !He|]; reflexivity. }
  unfold OS.abspath. rewrite Hpre.
  destruct (Py.startswith "/" a) eqn:Habs.
  - rewrite !length_append. lia.
  - destruct (join_relative (cwd w) a (a +:+ sep +:+ b) Habs) as [sep' [-> ->]].
    + exact Hpre.
    + rewrite !length_append. lia.
Qed.

(** X19. Installing the keys. With a configured key file that exists,
    [_ensure_keys_in_switch_dir] changes or removes nothing that is on
    disk, an existing [~/.switch/prod.keys] included; when that file is
    missing (and is not the configured path itself) it is there afterwards
    with the bytes of the configured file. *)
Theorem ensure_keys_installs kp c w :
  kp <> EmptyString ->
  OS.node_at w kp = Some (File c) ->
  let expected_keys :=
    Path.join (Path.expanduser_tilde (home w) "/.switch") "prod.keys" in
  let w' := fst (NSZService._ensure_keys_in_switch_dir (Some kp) w) in
  (forall K n, fs w !! K = Some n -> fs w' !! K = Some n)
  /\ (OS.exists_ w expected_keys = false ->
      kp <> expected_keys ->
      OS.node_at w' expected_keys = Some (File c)).
Proof.
  intros Hkp Hsrc expected_keys w'.
  split. { intros K n. apply (Keeps_ensure_keys K n (Some kp) w). }
  intros Hmiss Hne. subst w'.
  unfold NSZService._ensure_keys_in_switch_dir.
  apply String.eqb_neq in Hkp. rewrite Hkp.
  unfold bind, get, ret. cbn [fst snd].
  set (switch_dir := Path.expanduser_tilde (home w) "/.switch").
  fold switch_dir in expected_keys.
  assert (Hsd : switch_dir <> EmptyString).
  { subst switch_dir. unfold Path.expanduser_tilde.
    destruct (Path.rstrip_slash (home w) +:+ "/.switch"); discriminate. }
  assert (Hlong := abspath_join_longer w switch_dir "prod.keys" Hsd
                     ltac:(discriminate) eq_refl).
  fold expected_keys in Hlong.
  (* the world once [~/.switch] is there *)
  match goal with
  | |- context [let (_, _) := ?x in _] =>
      assert (Hmid : exists w1,
                 x = (w1, Ok tt)
                 /\ cwd w1 = cwd w /\ home w1 = home w
                 /\ OS.node_at w1 kp = Some (File c)
                 /\ OS.node_at w1 expected_keys = None)
  end.
  { unfold OS.exists_ in Hmiss.
    destruct (OS.node_at w expected_keys) eqn:Hek; [discriminate|].
    unfold OS.exists_.
    destruct (OS.node_at w switch_dir) as [nd|] eqn:Hn.
    - exists w. repeat split; assumption.
    - unfold OS.makedirs. rewrite Hn.
      eexists. split; [reflexivity|]. split; [reflexivity|]. split; [reflexivity|].
      unfold OS.node_at, OS.abspath in *. simpl.
      split.
      + rewrite lookup_insert_ne; [exact Hsrc|]. intros E. rewrite E in Hn. congruence.
      + rewrite lookup_insert_ne; [exact Hek|]. intros E. rewrite E in Hlong. lia. }
  destruct Hmid as [w1 [-> [Hcwd [Hhome [Hsrc1 Hek1]]]]].
  fold expected_keys.
  unfold OS.exists_. rewrite Hek1.
  apply String.eqb_neq in Hne. rewrite Hne. simpl.
  unfold OS.copy2. rewrite Hsrc1, Hek1. simpl.
  unfold OS.node_at, OS.abspath. simpl. apply lookup_insert_eq.
Qed.

Lemma ensure_keys_installs_witness :
  let w := set_fs Sample.world (delete "/home/u/.switch/prod.keys" Sample.files) in
  let w' := fst (NSZService._ensure_keys_in_switch_dir (Some "/keys/odd.keys") w) in
  OS.node_at w' "/home/u/.switch/prod.keys"
  = Some (File "header_key=0x000000000000000000000000000000")
  /\ fs w' !! "/roms/part.bin" = Some (File "half").
Proof.
  intros w w'.
  destruct (ensure_keys_installs "/keys/odd.keys"
              "header_key=0x000000000000000000000000000000" w) as [Hkeep Hnew].
  - discriminate.
  - reflexivity.
  - split.
    + apply Hnew; [reflexivity | discriminate].
    + apply Hkeep. reflexivity.
Defined.

(** ** A download from start to end *)

Lemma take_chunk_frame task_id l f data now lu bsu s :
  let s1 := fst (fst (take_chunk task_id l f data now lu bsu s)) in
  downloads s1 = downloads s
  /\ status_log s1 = status_log s
  /\ filename (task_at s1 l) = filename (task_at s l)
  /\ destination (task_at s1 l) = destination (task_at s l).
Proof.
  unfold take_chunk.
  destruct (Qle_bool _ _); [destruct (0 <? _)|]; cbn [fst];
    unfold _notify_progress;
    try change (task_at (with_progress_log ?x ?y) l) with (task_at y l);
    (split; [reflexivity|]); (split; [reflexivity|]);
    rewrite !(task_at_update_field filename) by (intros; reflexivity);
    rewrite !(task_at_update_field destination) by (intros; reflexivity);
    split; reflexivity.
Qed.

(** A body made of chunks only leaves the registry, the status events and
    the name of the task as they are. *)
Lemma download_loop_frame task_id l f items : forall c,
  forallb is_chunk items = true ->
  let s' := fst (download_loop task_id l f items c) in
  downloads s' = downloads (svc c)
  /\ status_log s' = status_log (svc c)
  /\ filename (task_at s' l) = filename (task_at (svc c) l)
  /\ destination (task_at s' l) = destination (task_at (svc c) l).
Proof.
  induction items as [|item rest IH]; intros c Hall; simpl.
  - repeat split.
  - destruct item as [data now|i|e]; try discriminate Hall. simpl in Hall.
    unfold loop_step.
    destruct (negb _); [simpl; repeat split|].
    destruct (String.eqb data EmptyString); [apply IH; exact Hall|].
    pose proof (take_chunk_frame task_id l f data now (last_update c)
                  (bytes_since_update c) (svc c)) as Hfr.
    destruct (take_chunk _ _ _ _ _ _ _ _) as [[s1 lu'] bsu'].
    cbn [fst] in Hfr. destruct Hfr as [H1 [H2 [H3 H4]]].
    destruct (IH (mkLoop s1 lu' bsu') Hall) as [G1 [G2 [G3 G4]]].
    simpl in G1, G2, G3, G4.
    repeat split; congruence.
Qed.

Lemma begin_transfer_frame l env s :
  let s1 := fst (begin_transfer l env s) in
  downloads s1 = downloads s /\ status_log s1 = status_log s.
Proof.
  unfold begin_transfer.
  destruct (if OS.exists_ _ _ then _ else _) as [resume_pos|e];
    [|split; reflexivity].
  destruct (respond env _) as [e|content_length body]; [split; reflexivity|].
  match goal with
  | |- context [let (_, _) := ?x in _] => destruct x as [w2 [fh|e]]
  end; split; reflexivity.
Qed.

Lemma worker_finally_frame task_id l s :
  let s' := worker_finally task_id l s in
  world s' = world s /\ heap s' = heap s
  /\ status_log s' = status_log s /\ downloads s' = downloads s.
Proof.
  unfold worker_finally, _start_next_pending_download.
  destruct (_ <? _); [|repeat split].
  destruct (first_pending _) as [next|]; [|repeat split].
  unfold start_download.
  destruct (Dict.get next _) as [l'|]; [|repeat split].
  destruct (negb _); [repeat split|].
  destruct (_ >=? _); repeat split.
Qed.

(** X20. A download that runs undisturbed completes. For a registered
    task whose output path is not a directory and has neither the [.zip]
    nor the [.nsz] suffix, when the server answers the request (made with
    the size of the partial file as range offset, if there is one) and the
    body arrives whole with at least the announced number of bytes, the
    worker returns with the task [completed], the file holding the old
    bytes followed by the body, [downloaded_bytes] equal to the size of the
    file, and the events [started] and [completed] reported, in this
    order. *)
Theorem download_worker_completes task_id env s l content_length body :
  Dict.get task_id (downloads s) = Some l ->
  (l < length (heap s))%nat ->
  let t := task_at s l in
  let path := get_output_path t in
  OS.isdir (world s) path = false ->
  Py.endswith ".zip" (Py.lower path) = false ->
  Py.endswith ".nsz" (Py.lower path) = false ->
  let old := partial_file s l in
  let size := Z.of_nat (String.length old) in
  respond env (if 0 <? size then Some size else None)
    = RequestOk content_length body ->
  forallb is_chunk body = true ->
  match content_length with
  | Some n => n <= stream_bytes body
  | None => True
  end ->
  let r := _download_worker task_id env s in
  let t' := task_at (fst r) l in
  snd r = Ok tt
  /\ status t' = completed
  /\ fs (world (fst r)) !! OS.abspath (world s) path
     = Some (File (old +:+ chunk_data body))
  /\ downloaded_bytes t' = Z.of_nat (String.length (old +:+ chunk_data body))
  /\ status_log (fst r)
     = (status_log s
          ++ [(task_id, "started", "Starting download: " +:+ filename t);
              (task_id, "completed", "Download completed: " +:+ filename t)])%list.
Proof.
  intros Hget Hl t path Hdir Hzip Hnsz old size Hresp Hall Hlen r t'.
  subst r t'. unfold _download_worker. rewrite Hget. cbn [fst snd].
  split; [reflexivity|].
  destruct (worker_finally_frame task_id l (worker_run task_id l env s))
    as [-> [Hheap [-> _]]].
  unfold task_at at 1 2. rewrite Hheap. fold (task_at (worker_run task_id l env s) l).
  unfold worker_run, worker_try.
  set (s0 := worker_enter task_id l env s).
  assert (Ht0 : task_at s0 l
                = with_start_time (t_start env) (with_status downloading t)).
  { subst s0. unfold worker_enter.
    apply (task_at_update_same s). exact Hl. }
  assert (Hl0 : (l < length (heap s0))%nat).
  { subst s0. unfold worker_enter. simpl. rewrite length_alter. exact Hl. }
  assert (Hpath0 : get_output_path (task_at s0 l) = path).
  { rewrite Ht0. reflexivity. }
  assert (Hold0 : partial_file s0 l = old).
  { unfold partial_file. rewrite Hpath0. reflexivity. }
  destruct (begin_transfer_opens l env s0 content_length body Hl0) as [s1 [E [Hf [HL Ht]]]].
  { rewrite Hpath0. exact Hdir. }
  { rewrite Hold0. exact Hresp. }
  rewrite Hpath0 in E, Hf. rewrite Hold0 in Hf, Ht. fold size in Ht.
  change (world s0) with (world s) in E, Hf.
  destruct (begin_transfer_frame l env s0) as [Hd1 Hlog1].
  rewrite E in Hd1, Hlog1 |- *. cbn [fst] in Hd1, Hlog1.
  set (f := OS.abspath (world s) path) in *.
  destruct (download_loop_chunks task_id l f body (mkLoop s1 (t_loop env) 0) old Hall)
    as [Hr [Hfs [Hd [Htot Hs]]]].
  { simpl. lia. }
  { simpl. rewrite Ht, Ht0. reflexivity. }
  { exact Hf. }
  destruct (download_loop_frame task_id l f body (mkLoop s1 (t_loop env) 0) Hall)
    as [Hd2 [Hlog2 [Hname Hdest]]].
  destruct (download_loop task_id l f body (mkLoop s1 (t_loop env) 0)) as [s2 r2].
  cbn [fst snd svc] in *. subst r2.
  rewrite Ht in Hd, Htot, Hname, Hdest. rewrite Ht0 in Hd, Htot, Hname, Hdest.
  cbn in Hd, Htot, Hname, Hdest.
  assert (Hl2 : (l < length (heap s2))%nat).
  { destruct (heap s2 !! l) eqn:Hlk; [apply lookup_lt_Some in Hlk; exact Hlk|].
    exfalso. unfold task_at in Hs. rewrite Hlk in Hs. discriminate Hs. }
  (* the decision at the end of the stream *)
  unfold finish. rewrite (bool_decide_eq_true_2 _ Hs).
  assert (Hdone : (total_bytes (task_at s2 l) =? 0)
                  || (downloaded_bytes (task_at s2 l) >=? total_bytes (task_at s2 l))
                  = true).
  { rewrite Hd, Htot. destruct content_length as [n|]; [|reflexivity].
    apply orb_true_iff. right. rewrite Z.geb_leb. apply Z.leb_le. lia. }
  rewrite Hdone.
  set (s3 := update_task l _ s2).
  assert (Ht3 : task_at s3 l
                = with_end_time (t_end env)
                    (with_progress 100 (with_status completed (task_at s2 l)))).
  { subst s3. apply task_at_update_same. exact Hl2. }
  unfold _handle_post_download.
  change (downloads s3) with (downloads s2). rewrite Hd2, Hd1.
  change (downloads s0) with (downloads s). rewrite Hget.
  assert (Hpath3 : get_output_path (task_at s3 l) = path).
  { rewrite Ht3. unfold get_output_path. cbn. rewrite Hname, Hdest. reflexivity. }
  rewrite Hpath3, Hzip, Hnsz.
  unfold _notify_status. cbn [status_log world].
  change (task_at (with_status_log ?x ?y) l) with (task_at y l).
  rewrite Ht3. cbn [status downloaded_bytes with_end_time with_progress with_status].
  split; [reflexivity|].
  split; [exact Hfs|].
  split.
  { rewrite Hd, stream_bytes_chunk_data, length_append. subst size. lia. }
  change (status_log s3) with (status_log s2). rewrite Hlog2, Hlog1, Hname.
  subst s0. unfold worker_enter, _notify_status.
  change (status_log (with_status_log ?x ?y)) with x.
  change (status_log (with_status_log ?x ?y)) with x.
  change (status_log (update_task ?a ?b ?y)) with (status_log y).
  rewrite <- app_assoc. reflexivity.
Qed.

Lemma download_worker_completes_witness :
  let env := mkWorkerEnv 1
      (fun range => match range with
                    | Some 4 => RequestOk (Some 4) [Chunk "ab" 3; Chunk "cd" 3]
                    | _ => RequestRaise "416 Range Not Satisfiable"
                    end) 2 4 5 Sample.libs in
  let r := _download_worker "part.bin_2" env Sample.busy in
  snd r = Ok tt
  /\ status (task_at (fst r) 1) = completed
  /\ fs (world (fst r)) !! "/roms/part.bin" = Some (File "halfabcd")
  /\ downloaded_bytes (task_at (fst r) 1) = 8.
Proof.
  intros env r.
  destruct (download_worker_completes "part.bin_2" env Sample.busy 1 (Some 4)
              [Chunk "ab" 3; Chunk "cd" 3]) as [H1 [H2 [H3 [H4 _]]]].
  - reflexivity.
  - simpl. lia.
  - reflexivity.
  - reflexivity.
  - reflexivity.
  - reflexivity.
  - reflexivity.
  - simpl. lia.
  - split; [exact H1|]. split; [exact H2|]. split; [exact H3 | exact H4].
Defined.

(** ** Pausing and cancelling a running download *)

Lemma download_loop_stopped task_id l f items c :
  forallb is_chunk items = true ->
  status (task_at (svc c) l) <> downloading ->
  download_loop task_id l f items c = (svc c, Ok tt).
Proof.
  destruct items as [|[data now|i|e] rest]; simpl; intros Hall Hst;
    try discriminate Hall; [reflexivity|].
  unfold loop_step. rewrite (bool_decide_eq_false_2 _ Hst). reflexivity.
Qed.

Lemma interrupt_status i task_id s l :
  Dict.get task_id (downloads s) = Some l ->
  (l < length (heap s))%nat ->
  status (task_at s l) = downloading ->
  status (task_at (interrupt i task_id s) l)
  = match i with IPause => paused | ICancel => failed end.
Proof.
  intros Hget Hl Hst. destruct i; simpl.
  - unfold pause_download. rewrite Hget, (bool_decide_eq_true_2 _ Hst).
    unfold _notify_status.
    change (task_at (with_status_log ?x ?y) l) with (task_at y l).
    rewrite (task_at_update_same s l _ Hl). reflexivity.
  - unfold cancel_download. rewrite Hget, (bool_decide_eq_true_2 _ Hst).
    set (s1 := update_task l _ s).
    assert (H : status (task_at s1 l) = failed).
    { subst s1. rewrite (task_at_update_same s l _ Hl). reflexivity. }
    destruct (OS.exists_ _ _); exact H.
Qed.

Lemma status_valid s l :
  status (task_at s l) = downloading -> (l < length (heap s))%nat.
Proof.
  intros Hs. destruct (heap s !! l) eqn:Hlk; [apply lookup_lt_Some in Hlk; exact Hlk|].
  exfalso. unfold task_at in Hs. rewrite Hlk in Hs. discriminate Hs.
Qed.

(** A call from another thread that takes the task out of [downloading]
    ends the loop: what follows in the body is neither written nor counted. *)
Lemma download_loop_interrupted task_id l f i before after : forall c,
  forallb is_chunk before = true -> forallb is_chunk after = true ->
  Dict.get task_id (downloads (svc c)) = Some l ->
  status (task_at (svc c) l) = downloading ->
  download_loop task_id l f (before ++ Interrupted i :: after)%list c
  = (interrupt i task_id (fst (download_loop task_id l f before c)), Ok tt).
Proof.
  induction before as [|item rest IH]; intros c Hb Ha Hget Hst.
  - simpl. apply download_loop_stopped; [exact Ha|]. simpl.
    rewrite (interrupt_status i task_id (svc c) l Hget (status_valid _ _ Hst) Hst).
    destruct i; discriminate.
  - destruct item as [data now|j|e]; try discriminate Hb. simpl in Hb.
    simpl. unfold loop_step. rewrite (bool_decide_eq_true_2 _ Hst). simpl negb. cbv iota.
    destruct (String.eqb data EmptyString); [apply IH; assumption|].
    pose proof (take_chunk_frame task_id l f data now (last_update c)
                  (bytes_since_update c) (svc c)) as Hfr.
    pose proof (take_chunk_world task_id l f data now (last_update c)
                  (bytes_since_update c) (svc c)) as Hw.
    destruct (take_chunk _ _ _ _ _ _ _ _) as [[s1 lu'] bsu'].
    cbn [fst] in Hfr, Hw. destruct Hfr as [H1 _]. destruct Hw as [_ HS].
    apply IH; simpl; congruence.
Qed.

(** X21. Pausing stops the transfer. When another thread pauses a
    registered task while its worker is between two chunks, the chunks
    seen so far are in the file and counted, the task is [paused], nothing
    that arrives afterwards is written, and the worker leaves the status
    alone at the end of the stream. *)
Theorem pause_stops_transfer task_id l f env before after c c0 :
  Dict.get task_id (downloads (svc c)) = Some l ->
  status (task_at (svc c) l) = downloading ->
  fs (world (svc c)) !! f = Some (File c0) ->
  forallb is_chunk before = true ->
  forallb is_chunk after = true ->
  let r := download_loop task_id l f (before ++ Interrupted IPause :: after)%list c in
  snd r = Ok tt
  /\ fs (world (fst r)) !! f = Some (File (c0 +:+ chunk_data before))
  /\ downloaded_bytes (task_at (fst r) l)
     = downloaded_bytes (task_at (svc c) l) + stream_bytes before
  /\ status (task_at (fst r) l) = paused
  /\ finish task_id l env (fst r) = (fst r, Ok tt).
Proof.
  intros Hget Hst Hf Hb Ha r. subst r.
  rewrite (download_loop_interrupted task_id l f IPause before after c Hb Ha Hget Hst).
  destruct (download_loop_chunks task_id l f before c c0 Hb (status_valid _ _ Hst) Hst Hf)
    as [_ [Hfs [Hd [_ Hs]]]].
  destruct (download_loop_frame task_id l f before c Hb) as [Hdl _].
  set (s1 := fst (download_loop task_id l f before c)) in *.
  cbn [fst snd]. split; [reflexivity|].
  assert (Hp : status (task_at (interrupt IPause task_id s1) l) = paused).
  { apply (interrupt_status IPause); [congruence | apply status_valid; exact Hs | exact Hs]. }
  assert (E : interrupt IPause task_id s1
              = _notify_status task_id "paused" "Download paused"
                  (update_task l (with_status paused) s1)).
  { simpl. unfold pause_download. rewrite Hdl, Hget, (bool_decide_eq_true_2 _ Hs).
    reflexivity. }
  split; [rewrite E; exact Hfs|].
  split.
  { rewrite E. unfold _notify_status.
    change (task_at (with_status_log ?x ?y) l) with (task_at y l).
    rewrite (task_at_update_field downloaded_bytes) by (intros; reflexivity).
    exact Hd. }
  split; [exact Hp|].
  unfold finish. rewrite Hp. reflexivity.
Qed.

Lemma pause_stops_transfer_witness :
  let c := mkLoop Sample.busy 2 0 in
  let r := download_loop "part.bin_2" 1 "/roms/part.bin"
             [Chunk "ab" 3; Interrupted IPause; Chunk "cd" 3] c in
  fs (world (fst r)) !! "/roms/part.bin" = Some (File "halfab")
  /\ downloaded_bytes (task_at (fst r) 1) = 6
  /\ status (task_at (fst r) 1) = paused.
Proof.
  intros c r.
  destruct (pause_stops_transfer "part.bin_2" 1 "/roms/part.bin" Sample.long_body
              [Chunk "ab" 3] [Chunk "cd" 3] c "half")
    as [_ [Hfs [Hd [Hs _]]]]; try reflexivity.
  split; [exact Hfs|]. split; [exact Hd | exact Hs].
Defined.

Lemma download_loop_cwd task_id l f items : forall c,
  forallb is_chunk items = true ->
  cwd (world (fst (download_loop task_id l f items c))) = cwd (world (svc c)).
Proof.
  induction items as [|item rest IH]; intros c Hall; simpl; [reflexivity|].
  destruct item as [data now|i|e]; try discriminate Hall. simpl in Hall.
  unfold loop_step.
  destruct (negb _); [reflexivity|].
  destruct (String.eqb data EmptyString); [apply IH; exact Hall|].
  pose proof (take_chunk_world task_id l f data now (last_update c)
                (bytes_since_update c) (svc c)) as Hw.
  destruct (take_chunk _ _ _ _ _ _ _ _) as [[s1 lu'] bsu'].
  cbn [fst] in Hw. destruct Hw as [HW _].
  rewrite (IH (mkLoop s1 lu' bsu') Hall). simpl. rewrite HW.
  unfold OS.write. destruct (fs (world (svc c)) !! f) as [[|]|]; reflexivity.
Qed.

(** X22. Cancelling stops the transfer and the file stays deleted. When
    another thread cancels a registered task while its worker is between
    two chunks, the task is marked [failed] and leaves the registry, the
    file at its output path is removed, nothing that arrives afterwards is
    written, and the worker leaves the status alone at the end of the
    stream. *)
Theorem cancel_stops_transfer task_id l env before after c c0 :
  Dict.get task_id (downloads (svc c)) = Some l ->
  status (task_at (svc c) l) = downloading ->
  let path := get_output_path (task_at (svc c) l) in
  let f := OS.abspath (world (svc c)) path in
  fs (world (svc c)) !! f = Some (File c0) ->
  forallb is_chunk before = true ->
  forallb is_chunk after = true ->
  let r := download_loop task_id l f (before ++ Interrupted ICancel :: after)%list c in
  snd r = Ok tt
  /\ get_download_status task_id (fst r) = None
  /\ OS.exists_ (world (fst r)) path = false
  /\ status (task_at (fst r) l) = failed
  /\ finish task_id l env (fst r) = (fst r, Ok tt).
Proof.
  intros Hget Hst path f Hf Hb Ha r. subst r.
  rewrite (download_loop_interrupted task_id l f ICancel before after c Hb Ha Hget Hst).
  destruct (download_loop_chunks task_id l f before c c0 Hb (status_valid _ _ Hst) Hst Hf)
    as [_ [Hfs [_ [_ Hs]]]].
  destruct (download_loop_frame task_id l f before c Hb) as [Hdl [_ [Hname Hdest]]].
  pose proof (download_loop_cwd task_id l f before c Hb) as Hcwd.
  set (s1 := fst (download_loop task_id l f before c)) in *.
  cbn [fst snd]. split; [reflexivity|].
  assert (Hget1 : Dict.get task_id (downloads s1) = Some l) by congruence.
  assert (Hpath1 : get_output_path (task_at s1 l) = path).
  { unfold path, get_output_path. rewrite Hname, Hdest. reflexivity. }
  assert (Hc : status (task_at (interrupt ICancel task_id s1) l) = failed).
  { apply (interrupt_status ICancel); [exact Hget1 | apply status_valid; exact Hs | exact Hs]. }
  destruct (cancel_download_effect task_id s1 l Hget1) as [Hgone [Hfile _]].
  rewrite Hpath1 in Hfile.
  split; [exact Hgone|].
  split.
  { apply Hfile. unfold OS.isdir, OS.node_at, OS.abspath. rewrite Hcwd.
    fold (OS.abspath (world (svc c)) path). fold f. rewrite Hfs. reflexivity. }
  split; [exact Hc|].
  unfold finish. rewrite Hc. reflexivity.
Qed.

Lemma cancel_stops_transfer_witness :
  let c := mkLoop Sample.busy 2 0 in
  let r := download_loop "part.bin_2" 1 "/roms/part.bin"
             [Chunk "ab" 3; Interrupted ICancel; Chunk "cd" 3] c in
  get_download_status "part.bin_2" (fst r) = None
  /\ OS.exists_ (world (fst r)) "/roms/part.bin" = false
  /\ status (task_at (fst r) 1) = failed.
Proof.
  intros c r.
  destruct (cancel_stops_transfer "part.bin_2" 1 Sample.long_body
              [Chunk "ab" 3] [Chunk "cd" 3] c "half")
    as [_ [Hgone [Hfile [Hs _]]]]; try reflexivity.
  split; [exact Hgone|]. split; [exact Hfile | exact Hs].
Defined.
